(* ===== verification/_CoqProject ===== *)
-Q . S2P
Prelude.v
PyData.v
Embedding.v
FaissIndex.v
RagProcessor.v
SearchLoop.v
FaissCheck.v
App.v
Route.v
Coaches.v
System.v
Server.v
