(* ===== verification/Prelude.v ===== *)
(** * Life-Coach: a verification development

    The repository is a Flask chat application ([src/app.py]) that, before
    asking an LLM for an answer, retrieves context passages from a FAISS
    vector index.  The retrieval core lives in [src/rag_processor.py]
    (loading the embedding model, the FAISS index and the pickled metadata
    into three module globals, and [search_documents]); an operator
    diagnostic in [src/faisscheck.py] ([check_faiss_index]) validates the
    persisted index against its metadata.  [src/app.py] loads the core once
    at start-up ([RAG_ENABLED]), serves the chat route [index] (which calls
    [search_documents(msg, k=3)] and builds the prompt), the coach pages
    with their sidebar, and [/feedback].

    ** Files, in dependency order, and what they model

    - [Prelude.v] (this file): the notation scope [rag_scope] (the log
      append [log |> r]), the tactic [rag_cases], the hint databases [rag]
      and [rag_rw], and generic lemmas on lists, sortedness and [omap].
    - [PyData.v]: the Python values the code handles ([PyObj]: str, list,
      tuple, dict, ...) and the primitives it calls on them: truthiness,
      [isinstance], [len], subscripting with negative indices, slicing
      [xs[a:]] and [s[:-n]], [d.get], [in] on dicts, lists and strings,
      [str.strip], [lower], [title], [replace], [endswith], [join].
    - [Embedding.v]: the embedding model (SentenceTransformer, a library)
      as the type class [Embedder] ([encode],
      [get_sentence_embedding_dimension]) with the law class [EmbedderOk];
      a keyword-count model instantiates it for computed examples.
    - [FaissIndex.v]: the FAISS contract as the class [VectorIndex] with
      the law class [VectorIndexOk] (k results, real hits first in
      non-decreasing distance, distinct in-range labels, [-1] padding);
      an exact flat L2 index [IndexFlatL2] with a bounded top-k buffer
      implements it and discharges the laws.  The retrieval service and
      the checker are proved against the interface only.
    - [RagProcessor.v]: [src/rag_processor.py].  The globals are the record
      [RagGlobals]; [load_rag_components] maps the outside world
      ([LoadEnv]: what each loader returns or that it raised) and the
      globals to the new globals, the returned flag and the log; the
      relation [rag_reachable] collects the states reachable by loads;
      [search_documents] and its loop [collect_documents] follow the code.
    - [SearchLoop.v]: the result loop of [search_documents] (lines
      124-141) as a transition system [loop_step] over [LoopState] (the
      indices left, [results], the skip log), with its executable
      [run_loop].
    - [FaissCheck.v]: [src/faisscheck.py]; [check_faiss_index] is six
      state-passing steps over [CheckState] (the flag [checks_passed], the
      locals and the log), one per numbered block, with the early return;
      [faisscheck_main] is the line its [__main__] guard prints.
    - [App.v]: [sanitize_input] and [manage_conversation_history] of
      [src/app.py] (denial filter, trimming to [2 * max_exchanges]).
    - [Route.v]: the POST branch of [index] as [index_post]: validation,
      the persona file, the joke short-circuit, retrieval when
      [RAG_ENABLED], the session's [current_coach], the prompt, the model
      call and the answer's clean-up, the [error_id] the model-call block
      attaches before re-raising and the step its log names
      ([error_step]); the 500 handler's reference ([internal_server_error],
      [getattr(e, 'error_id', 'N/A')]) and message; [get_dad_joke] with
      the HTTP outcome as input; and the [/feedback] route.  The outside
      world is a [RouteEnv], the outcome a [RouteResult].
    - [Coaches.v]: [load_coach_sidebar_data] and [coach_page] with the
      404 path, the GET index page, the 500 handler's page
      ([internal_server_error_page]) and the rendering of a JSON route's
      response or exception ([render_response]); the file system and
      [url_for] are a [SidebarEnv].
    - [System.v]: the components together.  One [World] (the shared
      index files and model, which both readers name by the same paths)
      gives the service's [LoadEnv] and the checker's [CheckEnv];
      [app_startup] is the start-up load that sets [RAG_ENABLED];
      [app_main] is the whole module-level start-up (environment
      variables as an association list, [exit(1)], the model name
      default); [index_post_null_session] is a chat request when no
      secret key is set (Flask's [NullSession]); [chat_request] is one
      [POST /] of the configured application end to end: the client of
      [create_gemini_chat_model], the session the secret key allows, the
      route and the rendered reply.
    - [Server.v]: the application serving one browser: [serve] dispatches
      a request to the index (GET or POST), coach page or feedback route
      and returns the reply and the session's [current_coach]; the coach
      files, templates and Gemini service form a fixed [Deployment];
      [serve_all] runs a sequence of requests, and [app_reachable] is the
      inductive set of sessions reachable from a browser without cookie.

    ** What the theorems show

    - Retrieval: the result has at most [k] documents and at most as many
      as the index holds; it is exactly the string documents at the valid
      labels of the index answer, in the index's order, sentinel and
      out-of-range labels dropped; with the flat index it is the
      reference "sort by distance, take k"; degraded states, blank or
      non-string queries, [k <= 0] and dimension mismatches give [[]].
      Loading: the flag and the state it leaves are characterised on
      every branch; an invariant over [rag_reachable] states; the branch
      where the flag is [True] but the service is not ready.
    - Result loop: it terminates from every state ([sn]), reaches a
      final state whose [results] are exactly [collect_documents]
      (equivalence of the loop with the structural definition), and
      accounts for every index once, each skip justified.
    - Checker: [True] exactly under the consistency conditions, the
      count mismatch reported, the early return on missing files, and
      the pass when the model cannot be loaded; its verdict and log are
      the same for any two pickles alike in kind and length ([md_indist],
      a simulation of the six blocks), so it cannot see the non-string
      items the service skips.
    - Chat helpers and route: trimming keeps exactly the last messages
      (and the [max_exchanges = 0] defect), rebuilt histories are well
      formed; the route answers 400 before touching the session, the
      session only ever records the requested coach, retrieval happens
      only when enabled and returns at most 3 documents, the prompt has
      its system prompt, at most 30 past messages and ends with the query,
      a coach switch discards the history, answers carry no asterisk,
      jokes short-circuit; every response has one of four shapes (200
      answer, 400/500 error body, 500 page); the 500 page shows the
      request's id exactly for failures of the model-call block and [N/A]
      for every other exception; with RAG enabled a failing model call is
      logged as a RAG search failure; [get_dad_joke] raises only on a JSON
      body that is not an object.
    - Coaches: the sidebar lists exactly the visible [.json] files in
      sorted order with lower-case URL names; the persona file name is
      recovered from the displayed name (round trip); a URL with an
      upper-case letter renders a page without a current coach.
    - System: a passing checker plus a loading model means the
      application starts ready on an index of the model's width with one
      document per vector; a non-list pickle starts the application with
      [RAG_ENABLED] true and every retrieval empty; and a non-string
      document passes the checker yet is never returned; without an API
      key the process exits before any loader runs; from any reachable
      state a healthy load makes the service ready for good (liveness);
      without a secret key the model is never called; every chat request
      is answered with JSON or with the 500 page carrying the index page's
      sidebar; the model client holds the environment's non-empty key and
      the configured or default model name.
    - Server: with a secret key the reachable sessions are exactly none
      and the non-empty coach names whose coach file loads with a usable
      prompt (an invariant by induction on [app_reachable], and every such
      coach reached in one message), without one no session is ever
      recorded; the relation agrees with the executable traces of
      [serve_all]; a conversation keeps its coach and history across any
      index, coach and feedback pages.

    ** Modelling choices

    Floats are not modelled: vectors have integer components and the flat
    index ranks by squared L2 distance in [Z]; a padded slot's distance
    is [DInf].  Strings are byte strings; [lower], [title] and [strip] act
    on ASCII, which is what the repository's coach names, file names and
    trigger words use.  Python also strips Unicode whitespace and
    case-maps non-ASCII letters: a query of only U+00A0 is blank for the
    code but not for the model, and the file-name round trip is proved
    for the ASCII case mapping only (a name such as [École] is outside
    it).  The random probe of the checker, the request
    body, files, the joke API and the model's answers are inputs of
    environment records.  Logging is a list of records for the messages
    that report a decision.  An exception is a [None] (or the 500 page
    when it escapes a route).  No loop needs fuel: every loop of the code
    runs over a finite list and is structural recursion here.

    ** Not modelled

    The contents of the templates ([index.html], the coach pages and
    [error.html] are a template name with its arguments), the handlers'
    logging, and the behaviour of the Gemini client (a failure of its
    constructor or of the call is one outcome of [rt_gemini]); the network
    calls, file and pickle decoding are inputs.  The [__main__] guard of
    [src/app.py] only starts Flask's development server ([app.run]).  [repr] keeps bytes from 128 on as they are (CPython
    escapes the non-printable non-ASCII characters) and shows a value of
    another type (a JSON float) by its type name.  The offline index
    builder is not part of [src/]. *)

From stdpp Require Import base list sorting.
From Stdlib Require Import ZArith Lia.

Declare Scope rag_scope.
Delimit Scope rag_scope with rag.

(** Appending one record to a log, as one [logging.*] call does. *)
Notation "log |> r" := (log ++ [r]) (at level 50, left associativity) : rag_scope.

Create HintDb rag.
Create Rewrite HintDb rag_rw.

(** Splitting every [match] and [if] of the goal and the hypotheses. *)
Ltac rag_cases :=
  repeat (case_match; simplify_eq/=).

(** * Generic lemmas *)

(** [Z.to_nat] of a [Z.min], as a [len] bounded by a count is read. *)
Lemma Z2Nat_min_le (a b : Z) : (Z.to_nat (Z.min a b) <= Z.to_nat a)%nat.
Proof. lia. Qed.

#[export] Hint Resolve Z2Nat_min_le : rag.

(** * Sortedness under the list operations the components use *)

Section sorted.
Context {A B : Type} (R : relation A).

Lemma Sorted_take (n : nat) (l : list A) : Sorted R l -> Sorted R (take n l).
Proof.
  intros Hl. revert n. induction Hl as [|x l Hl IH Hx]; intros [|n]; simpl; try constructor.
  - apply IH.
  - destruct l as [|y l], n as [|n]; simpl; constructor. by inv Hx.
Qed.

Lemma Sorted_fmap_mono (R' : relation B) (f : A -> B) (l : list A) :
  (forall a b, R a b -> R' (f a) (f b)) -> Sorted R l -> Sorted R' (f <$> l).
Proof.
  intros Hf. induction 1 as [|x l Hl IH Hx]; simpl; constructor; [done|].
  destruct l; simpl; constructor. inv Hx. by apply Hf.
Qed.

(** A sorted list followed by copies of a top element stays sorted. *)
Lemma Sorted_app_replicate_top (l : list A) (t : A) (m : nat) :
  (forall x, R x t) -> Sorted R l -> Sorted R (l ++ replicate m t).
Proof.
  intros Htop Hl. induction Hl as [|x l Hl IH Hx]; simpl.
  - induction m as [|m IHm]; simpl; constructor; [done|].
    destruct m; simpl; constructor. apply Htop.
  - constructor; [done|]. destruct l as [|y l]; simpl.
    + destruct m; simpl; constructor. apply Htop.
    + constructor. by inv Hx.
Qed.
End sorted.

(** One step of stdpp's [omap], for rewriting where [simpl] would expose
    the underlying fixpoint. *)
Lemma omap_cons_eq {A B} (f : A -> option B) (x : A) (l : list A) :
  omap f (x :: l) = match f x with Some y => y :: omap f l | None => omap f l end.
Proof. reflexivity. Qed.

Lemma length_omap_le {A B} (f : A -> option B) (l : list A) :
  length (omap f l) <= length l.
Proof.
  induction l as [|x l IH]; [done|]. rewrite omap_cons_eq.
  destruct (f x); simpl; lia.
Qed.

Lemma Forall_of_sublist {A} (P : A -> Prop) (l1 l2 : list A) :
  l1 `sublist_of` l2 -> Forall P l2 -> Forall P l1.
Proof. induction 1; intros HP; inv HP; try constructor; auto. Qed.

(** [omap] over a projection keeps a sub-list of its input, each kept
    element related to its image. *)
Lemma omap_sublist_Forall2 {A B C} (f : A -> option B) (g : C -> A) (l : list C) :
  exists l', l' `sublist_of` l /\ Forall2 (fun y x => f (g x) = Some y) (omap f (g <$> l)) l'.
Proof.
  induction l as [|x l (l' & Hsub & HF)]; [exists []; by repeat constructor|].
  rewrite fmap_cons, omap_cons_eq. destruct (f (g x)) as [y|] eqn:Hx.
  - exists (x :: l'). split; [by apply sublist_skip|]. by constructor.
  - exists l'. split; [by apply sublist_cons|]. done.
Qed.

Lemma Forall2_Forall_r_impl {A B} (R : A -> B -> Prop) (P : B -> Prop) (l : list A) (k : list B) :
  (forall x y, R x y -> P y) -> Forall2 R l k -> Forall P k.
Proof. intros HRP. induction 1; constructor; eauto. Qed.

Lemma length_omap_Forall_Some {A B} (f : A -> option B) (l : list A) :
  Forall (fun x => is_Some (f x)) l -> length (omap f l) = length l.
Proof.
  induction 1 as [|x l [y Hy] _ IH]; [done|]. rewrite omap_cons_eq, Hy. simpl. by rewrite IH.
Qed.

(** Sortedness for a transitive order survives dropping elements. *)
Lemma Sorted_sublist {A} (R : relation A) `{!Transitive R} (l1 l2 : list A) :
  l1 `sublist_of` l2 -> Sorted R l2 -> Sorted R l1.
Proof.
  intros Hsub Hs%Sorted_StronglySorted; [|apply _].
  apply StronglySorted_Sorted. induction Hsub as [|x l1 l2 Hs12 IH|x l1 l2 _ IH]; inv Hs.
  - constructor.
  - constructor; [by apply IH|]. by eapply Forall_of_sublist.
  - by apply IH.
Qed.

(** What a sub-multiset inherits from the list that contains it. *)
Section submseteq.
Context {A : Type} (l1 l2 : list A) (Hsub : l1 ⊆+ l2).

Lemma Forall_of_submseteq (P : A -> Prop) : Forall P l2 -> Forall P l1.
Proof.
  destruct (submseteq_Permutation _ _ Hsub) as [k ->].
  by intros [??]%Forall_app.
Qed.

Lemma NoDup_of_submseteq : NoDup l2 -> NoDup l1.
Proof.
  destruct (submseteq_Permutation _ _ Hsub) as [k ->].
  by intros [??]%NoDup_app.
Qed.
End submseteq.
