(* ===== verification/PyData.v ===== *)
(** * Python values and the Python primitives the sources call

    The metadata of the retrieval core is whatever [pickle.load] returned,
    and the code inspects it with [isinstance], [len] and subscripting;
    queries are inspected with [isinstance(query, str)] and
    [query.strip()].  This file models those objects ([PyObj]) and
    primitives with CPython's semantics on the cases that matter:
    subscripting wraps negative indices and raises [IndexError] out of
    range, [str.strip] removes the characters [str.isspace] accepts. *)

From stdpp Require Import base list strings pretty.
From Stdlib Require Import ZArith Lia Ascii.
From S2P Require Import Prelude.

(** * Python objects *)

(** The values [pickle.load] can return that the code distinguishes:
    [str], [list], [tuple], [dict] and everything else. *)
Inductive PyObj :=
| PyNone
| PyBool (b : bool)
| PyInt (z : Z)
| PyStr (s : string)
| PyList (xs : list PyObj)
| PyTuple (xs : list PyObj)
| PyDict (kvs : list (PyObj * PyObj))
| PyOther (type_name : string).

(** [isinstance(o, (list, tuple))], giving the items when it holds. *)
Definition py_sequence (o : PyObj) : option (list PyObj) :=
  match o with
  | PyList xs | PyTuple xs => Some xs
  | _ => None
  end.

Definition py_is_list_or_tuple (o : PyObj) : bool := bool_decide (is_Some (py_sequence o)).

(** [isinstance(o, str)], giving the text when it holds. *)
Definition py_str (o : PyObj) : option string :=
  match o with PyStr s => Some s | _ => None end.

(** [len(xs)] as a Python [int]. *)
Definition py_len {A} (xs : list A) : Z := Z.of_nat (length xs).

(** [xs[i]]: a negative index counts from the end; [None] is the
    [IndexError] CPython raises outside [-len(xs) <= i < len(xs)]. *)
Definition py_getitem {A} (xs : list A) (i : Z) : option A :=
  let j := if (i <? 0)%Z then (i + py_len xs)%Z else i in
  if ((0 <=? j) && (j <? py_len xs))%Z then xs !! Z.to_nat j else None.

(** * Strings *)

(** [str.isspace] on one character: on ASCII these are TAB, LF, VT, FF,
    CR, the separators 0x1C to 0x1F and SPACE. *)
Definition py_isspace (c : ascii) : bool :=
  let n := nat_of_ascii c in
  ((9 <=? n) && (n <=? 13)) || ((28 <=? n) && (n <=? 32)).

Fixpoint py_lstrip (s : string) : string :=
  match s with
  | EmptyString => EmptyString
  | String c s' => if py_isspace c then py_lstrip s' else s
  end.

Fixpoint py_rstrip (s : string) : string :=
  match s with
  | EmptyString => EmptyString
  | String c s' =>
      match py_rstrip s' with
      | EmptyString => if py_isspace c then EmptyString else String c EmptyString
      | r => String c r
      end
  end.

(** [s.strip()]: CPython's [do_strip] advances from the left and then
    retreats from the right over whitespace. *)
Definition py_strip (s : string) : string := py_rstrip (py_lstrip s).

(** A string all of whose characters are whitespace. *)
Fixpoint py_all_space (s : string) : bool :=
  match s with
  | EmptyString => true
  | String c s' => py_isspace c && py_all_space s'
  end.

(** Python truth values ([if x:]): [None], [False], [0] and empty
    containers are false; other objects are true. *)
Definition py_truthy (o : PyObj) : bool :=
  match o with
  | PyNone => false
  | PyBool b => b
  | PyInt z => negb (z =? 0)%Z
  | PyStr s => negb (String.eqb s EmptyString)
  | PyList xs | PyTuple xs => match xs with [] => false | _ => true end
  | PyDict kvs => match kvs with [] => false | _ => true end
  | PyOther _ => true
  end.

(** [o == key] for a string [key]: only a string with the same
    characters is equal to it. *)
Definition py_str_is (o : PyObj) (key : string) : bool :=
  match o with
  | PyStr k => String.eqb k key
  | _ => false
  end.

(** [d.get(key, default)] with a string key on an object: [None] is the
    [AttributeError] of an object that is not a dict. *)
Definition py_dict_get_or (o : PyObj) (key : string) (dflt : PyObj) : option PyObj :=
  match o with
  | PyDict kvs =>
      Some (match List.find (fun kv => py_str_is kv.1 key) kvs with
            | Some kv => kv.2
            | None => dflt
            end)
  | _ => None
  end.

(** [d.get(key)]: a missing key gives Python's [None]. *)
Definition py_dict_get (o : PyObj) (key : string) : option PyObj :=
  py_dict_get_or o key PyNone.

(** The characters of a string as one-character strings. *)
Fixpoint py_chars (s : string) : list PyObj :=
  match s with
  | EmptyString => []
  | String c s' => PyStr (String c EmptyString) :: py_chars s'
  end.

(** [for x in o]: lists and tuples give their items, dicts their keys,
    strings their characters; anything else raises [TypeError]. *)
Definition py_iter (o : PyObj) : option (list PyObj) :=
  match o with
  | PyList xs | PyTuple xs => Some xs
  | PyDict kvs => Some kvs.*1
  | PyStr s => Some (py_chars s)
  | _ => None
  end.

(** [len(o)] on an object; [None] is a [TypeError]. *)
Definition py_len_obj (o : PyObj) : option Z :=
  match o with
  | PyList xs | PyTuple xs => Some (py_len xs)
  | PyDict kvs => Some (py_len kvs)
  | PyStr s => Some (Z.of_nat (String.length s))
  | _ => None
  end.

(** [xs[start:]]: a negative start counts from the end, and both ends are
    clamped to the list. *)
Definition py_slice_from {A} (xs : list A) (start : Z) : list A :=
  let n := py_len xs in
  let a := if (start <? 0)%Z then Z.max 0 (start + n) else Z.min start n in
  drop (Z.to_nat a) xs.

(** [str.lower] on ASCII letters. *)
Definition ascii_lower (c : ascii) : ascii :=
  let n := nat_of_ascii c in
  if (65 <=? n) && (n <=? 90) then ascii_of_nat (n + 32) else c.

Fixpoint py_lower (s : string) : string :=
  match s with
  | EmptyString => EmptyString
  | String c s' => String (ascii_lower c) (py_lower s')
  end.

(** [s.replace(old, new)] for one-character [old] and [new]. *)
Fixpoint py_replace_char (old new : ascii) (s : string) : string :=
  match s with
  | EmptyString => EmptyString
  | String c s' =>
      String (if Ascii.eqb c old then new else c) (py_replace_char old new s')
  end.

(** [sep.join(parts)]. *)
Fixpoint py_join (sep : string) (parts : list string) : string :=
  match parts with
  | [] => EmptyString
  | [p] => p
  | p :: ps => String.append p (String.append sep (py_join sep ps))
  end.

(** ASCII case: CPython's [str.upper], [str.title] and [isupper] on the
    ASCII range; other bytes are left as they are. *)
Definition ascii_is_upper (c : ascii) : bool :=
  let n := nat_of_ascii c in (65 <=? n) && (n <=? 90).

Definition ascii_is_letter (c : ascii) : bool :=
  let n := nat_of_ascii c in ((65 <=? n) && (n <=? 90)) || ((97 <=? n) && (n <=? 122)).

Definition ascii_upper (c : ascii) : ascii :=
  let n := nat_of_ascii c in
  if (97 <=? n) && (n <=? 122) then ascii_of_nat (n - 32) else c.

(** [s.title()]: a letter is upper-cased after a character that is not a
    letter and lower-cased after a letter. *)
Fixpoint py_title_from (prev_cased : bool) (s : string) : string :=
  match s with
  | EmptyString => EmptyString
  | String c s' =>
      String (if prev_cased then ascii_lower c else ascii_upper c)
             (py_title_from (ascii_is_letter c) s')
  end.

Definition py_title (s : string) : string := py_title_from false s.

(** [any(ch.isupper() for ch in s)] on ASCII. *)
Fixpoint py_has_upper (s : string) : bool :=
  match s with
  | EmptyString => false
  | String c s' => ascii_is_upper c || py_has_upper s'
  end.

(** [s.replace(c, '')]. *)
Fixpoint py_remove_char (old : ascii) (s : string) : string :=
  match s with
  | EmptyString => EmptyString
  | String c s' => if Ascii.eqb c old then py_remove_char old s' else String c (py_remove_char old s')
  end.

(** [c in s] for one character [c]. *)
Fixpoint py_has_char (c : ascii) (s : string) : bool :=
  match s with
  | EmptyString => false
  | String d s' => Ascii.eqb d c || py_has_char c s'
  end.

(** [s.endswith(suffix)]. *)
Definition py_endswith (suffix s : string) : bool :=
  (String.length suffix <=? String.length s) &&
  String.eqb (String.substring (String.length s - String.length suffix) (String.length suffix) s) suffix.

(** [s[:-n]] for [n > 0]: empty when [s] is shorter than [n]. *)
Definition py_drop_last (n : nat) (s : string) : string :=
  String.substring 0 (String.length s - n) s.

(** * [str()] and [repr()] *)

Definition hex_digit (n : nat) : ascii :=
  if n <? 10 then ascii_of_nat (48 + n) else ascii_of_nat (87 + n).

(** One character of a string's [repr] with the quote [q]: CPython's
    [unicode_repr] escapes the quote, the backslash, tab, newline and
    carriage return by name and the other ASCII control characters as
    [\xhh]; bytes from 128 on (parts of non-ASCII characters) are kept. *)
Definition repr_char (q c : ascii) : string :=
  let n := nat_of_ascii c in
  if Ascii.eqb c q || Ascii.eqb c "\" then String "\" (String c EmptyString)
  else if n =? 9 then "\t"
  else if n =? 10 then "\n"
  else if n =? 13 then "\r"
  else if (n <? 32) || (n =? 127) then
    String "\" (String "x" (String (hex_digit (n / 16)) (String (hex_digit (n mod 16)) EmptyString)))
  else String c EmptyString.

Fixpoint repr_chars (q : ascii) (s : string) : string :=
  match s with
  | EmptyString => EmptyString
  | String c s' => repr_char q c +:+ repr_chars q s'
  end.

(** [repr(s)] for a string: single quotes, unless the text holds a single
    quote and no double quote. *)
Definition py_repr_str (s : string) : string :=
  let dq := ascii_of_nat 34 in
  let q := if py_has_char "'" s && negb (py_has_char dq s) then dq else "'"%char in
  String q (repr_chars q s +:+ String q EmptyString).

(** [repr(o)]; a value of another type (a float, say) is shown by its
    type name, as [object.__repr__] does without the address. *)
Fixpoint py_repr (o : PyObj) : string :=
  match o with
  | PyNone => "None"
  | PyBool b => if b then "True" else "False"
  | PyInt z => pretty z
  | PyStr s => py_repr_str s
  | PyList xs => "[" +:+ py_join ", " (map py_repr xs) +:+ "]"
  | PyTuple [x] => "(" +:+ py_repr x +:+ ",)"
  | PyTuple xs => "(" +:+ py_join ", " (map py_repr xs) +:+ ")"
  | PyDict kvs => "{" +:+ py_join ", " (map (fun '(k, v) => py_repr k +:+ ": " +:+ py_repr v) kvs) +:+ "}"
  | PyOther t => "<" +:+ t +:+ " object>"
  end.

(** [str(o)], as an f-string inserts it: a string is itself, anything
    else its [repr]. *)
Definition py_format (o : PyObj) : string :=
  match o with
  | PyStr s => s
  | _ => py_repr o
  end.

(** * Membership *)

(** [needle in hay] on strings: [needle] occurs at some position. *)
Fixpoint py_contains (needle hay : string) : bool :=
  String.prefix needle hay ||
  match hay with
  | EmptyString => false
  | String _ hay' => py_contains needle hay'
  end.

(** [key in o] for a string [key]: key membership in a dict, element
    equality in a list or tuple, substring in a string; [None] is the
    [TypeError] the other types raise. *)
Definition py_in (key : string) (o : PyObj) : option bool :=
  match o with
  | PyDict kvs => Some (existsb (fun kv => py_str_is kv.1 key) kvs)
  | PyList xs | PyTuple xs => Some (existsb (fun x => py_str_is x key) xs)
  | PyStr s => Some (py_contains key s)
  | _ => None
  end.

(** * Subscripting *)

Lemma py_getitem_in_range {A} (xs : list A) (i : Z) :
  (0 <= i < py_len xs)%Z -> py_getitem xs i = xs !! Z.to_nat i.
Proof.
  intros Hi. unfold py_getitem.
  destruct (Z.ltb_spec i 0); [lia|].
  by rewrite (proj2 (Z.leb_le _ _)), (proj2 (Z.ltb_lt _ _)) by lia.
Qed.

(** A negative index reads from the end: [xs[-1]] is the last item.  This
    is why the retrieval loop must test [0 <= idx] itself. *)
Lemma py_getitem_negative {A} (xs : list A) (i : Z) :
  (- py_len xs <= i < 0)%Z -> py_getitem xs i = xs !! Z.to_nat (i + py_len xs).
Proof.
  intros Hi. unfold py_getitem.
  destruct (Z.ltb_spec i 0); [|lia].
  by rewrite (proj2 (Z.leb_le _ _)), (proj2 (Z.ltb_lt _ _)) by lia.
Qed.

Lemma py_getitem_IndexError {A} (xs : list A) (i : Z) :
  py_getitem xs i = None <-> (i < - py_len xs \/ py_len xs <= i)%Z.
Proof.
  unfold py_getitem, py_len.
  destruct (Z.ltb_spec i 0);
    match goal with |- context [((0 <=? ?j) && (?j <? ?n))%Z] =>
      destruct (Z.leb_spec 0 j), (Z.ltb_spec j n) end; simpl;
    rewrite ?lookup_ge_None; split; intros Hx; first [done | lia].
Qed.

(** * Whitespace stripping *)

Lemma py_lstrip_all_space (s : string) :
  py_all_space (py_lstrip s) = py_all_space s.
Proof.
  induction s as [|c s IH]; simpl; [done|].
  destruct (py_isspace c) eqn:Hc; simpl; [done|]. by rewrite Hc.
Qed.

Lemma py_rstrip_empty (s : string) :
  py_rstrip s = EmptyString <-> py_all_space s = true.
Proof.
  induction s as [|c s IH]; simpl; [done|].
  destruct (py_rstrip s) eqn:Hr.
  - destruct (py_isspace c); simpl; [by rewrite <- IH|done].
  - split; [done|]. intros [_ Hs]%andb_prop. by apply IH in Hs.
Qed.

(** [not query.strip()] holds exactly for the strings made of whitespace
    only, the empty string included. *)
Lemma py_strip_empty (s : string) :
  py_strip s = EmptyString <-> py_all_space s = true.
Proof. unfold py_strip. by rewrite py_rstrip_empty, py_lstrip_all_space. Qed.

#[export] Hint Rewrite py_strip_empty : rag_rw.

Lemma py_lstrip_head (s : string) :
  py_lstrip s = EmptyString \/
  exists c s', py_lstrip s = String c s' /\ py_isspace c = false.
Proof.
  induction s as [|c s IH]; simpl; [by left|].
  destruct (py_isspace c) eqn:Hc; [done|]. right. by exists c, s.
Qed.

Lemma py_lstrip_nonspace (c : ascii) (s : string) :
  py_isspace c = false -> py_lstrip (String c s) = String c s.
Proof. simpl. by intros ->. Qed.

Lemma py_rstrip_nonspace (c : ascii) (s : string) :
  py_isspace c = false -> py_rstrip (String c s) = String c (py_rstrip s).
Proof. simpl. intros Hc. by destruct (py_rstrip s); rewrite ?Hc. Qed.

Lemma py_rstrip_cons (c : ascii) (t : string) :
  py_rstrip (String c t) =
  match py_rstrip t with
  | EmptyString => if py_isspace c then EmptyString else String c EmptyString
  | r => String c r
  end.
Proof. reflexivity. Qed.

Lemma py_rstrip_idem (s : string) : py_rstrip (py_rstrip s) = py_rstrip s.
Proof.
  induction s as [|c s IH]; [done|]. rewrite (py_rstrip_cons c s).
  destruct (py_rstrip s) as [|c' s'] eqn:Hr.
  - destruct (py_isspace c) eqn:Hc; [done|]. rewrite py_rstrip_cons. simpl. by rewrite Hc.
  - by rewrite py_rstrip_cons, IH.
Qed.

(** [strip] is idempotent: a stripped string has nothing left to strip. *)
Lemma py_strip_idem (s : string) : py_strip (py_strip s) = py_strip s.
Proof.
  unfold py_strip. destruct (py_lstrip_head s) as [->|(c & s' & -> & Hc)]; [done|].
  rewrite py_rstrip_nonspace by done. rewrite py_lstrip_nonspace by done.
  rewrite <- py_rstrip_nonspace by done. by rewrite py_rstrip_idem.
Qed.

(** * Substrings survive around them *)

Lemma prefix_app (n x t : string) :
  String.prefix n x = true -> String.prefix n (x +:+ t) = true.
Proof.
  revert n. induction x as [|c' x IH]; intros [|c n] Hx; simpl in *;
    [by destruct t|discriminate Hx|by destruct t|].
  destruct (ascii_dec c c'); [by apply IH|discriminate Hx].
Qed.

Lemma py_contains_refl (s : string) : py_contains s s = true.
Proof.
  destruct s as [|c s]; [done|]. cbn [py_contains]. apply orb_true_iff; left.
  induction s as [|c' s IH] in c |- *; simpl; destruct (ascii_dec c c); try done.
  apply (IH c').
Qed.

Lemma py_contains_app_l (n x t : string) :
  py_contains n x = true -> py_contains n (x +:+ t) = true.
Proof.
  induction x as [|c x IH].
  - destruct n; [by destruct t|]. intros Hn. discriminate Hn.
  - cbn [py_contains String.append]. intros [Hp|Hc]%orb_true_iff; apply orb_true_iff;
      [left; by apply (prefix_app n (String c x) t)|right; auto].
Qed.

Lemma py_contains_app_r (n pre x : string) :
  py_contains n x = true -> py_contains n (pre +:+ x) = true.
Proof.
  induction pre as [|c pre IH]; [done|]. simpl. intros Hx. rewrite IH by done. apply orb_true_r.
Qed.

Lemma py_lstrip_suffix (s : string) : exists pre, s = pre +:+ py_lstrip s.
Proof.
  induction s as [|c s [pre Hpre]]; [by exists EmptyString|]. simpl.
  destruct (py_isspace c); [exists (String c pre); by rewrite Hpre at 1|by exists EmptyString].
Qed.

Lemma py_rstrip_prefix (s : string) : exists t, s = py_rstrip s +:+ t.
Proof.
  induction s as [|c s [t Ht]]; [by exists EmptyString|]. rewrite py_rstrip_cons.
  destruct (py_rstrip s) as [|c' r] eqn:Hr.
  - destruct (py_isspace c); [exists (String c s)|exists s]; done.
  - exists t. by rewrite Ht at 1.
Qed.

(** What occurs in a stripped string occurs in the string. *)
Lemma py_strip_contains (n s : string) :
  py_contains n (py_strip s) = true -> py_contains n s = true.
Proof.
  unfold py_strip. intros H.
  destruct (py_rstrip_prefix (py_lstrip s)) as [t Ht].
  destruct (py_lstrip_suffix s) as [pre Hpre].
  rewrite Hpre, Ht. apply py_contains_app_r, py_contains_app_l, H.
Qed.

Lemma string_app_cons (x : ascii) (a b : string) : String x a +:+ b = String x (a +:+ b).
Proof. reflexivity. Qed.

Lemma string_app_assoc (a b c : string) : a +:+ (b +:+ c) = (a +:+ b) +:+ c.
Proof. induction a as [|x a IH]; [done|]. by rewrite !string_app_cons, IH. Qed.

(** [sep.join(xs + [y])] ends with [y]. *)
Lemma py_join_snoc (sep y : string) (xs : list string) :
  exists pre, py_join sep (xs ++ [y]) = pre +:+ y.
Proof.
  induction xs as [|x xs [pre IH]]; [by exists EmptyString|].
  destruct xs as [|x' xs]; simpl in *.
  - exists (x +:+ sep). by rewrite string_app_assoc.
  - exists (x +:+ (sep +:+ pre)). rewrite IH. by rewrite !string_app_assoc.
Qed.

(** [d.get] answers only on a dict. *)
Lemma py_dict_get_dict (o : PyObj) (key : string) (v : PyObj) :
  py_dict_get o key = Some v -> exists kvs, o = PyDict kvs.
Proof. destruct o; simpl; try discriminate. eauto. Qed.

Lemma py_dict_get_or_dict (kvs : list (PyObj * PyObj)) (key : string) (dflt : PyObj) :
  is_Some (py_dict_get_or (PyDict kvs) key dflt).
Proof. by eexists. Qed.

(** * Case mapping *)

Lemma ascii_lower_upper (c : ascii) : ascii_lower (ascii_upper c) = ascii_lower c.
Proof. destruct c as [[] [] [] [] [] [] [] []]; reflexivity. Qed.

Lemma ascii_lower_idem (c : ascii) : ascii_lower (ascii_lower c) = ascii_lower c.
Proof. destruct c as [[] [] [] [] [] [] [] []]; reflexivity. Qed.

Lemma ascii_lower_not_upper (c : ascii) : ascii_is_upper c = false -> ascii_lower c = c.
Proof. unfold ascii_lower, ascii_is_upper. by intros ->. Qed.

Lemma ascii_lower_is_upper (c : ascii) : ascii_is_upper (ascii_lower c) = false.
Proof. destruct c as [[] [] [] [] [] [] [] []]; reflexivity. Qed.

(** [s.title().lower() == s.lower()]. *)
Lemma py_lower_title_from (b : bool) (s : string) : py_lower (py_title_from b s) = py_lower s.
Proof.
  revert b. induction s as [|c s IH]; intros b; [done|]. simpl. rewrite IH.
  destruct b; [by rewrite ascii_lower_idem|by rewrite ascii_lower_upper].
Qed.

Lemma py_lower_no_upper (s : string) : py_has_upper s = false -> py_lower s = s.
Proof.
  induction s as [|c s IH]; [done|]. simpl. intros [Hc Hs]%orb_false_iff.
  by rewrite ascii_lower_not_upper, IH.
Qed.

Lemma py_has_upper_lower (s : string) : py_has_upper (py_lower s) = false.
Proof. induction s as [|c s IH]; [done|]. simpl. by rewrite ascii_lower_is_upper, IH. Qed.

Lemma py_has_upper_remove (c : ascii) (s : string) :
  py_has_upper s = false -> py_has_upper (py_remove_char c s) = false.
Proof.
  induction s as [|d s IH]; [done|]. simpl. intros [Hd Hs]%orb_false_iff.
  destruct (Ascii.eqb d c); simpl; rewrite ?Hd; auto.
Qed.

Lemma py_has_upper_replace (old new : ascii) (s : string) :
  ascii_is_upper new = false -> py_has_upper s = false ->
  py_has_upper (py_replace_char old new s) = false.
Proof.
  intros Hn. induction s as [|d s IH]; [done|]. simpl. intros [Hd Hs]%orb_false_iff.
  rewrite IH by done. by destruct (Ascii.eqb d old); rewrite ?Hn, ?Hd.
Qed.

(** Replacing back undoes a replacement when the new character did not
    occur. *)
Lemma py_replace_char_roundtrip (old new : ascii) (s : string) :
  py_has_char new s = false -> py_replace_char new old (py_replace_char old new s) = s.
Proof.
  induction s as [|d s IH]; [done|]. simpl. intros [Hd Hs]%orb_false_iff. rewrite IH by done.
  destruct (Ascii.eqb_spec d old) as [->|Hne].
  - by rewrite Ascii.eqb_refl.
  - by rewrite Hd.
Qed.

Lemma string_length_app (a b : string) :
  String.length (a +:+ b) = String.length a + String.length b.
Proof. induction a as [|c a IH]; [done|]. rewrite string_app_cons. simpl. by rewrite IH. Qed.

Lemma substring_app (a b : string) : String.substring 0 (String.length a) (a +:+ b) = a.
Proof.
  induction a as [|c a IH]; [by destruct b|]. rewrite string_app_cons. simpl. by rewrite IH.
Qed.

(** [(s + suffix)[:-len(suffix)] == s]. *)
Lemma py_drop_last_app (s suffix : string) :
  py_drop_last (String.length suffix) (s +:+ suffix) = s.
Proof.
  unfold py_drop_last. rewrite string_length_app.
  replace (String.length s + String.length suffix - String.length suffix) with (String.length s) by lia.
  apply substring_app.
Qed.


Lemma py_has_char_remove (c : ascii) (s : string) : py_has_char c (py_remove_char c s) = false.
Proof.
  induction s as [|d s IH]; [done|]. simpl.
  destruct (Ascii.eqb_spec d c) as [->|Hne]; [done|]. simpl.
  rewrite IH, orb_false_r. by apply Ascii.eqb_neq.
Qed.
