(* ===== verification/Embedding.v ===== *)
(** * The embedding model's interface

    [src/rag_processor.py] holds a [SentenceTransformer] in the global
    [embedding_model] and calls [embedding_model.encode([query])];
    [src/faisscheck.py] calls [model.get_sentence_embedding_dimension()].
    The model is a library: this file states the two operations the code
    uses as the class [Embedder] and the one law the code relies on as
    [EmbedderOk] (every vector has the model's dimension).  The keyword
    model [KeywordModel] is a small executable instance used by the
    witnesses: one coordinate per keyword group, counting the group's
    keywords that occur in the text. *)

From stdpp Require Import base list strings.
From Stdlib Require Import ZArith Lia.
From S2P Require Import Prelude PyData.

Class Embedder (M : Type) := {
  (** [model.encode([text])[0]] *)
  encode : M -> string -> list Z;
  get_sentence_embedding_dimension : M -> Z
}.

Class EmbedderOk (M : Type) `{!Embedder M} := {
  encode_length : forall m s,
    Z.of_nat (length (encode m s)) = get_sentence_embedding_dimension m
}.

(** * An executable instance *)

Record KeywordModel := { km_groups : list (list string) }.

Definition keyword_count (text : string) (group : list string) : Z :=
  Z.of_nat (length (filter (fun w => py_contains w text = true) group)).

#[export] Instance keyword_embedder : Embedder KeywordModel := {
  encode m s := map (keyword_count s) (km_groups m);
  get_sentence_embedding_dimension m := Z.of_nat (length (km_groups m))
}.

#[export] Instance keyword_embedder_ok : EmbedderOk KeywordModel.
Proof. constructor. intros m s. simpl. by rewrite length_map. Qed.
