(* ===== verification/FaissIndex.v ===== *)
(** * The vector index's interface and an exact flat L2 index

    [src/rag_processor.py] and [src/faisscheck.py] read a FAISS index
    ([faiss.read_index]) and use [index.ntotal], [index.d] and
    [index.search(x, k)].  FAISS is a library, so its contract is stated
    from the spec (section 4.2): [VectorIndex] gives the three operations,
    [VectorIndexOk] the laws the callers rely on: [search] raises on a
    query of the wrong width or a non-positive [k] and otherwise answers
    [k] (distance, label) pairs, the [min k ntotal] real hits first, with
    distinct labels in [[0, ntotal)] and non-decreasing distances, padded
    with [(DInf, -1)].

    [IndexFlatL2] is the exact index: it scores every stored vector and
    keeps the [k] best in a bounded sorted buffer, as FAISS's heap does.
    [topk_heap_ref] proves this equal to sorting all candidates and taking
    [k], and [flat_index_ok] discharges the laws. *)

From stdpp Require Import base list sorting.
From Stdlib Require Import ZArith Lia Sorted.
From S2P Require Import Prelude.

(** * Distances and the interface *)

(** A distance in a result row: FAISS fills padded slots with +inf. *)
Inductive Dist := DFin (d : Z) | DInf.

Definition dist_le (a b : Dist) : Prop :=
  match a, b with
  | _, DInf => True
  | DInf, DFin _ => False
  | DFin x, DFin y => (x <= y)%Z
  end.

#[export] Instance dist_le_dec : RelDecision dist_le.
Proof. intros [x|] [y|]; simpl; apply _. Defined.

#[export] Instance dist_le_trans : Transitive dist_le.
Proof. intros [x|] [y|] [z|]; simpl; try done; lia. Qed.

(** The label FAISS writes in a slot it could not fill. *)
Definition sentinel_label : Z := (-1)%Z.

Class VectorIndex (I : Type) := {
  ntotal : I -> Z;
  index_d : I -> Z;
  (** [index.search(x, k)] for one query row; [None] is an exception. *)
  index_search : I -> list Z -> Z -> option (list (Dist * Z))
}.

(** What a successful [search] returns, by the spec's section 4.2. *)
Definition search_result_ok {I} `{!VectorIndex I} (ix : I) (k : Z)
    (r : list (Dist * Z)) : Prop :=
  exists hits,
    r = hits ++ replicate (Z.to_nat k - length hits) (DInf, sentinel_label) /\
    length hits = Nat.min (Z.to_nat k) (Z.to_nat (ntotal ix)) /\
    Forall (fun h => (0 <= h.2 < ntotal ix)%Z /\ h.1 <> DInf) hits /\
    NoDup hits.*2 /\
    Sorted dist_le r.*1.

Class VectorIndexOk (I : Type) `{!VectorIndex I} := {
  ntotal_nonneg : forall ix, (0 <= ntotal ix)%Z;
  index_search_None : forall ix q k,
    index_search ix q k = None <->
    (Z.of_nat (length q) <> index_d ix \/ k <= 0)%Z;
  index_search_Some : forall ix q k r,
    index_search ix q k = Some r -> search_result_ok ix k r
}.

(** * The exact flat L2 index *)

Record IndexFlatL2 := {
  flat_d : Z;
  (** the stored vectors, label [i] at position [i] *)
  flat_xb : list (list Z)
}.

(** Squared L2 distance, as [IndexFlatL2] ranks by it. *)
Fixpoint l2sq (x y : list Z) : Z :=
  match x, y with
  | a :: x', b :: y' => ((a - b) * (a - b) + l2sq x' y')%Z
  | _, _ => 0%Z
  end.

(** A candidate is a (distance, label) pair; candidates are ranked by
    distance, ties by label. *)
Definition cand_leb (a b : Z * Z) : bool :=
  (a.1 <? b.1)%Z || ((a.1 =? b.1)%Z && (a.2 <=? b.2)%Z).

Definition cand_le (a b : Z * Z) : Prop := cand_leb a b = true.

Definition flat_candidates (ix : IndexFlatL2) (q : list Z) : list (Z * Z) :=
  imap (fun i v => (l2sq v q, Z.of_nat i)) (flat_xb ix).

Fixpoint cand_insert (c : Z * Z) (l : list (Z * Z)) : list (Z * Z) :=
  match l with
  | [] => [c]
  | c' :: l' => if cand_leb c c' then c :: l else c' :: cand_insert c l'
  end.

(** One step of the bounded buffer: insert, then drop what falls past
    [k] (FAISS's [heap_replace_top] on a max-heap of size [k]). *)
Definition heap_push (k : nat) (acc : list (Z * Z)) (c : Z * Z) : list (Z * Z) :=
  take k (cand_insert c acc).

Definition topk_heap (k : nat) (cands : list (Z * Z)) : list (Z * Z) :=
  fold_left (heap_push k) cands [].

(** The reference: insertion-sort every candidate, keep the first [k]. *)
Definition topk_ref (k : nat) (cands : list (Z * Z)) : list (Z * Z) :=
  take k (foldr cand_insert [] cands).

(** A result row: the hits, then [(DInf, -1)] up to [k] slots. *)
Definition to_result (k : nat) (hits : list (Z * Z)) : list (Dist * Z) :=
  ((fun c => (DFin c.1, c.2)) <$> hits) ++
  replicate (k - length hits) (DInf, sentinel_label).

Definition flat_search (ix : IndexFlatL2) (q : list Z) (k : Z) : option (list (Dist * Z)) :=
  if (Z.of_nat (length q) =? flat_d ix)%Z && (0 <? k)%Z
  then Some (to_result (Z.to_nat k) (topk_heap (Z.to_nat k) (flat_candidates ix q)))
  else None.

#[export] Instance flat_index : VectorIndex IndexFlatL2 := {
  ntotal ix := Z.of_nat (length (flat_xb ix));
  index_d := flat_d;
  index_search := flat_search
}.

(** The unbounded insertion the proofs compare the buffer with. *)
Definition cand_push (acc : list (Z * Z)) (c : Z * Z) : list (Z * Z) := cand_insert c acc.

(** The hits of a flat search, before they are turned into a row. *)
Definition flat_hits (ix : IndexFlatL2) (q : list Z) (k : nat) : list (Z * Z) :=
  take k (fold_left cand_push (flat_candidates ix q) []).

(** * The candidate order *)

Lemma cand_le_total (a b : Z * Z) : cand_le a b \/ cand_le b a.
Proof.
  unfold cand_le, cand_leb. destruct a as [x i], b as [y j]; simpl.
  destruct (Z.ltb_spec x y), (Z.ltb_spec y x), (Z.eqb_spec x y), (Z.eqb_spec y x),
    (Z.leb_spec i j), (Z.leb_spec j i); simpl; auto; lia.
Qed.

Lemma cand_le_not (a b : Z * Z) : cand_leb a b = false -> cand_le b a.
Proof. intros H. destruct (cand_le_total a b) as [H'|]; [|done]. unfold cand_le in H'. congruence. Qed.

#[export] Instance cand_le_trans : Transitive cand_le.
Proof.
  intros [x i] [y j] [z l]. unfold cand_le, cand_leb; simpl.
  rewrite !orb_true_iff, !andb_true_iff, !Z.ltb_lt, !Z.eqb_eq, !Z.leb_le. lia.
Qed.

#[export] Instance cand_le_antisymm : AntiSymm (=) cand_le.
Proof.
  intros [x i] [y j]. unfold cand_le, cand_leb; simpl.
  rewrite !orb_true_iff, !andb_true_iff, !Z.ltb_lt, !Z.eqb_eq, !Z.leb_le.
  intros H1 H2. f_equal; lia.
Qed.

(** * Insertion and the bounded buffer *)

Lemma cand_insert_perm (c : Z * Z) (l : list (Z * Z)) : cand_insert c l ≡ₚ c :: l.
Proof.
  induction l as [|c' l IH]; simpl; [done|].
  destruct (cand_leb c c'); [done|]. rewrite IH. by constructor.
Qed.

Lemma HdRel_cand_insert (a c : Z * Z) (l : list (Z * Z)) :
  HdRel cand_le a l -> cand_le a c -> HdRel cand_le a (cand_insert c l).
Proof.
  intros Hl Hac. destruct l as [|c' l]; simpl; [by constructor|].
  destruct (cand_leb c c'); constructor; [done|]. by inv Hl.
Qed.

Lemma cand_insert_sorted (c : Z * Z) (l : list (Z * Z)) :
  Sorted cand_le l -> Sorted cand_le (cand_insert c l).
Proof.
  induction 1 as [|c' l Hl IH Hhd]; simpl; [by repeat constructor|].
  destruct (cand_leb c c') eqn:Hc.
  - by repeat constructor.
  - constructor; [done|]. apply HdRel_cand_insert; [done|]. by apply cand_le_not.
Qed.

Lemma take_cons_take {A} (n : nat) (x : A) (l : list A) :
  take n (x :: take n l) = take n (x :: l).
Proof. destruct n as [|n]; simpl; [done|]. rewrite take_take. do 2 f_equal. lia. Qed.

(** Truncating the buffer before an insertion loses nothing that the
    truncation after it would keep. *)
Lemma take_cand_insert (k : nat) (c : Z * Z) (l : list (Z * Z)) :
  take k (cand_insert c (take k l)) = take k (cand_insert c l).
Proof.
  revert k. induction l as [|c' l IH]; intros k; [by rewrite take_nil|].
  destruct k as [|k]; [done|]. simpl.
  destruct (cand_leb c c'); simpl; [by rewrite take_cons_take|]. by rewrite IH.
Qed.

Lemma fold_heap_push (k : nat) (cs acc : list (Z * Z)) :
  fold_left (heap_push k) cs (take k acc) = take k (fold_left cand_push cs acc).
Proof.
  revert acc. induction cs as [|c cs IH]; intros acc; simpl; [done|].
  unfold heap_push at 2. by rewrite take_cand_insert, IH.
Qed.

Lemma fold_cand_push_sorted (cs acc : list (Z * Z)) :
  Sorted cand_le acc -> Sorted cand_le (fold_left cand_push cs acc).
Proof.
  revert acc. induction cs; intros acc Hacc; simpl; [done|].
  by apply IHcs, cand_insert_sorted.
Qed.

Lemma fold_cand_push_perm (cs acc : list (Z * Z)) :
  fold_left cand_push cs acc ≡ₚ cs ++ acc.
Proof.
  revert acc. induction cs as [|c cs IH]; intros acc; simpl; [done|].
  rewrite IH. unfold cand_push. rewrite cand_insert_perm.
  by rewrite Permutation_middle.
Qed.

Lemma foldr_cand_insert_sorted (cs : list (Z * Z)) :
  Sorted cand_le (foldr cand_insert [] cs).
Proof. induction cs; simpl; [done|]. by apply cand_insert_sorted. Qed.

Lemma foldr_cand_insert_perm (cs : list (Z * Z)) : foldr cand_insert [] cs ≡ₚ cs.
Proof. induction cs as [|c cs IH]; simpl; [done|]. by rewrite cand_insert_perm, IH. Qed.

(** The bounded buffer after all candidates is the first [k] of the
    buffer an unbounded insertion would build. *)
Lemma topk_heap_take (k : nat) (cands : list (Z * Z)) :
  topk_heap k cands = take k (fold_left cand_push cands []).
Proof. unfold topk_heap. rewrite <- fold_heap_push. by rewrite take_nil. Qed.

Lemma fold_cand_push_nil_sorted (cands : list (Z * Z)) :
  Sorted cand_le (fold_left cand_push cands []).
Proof. by apply fold_cand_push_sorted. Qed.

Lemma fold_cand_push_nil_perm (cands : list (Z * Z)) :
  fold_left cand_push cands [] ≡ₚ cands.
Proof. by rewrite fold_cand_push_perm, app_nil_r. Qed.

(** * The flat index meets the interface's laws *)

Lemma flat_candidates_labels (ix : IndexFlatL2) (q : list Z) :
  (flat_candidates ix q).*2 = Z.of_nat <$> seq 0 (length (flat_xb ix)).
Proof. unfold flat_candidates. rewrite fmap_imap. apply (imap_seq_0 _ Z.of_nat). Qed.

Lemma flat_candidates_length (ix : IndexFlatL2) (q : list Z) :
  length (flat_candidates ix q) = length (flat_xb ix).
Proof. unfold flat_candidates. by rewrite length_imap. Qed.

Lemma flat_hits_labels (ix : IndexFlatL2) (q : list Z) (k : nat) :
  NoDup (flat_hits ix q k).*2 /\
  Forall (fun l => 0 <= l < Z.of_nat (length (flat_xb ix)))%Z (flat_hits ix q k).*2.
Proof.
  assert (Hsub : (flat_hits ix q k).*2 ⊆+ (flat_candidates ix q).*2).
  { rewrite <- (fold_cand_push_nil_perm (flat_candidates ix q)).
    apply fmap_submseteq, submseteq_take. }
  rewrite flat_candidates_labels in Hsub. split.
  - eapply NoDup_of_submseteq; [done|]. apply NoDup_fmap_2; [apply _|]. apply NoDup_seq.
  - eapply Forall_of_submseteq; [done|]. apply Forall_fmap, Forall_seq. intros j Hj. simpl. lia.
Qed.

Lemma flat_hits_sorted (ix : IndexFlatL2) (q : list Z) (k : nat) :
  Sorted dist_le (DFin <$> (flat_hits ix q k).*1).
Proof.
  rewrite <- list_fmap_compose. apply (Sorted_fmap_mono cand_le).
  - intros [x i] [y j]. unfold cand_le, cand_leb; simpl.
    rewrite orb_true_iff, andb_true_iff, Z.ltb_lt, Z.eqb_eq, Z.leb_le. lia.
  - apply Sorted_take, fold_cand_push_nil_sorted.
Qed.

Lemma flat_hits_length (ix : IndexFlatL2) (q : list Z) (k : nat) :
  length (flat_hits ix q k) = Nat.min k (length (flat_xb ix)).
Proof.
  unfold flat_hits. rewrite length_take, (Permutation_length (fold_cand_push_nil_perm _)).
  by rewrite flat_candidates_length.
Qed.

Lemma flat_search_hits (ix : IndexFlatL2) (q : list Z) (k : Z) :
  (Z.of_nat (length q) = flat_d ix)%Z -> (0 < k)%Z ->
  flat_search ix q k = Some (to_result (Z.to_nat k) (flat_hits ix q (Z.to_nat k))).
Proof.
  intros Hq Hk. unfold flat_search. rewrite Hq, Z.eqb_refl, (proj2 (Z.ltb_lt _ _) Hk).
  by rewrite topk_heap_take.
Qed.

Lemma to_result_snd (hits : list (Z * Z)) :
  ((fun c : Z * Z => (DFin c.1, c.2)) <$> hits).*2 = hits.*2.
Proof. rewrite <- list_fmap_compose. by apply list_fmap_ext. Qed.

Lemma to_result_fst (hits : list (Z * Z)) :
  ((fun c : Z * Z => (DFin c.1, c.2)) <$> hits).*1 = DFin <$> hits.*1.
Proof. rewrite <- !list_fmap_compose. by apply list_fmap_ext. Qed.



#[export] Instance flat_index_ok : VectorIndexOk IndexFlatL2.
Proof.
  constructor.
  - intros ix. simpl. lia.
  - intros ix q k. simpl. unfold flat_search.
    destruct (Z.eqb_spec (Z.of_nat (length q)) (flat_d ix)), (Z.ltb_spec 0 k);
      simpl; split; intros Hx; first [done | lia].
  - intros ix q k r. simpl. unfold flat_search.
    destruct (Z.eqb_spec (Z.of_nat (length q)) (flat_d ix)), (Z.ltb_spec 0 k);
      simpl; intros Hr; simplify_eq. rewrite topk_heap_take. fold (flat_hits ix q (Z.to_nat k)).
    destruct (flat_hits_labels ix q (Z.to_nat k)) as [Hnd Hrange].
    exists ((fun c : Z * Z => (DFin c.1, c.2)) <$> flat_hits ix q (Z.to_nat k)).
    unfold to_result. split_and!; [by rewrite length_fmap | | | |].
    + rewrite length_fmap, flat_hits_length. simpl. by rewrite Nat2Z.id.
    + apply Forall_fmap. rewrite Forall_fmap in Hrange.
      eapply Forall_impl; [done|]. intros [d l]; simpl. done.
    + by rewrite to_result_snd.
    + rewrite fmap_app, fmap_replicate, to_result_fst. simpl.
      apply Sorted_app_replicate_top; [by intros []|]. apply flat_hits_sorted.
Qed.

(** The exact index's bounded buffer, filled one candidate at a time and
    truncated to [k] after every insertion, yields the same [k] hits as
    sorting every candidate by (distance, label) and keeping the first
    [k]. *)
Theorem topk_heap_ref (k : nat) (cands : list (Z * Z)) :
  topk_heap k cands = topk_ref k cands.
Proof.
  rewrite topk_heap_take. unfold topk_ref. f_equal.
  apply (Sorted_unique cand_le).
  - apply fold_cand_push_nil_sorted.
  - apply foldr_cand_insert_sorted.
  - by rewrite fold_cand_push_nil_perm, foldr_cand_insert_perm.
Qed.
