(* ===== verification/RagProcessor.v ===== *)
(** * The retrieval service of [src/rag_processor.py]

    The module keeps three globals ([embedding_model], [faiss_index],
    [metadata], lines 17-19), modelled as the record [RagGlobals].
    [load_rag_components] (lines 22-89) fills them from the outside
    world, which [LoadEnv] describes: what each loader returned, or that
    it raised.  It returns the new globals, the flag the function returns
    and the decision-bearing log records.  [are_rag_components_loaded]
    (lines 155-166) is the readiness test, [search_documents] (lines
    92-152) the query path, whose result loop (lines 124-141) is
    [collect_documents].

    Everything is stated over any embedding model and any index that meet
    the interfaces of [Embedding.v] and [FaissIndex.v]. *)

From stdpp Require Import base list sorting strings sets.
From Stdlib Require Import ZArith Lia Sorted.
From S2P Require Import Prelude PyData Embedding FaissIndex.

Local Open Scope rag_scope.

Section RagProcessor.
Context {M I : Type} `{!Embedder M, !VectorIndex I}.

(** The three module globals; [None] is Python's [None]. *)
Record RagGlobals := {
  embedding_model : option M;
  faiss_index : option I;
  metadata : option PyObj
}.

Definition rag_init : RagGlobals :=
  {| embedding_model := None; faiss_index := None; metadata := None |}.

(** What the loaders return in this process: [None] for a loader that
    raised ([SentenceTransformer(...)], [faiss.read_index],
    [pickle.load]); the two booleans are [os.path.exists] on the index
    and the pickle paths. *)
Record LoadEnv := {
  env_model : option M;
  env_index_exists : bool;
  env_read_index : option I;
  env_pkl_exists : bool;
  env_pickle : option PyObj
}.

(** The log records of [load_rag_components] that report a decision. *)
Inductive LoadLog :=
| LogAlreadyLoaded
| LogModelLoadFailed
| LogIndexNotFound
| LogIndexLoadFailed
| LogIndexLoaded (n : Z)
| LogPklNotFound
| LogMetadataLoadFailed
| LogMetadataBadType
| LogMetadataLoaded (n : Z)
| LogLengthMismatch (len n : Z)
| LogAllLoaded.

Definition are_rag_components_loaded (g : RagGlobals) : bool :=
  let loaded := bool_decide (is_Some (embedding_model g)) &&
                bool_decide (is_Some (faiss_index g)) &&
                bool_decide (is_Some (metadata g)) in
  let type_ok := match metadata g with
                 | Some md => py_is_list_or_tuple md
                 | None => false
                 end in
  loaded && type_ok.

(** The validation block (lines 70-78): a type error is only logged, a
    length mismatch only warned about. *)
Definition metadata_validation_log (ix : I) (md : PyObj) : list LoadLog :=
  match py_sequence md with
  | None => [LogMetadataBadType]
  | Some items =>
      LogMetadataLoaded (py_len items) ::
      (if (py_len items =? ntotal ix)%Z then []
       else [LogLengthMismatch (py_len items) (ntotal ix)])
  end.

Definition load_rag_components (env : LoadEnv) (g : RagGlobals)
    : RagGlobals * bool * list LoadLog :=
  if are_rag_components_loaded g then (g, true, [LogAlreadyLoaded]) else
  match env_model env with
  | None =>
      ({| embedding_model := None; faiss_index := faiss_index g;
          metadata := metadata g |}, false, [LogModelLoadFailed])
  | Some m =>
      if negb (env_index_exists env) then
        ({| embedding_model := Some m; faiss_index := faiss_index g;
            metadata := metadata g |}, false, [LogIndexNotFound])
      else
      match env_read_index env with
      | None =>
          ({| embedding_model := Some m; faiss_index := None;
              metadata := metadata g |}, false, [LogIndexLoadFailed])
      | Some ix =>
          if negb (env_pkl_exists env) then
            ({| embedding_model := Some m; faiss_index := Some ix;
                metadata := metadata g |}, false,
             [LogIndexLoaded (ntotal ix); LogPklNotFound])
          else
          match env_pickle env with
          | None =>
              ({| embedding_model := Some m; faiss_index := Some ix;
                  metadata := None |}, false,
               [LogIndexLoaded (ntotal ix); LogMetadataLoadFailed])
          | Some md =>
              ({| embedding_model := Some m; faiss_index := Some ix;
                  metadata := Some md |}, true,
               LogIndexLoaded (ntotal ix) :: metadata_validation_log ix md |> LogAllLoaded)
          end
      end
  end.

(** The loop of lines 127-141 over [indices[0]]: skip the sentinel [-1]
    and any index outside [[0, len(metadata))], keep the items that are
    strings. *)
Fixpoint collect_documents (items : list PyObj) (idxs : list Z) : list string :=
  match idxs with
  | [] => []
  | idx :: idxs' =>
      if (idx =? -1)%Z then collect_documents items idxs'
      else if ((0 <=? idx) && (idx <? py_len items))%Z then
        match py_getitem items idx with
        | Some (PyStr doc) => doc :: collect_documents items idxs'
        | _ => collect_documents items idxs'
        end
      else collect_documents items idxs'
  end.

(** [search_documents(query, k)]: every exception of the [try] block is
    caught and turned into [[]]. *)
Definition search_documents (g : RagGlobals) (query : PyObj) (k : Z) : list string :=
  if negb (are_rag_components_loaded g) then [] else
  match metadata g with
  | None => []
  | Some md =>
      match query with
      | PyStr q =>
          match py_strip q with
          | EmptyString => []
          | _ =>
              match embedding_model g, faiss_index g with
              | Some m, Some ix =>
                  match index_search ix (encode m q) k with
                  | None => []
                  | Some r =>
                      match py_sequence md with
                      | Some items => collect_documents items r.*2
                      | None => []
                      end
                  end
              | _, _ => []
              end
          end
      | _ => []
      end
  end.
(** The abstract reading of a label the spec gives (section 4.3): the
    text stored at that position, when it is a string. *)
Definition doc_at (items : list PyObj) (l : Z) : option string :=
  items !! Z.to_nat l ≫= py_str.
End RagProcessor.

Arguments RagGlobals : clear implicits.
Arguments LoadEnv : clear implicits.

(** The states the globals can reach from import time: each call of
    [load_rag_components] (the application makes one, at start-up) is a
    step; [search_documents] reads the globals and never writes them. *)
Inductive rag_reachable {M I} `{!Embedder M, !VectorIndex I} : RagGlobals M I -> Prop :=
| reach_init : rag_reachable rag_init
| reach_load (env : LoadEnv M I) (g : RagGlobals M I) :
    rag_reachable g -> rag_reachable (load_rag_components env g).1.1.

(** * A concrete deployment

    The spec's scenario A: three documents, a keyword embedding with a
    "fruit/dessert" and a "car" coordinate, and the exact index built
    from the documents' embeddings, as the offline builder does. *)
Module Demo.
Definition model : KeywordModel :=
  {| km_groups := [["fruit"; "dessert"; "apple"; "pie"; "banana"; "bread"];
                   ["car"; "engine"]] |}.
Definition docs : list string := ["apple pie"; "car engine"; "banana bread"].
Definition index : IndexFlatL2 :=
  {| flat_d := 2; flat_xb := encode model <$> docs |}.
Definition pickled : PyObj := PyList (PyStr <$> docs).
Definition env : LoadEnv KeywordModel IndexFlatL2 :=
  {| env_model := Some model; env_index_exists := true;
     env_read_index := Some index; env_pkl_exists := true;
     env_pickle := Some pickled |}.
(** The same deployment with a pickle holding a dict. *)
Definition env_dict : LoadEnv KeywordModel IndexFlatL2 :=
  {| env_model := Some model; env_index_exists := true;
     env_read_index := Some index; env_pkl_exists := true;
     env_pickle := Some (PyDict [(PyInt 0, PyStr "apple pie")]) |}.
(** The index file is missing. *)
Definition env_missing : LoadEnv KeywordModel IndexFlatL2 :=
  {| env_model := Some model; env_index_exists := false;
     env_read_index := None; env_pkl_exists := true;
     env_pickle := Some pickled |}.
(** The pickle lost its last document (spec scenario D's shape). *)
Definition env_short : LoadEnv KeywordModel IndexFlatL2 :=
  {| env_model := Some model; env_index_exists := true;
     env_read_index := Some index; env_pkl_exists := true;
     env_pickle := Some (PyList [PyStr "apple pie"; PyStr "car engine"]) |}.
(** The globals after the start-up load. *)
Definition ready : RagGlobals KeywordModel IndexFlatL2 :=
  (load_rag_components env rag_init).1.1.
End Demo.

(** * Proofs *)

Section RagProofs.
Context {M I : Type} `{!Embedder M, !VectorIndex I, !VectorIndexOk I}.

(** ** The result loop *)

Lemma collect_documents_app (items : list PyObj) (xs ys : list Z) :
  collect_documents items (xs ++ ys) =
  collect_documents items xs ++ collect_documents items ys.
Proof. induction xs as [|x xs IH]; simpl; [done|]. rewrite IH. by rag_cases. Qed.

Lemma collect_documents_sentinels (items : list PyObj) (n : nat) :
  collect_documents items (replicate n sentinel_label) = [].
Proof. unfold sentinel_label. by induction n. Qed.

Lemma collect_documents_length (items : list PyObj) (ls : list Z) :
  length (collect_documents items ls) <= length ls.
Proof. induction ls as [|l ls IH]; simpl; [lia|]. rag_cases; simpl; lia. Qed.

(** On labels that are not negative the loop is the abstract reading. *)
Lemma collect_documents_valid (items : list PyObj) (ls : list Z) :
  Forall (fun l => 0 <= l)%Z ls ->
  collect_documents items ls = omap (doc_at items) ls.
Proof.
  induction 1 as [|l ls Hl _ IH]; [done|]. rewrite omap_cons_eq. simpl.
  rewrite IH. destruct (Z.eqb_spec l (-1)); [lia|].
  unfold doc_at. destruct (Z.ltb_spec l (py_len items)) as [Hlt|Hge]; simpl.
  - rewrite (proj2 (Z.leb_le _ _) Hl). simpl.
    rewrite py_getitem_in_range by lia.
    by destruct (items !! Z.to_nat l) as [[]|].
  - rewrite andb_false_r. unfold py_len in Hge.
    by rewrite (proj2 (lookup_ge_None _ _)) by lia.
Qed.

Lemma collect_documents_true_hits (items : list PyObj) (hits : list (Dist * Z)) (n : nat) :
  Forall (fun h => 0 <= h.2)%Z hits ->
  collect_documents items (hits ++ replicate n (DInf, sentinel_label)).*2 =
  omap (doc_at items) hits.*2.
Proof.
  intros Hh. rewrite fmap_app, fmap_replicate, collect_documents_app.
  rewrite collect_documents_sentinels, app_nil_r.
  apply collect_documents_valid. by apply Forall_fmap.
Qed.

(** ** Shape of a search *)

(** Either the search gives [[]], or every guard passed and the result
    is the loop over the index's answer. *)
Lemma search_documents_cases (g : RagGlobals M I) (query : PyObj) (k : Z) :
  search_documents g query k = [] \/
  exists m ix md items q r,
    embedding_model g = Some m /\ faiss_index g = Some ix /\
    metadata g = Some md /\ py_sequence md = Some items /\
    query = PyStr q /\ py_all_space q = false /\
    index_search ix (encode m q) k = Some r /\
    search_documents g query k = collect_documents items r.*2.
Proof.
  unfold search_documents. rag_cases; try by left.
  right. eexists _, _, _, _, _, _. split_and!; try done.
  apply not_true_iff_false. rewrite <- py_strip_empty. congruence.
Qed.
Lemma py_sequence_is_list_or_tuple (md : PyObj) (items : list PyObj) :
  py_sequence md = Some items -> py_is_list_or_tuple md = true.
Proof. intros H. unfold py_is_list_or_tuple. rewrite H. by apply bool_decide_eq_true. Qed.

(** With every global set, a list or tuple of metadata and a query that
    is not blank, the search is the loop over the index's answer. *)
Lemma search_documents_ready (g : RagGlobals M I) m ix md items q k :
  embedding_model g = Some m -> faiss_index g = Some ix -> metadata g = Some md ->
  py_sequence md = Some items -> py_all_space q = false ->
  search_documents g (PyStr q) k =
  match index_search ix (encode m q) k with
  | Some r => collect_documents items r.*2
  | None => []
  end.
Proof.
  intros Hm Hix Hmd Hitems Hq. unfold search_documents, are_rag_components_loaded.
  rewrite Hm, Hix, Hmd, (py_sequence_is_list_or_tuple _ _ Hitems). simpl.
  destruct (py_strip q) eqn:Hs; [apply py_strip_empty in Hs; congruence|].
  destruct (index_search ix (encode m q) k); [by rewrite Hitems|done].
Qed.

(** The loop over a successful answer reads exactly the real hits. *)
Lemma index_search_collect (ix : I) (v : list Z) (k : Z) (r : list (Dist * Z))
    (items : list PyObj) :
  index_search ix v k = Some r ->
  exists hits,
    r = hits ++ replicate (Z.to_nat k - length hits) (DInf, sentinel_label) /\
    length hits = Nat.min (Z.to_nat k) (Z.to_nat (ntotal ix)) /\
    Forall (fun h => (0 <= h.2 < ntotal ix)%Z) hits /\
    NoDup hits.*2 /\ Sorted dist_le hits.*1 /\
    collect_documents items r.*2 = omap (doc_at items) hits.*2.
Proof.
  intros Hr. destruct (index_search_Some _ _ _ _ Hr) as (hits & -> & Hlen & Hall & Hnd & Hsorted).
  exists hits. split_and!; [done|done| | done | |].
  - eapply Forall_impl; [done|]. by intros h [? _].
  - rewrite fmap_app in Hsorted.
    rewrite <- (take_app_length hits.*1
      (replicate (Z.to_nat k - length hits) (DInf, sentinel_label)).*1).
    by apply Sorted_take.
  - apply collect_documents_true_hits. eapply Forall_impl; [done|]. intros h [? _]. lia.
Qed.

(** The length bounds of a search, shared by the service's clients. *)
Lemma search_documents_length (g : RagGlobals M I) (query : PyObj) (k : Z) :
  length (search_documents g query k) <= Z.to_nat k /\
  (forall ix, faiss_index g = Some ix ->
    length (search_documents g query k) <= Z.to_nat (ntotal ix)).
Proof.
  destruct (search_documents_cases g query k)
    as [->|(m & ix & md & items & q & r & Hm & Hix & Hmd & Hitems & -> & Hq & Hr & ->)];
    [split; [|intros ? ?]; simpl; lia|].
  destruct (index_search_collect ix _ k r items Hr) as (hits & _ & Hlen & _ & _ & _ & ->).
  pose proof (length_omap_le (doc_at items) hits.*2) as Hle. rewrite length_fmap in Hle.
  split; [lia|]. intros ix' Hix'. simplify_eq. lia.
Qed.

(** C1: with every component loaded, a list or tuple of metadata and a
    query with a non-whitespace character, whenever the index answers
    [r], [r] is its real hits followed by sentinel padding and the
    service returns, in the index's order, the text stored at each real
    hit's position, dropping the positions past the metadata and the
    items that are not strings. *)
Theorem search_documents_refines (g : RagGlobals M I) m ix md items q k r :
  embedding_model g = Some m -> faiss_index g = Some ix -> metadata g = Some md ->
  py_sequence md = Some items -> py_all_space q = false ->
  index_search ix (encode m q) k = Some r ->
  exists hits,
    r = hits ++ replicate (Z.to_nat k - length hits) (DInf, sentinel_label) /\
    Forall (fun h => (0 <= h.2 < ntotal ix)%Z) hits /\
    search_documents g (PyStr q) k = omap (doc_at items) hits.*2.
Proof.
  intros Hm Hix Hmd Hitems Hq Hr.
  rewrite (search_documents_ready g m ix md items q k), Hr by done.
  destruct (index_search_collect ix _ k r items Hr) as (hits & Hr' & _ & Hall & _ & _ & Hcol).
  by exists hits.
Qed.

(** C2: whatever the state, the query and [k], the result has at most
    [k] documents, and at most as many as the loaded index holds. *)
Theorem search_documents_bounded (g : RagGlobals M I) (query : PyObj) (k : Z) :
  length (search_documents g query k) <= Z.to_nat k /\
  (forall ix, faiss_index g = Some ix ->
    length (search_documents g query k) <= Z.to_nat (ntotal ix)).
Proof. apply search_documents_length. Qed.
Lemma doc_at_Some (items : list PyObj) (l : Z) (doc : string) :
  doc_at items l = Some doc -> items !! Z.to_nat l = Some (PyStr doc).
Proof. unfold doc_at. destruct (items !! Z.to_nat l) as [[]|]; simpl; congruence. Qed.

Lemma search_documents_blank (g : RagGlobals M I) (q : string) (k : Z) :
  py_all_space q = true -> search_documents g (PyStr q) k = [].
Proof.
  intros Hq%py_strip_empty. unfold search_documents.
  destruct (are_rag_components_loaded g), (metadata g); simpl; by rewrite ?Hq.
Qed.

(** C4: the returned documents come, in order, from distinct positions
    of the index's answer whose distances are non-decreasing; each
    document is the string stored at its position, which lies inside
    the metadata. *)
Theorem search_documents_ranked (g : RagGlobals M I) m ix md items q k :
  embedding_model g = Some m -> faiss_index g = Some ix -> metadata g = Some md ->
  py_sequence md = Some items ->
  exists hs : list (Dist * Z),
    Forall2 (fun doc h => items !! Z.to_nat h.2 = Some (PyStr doc))
      (search_documents g (PyStr q) k) hs /\
    Forall (fun h => 0 <= h.2 < py_len items)%Z hs /\
    Sorted dist_le hs.*1 /\ NoDup hs.*2 /\
    (forall r, index_search ix (encode m q) k = Some r -> hs `sublist_of` r).
Proof.
  intros Hm Hix Hmd Hitems.
  destruct (py_all_space q) eqn:Hq.
  { rewrite search_documents_blank by done.
    exists []. split_and!; try constructor. intros. apply sublist_nil_l. }
  rewrite (search_documents_ready g m ix md items q k) by done.
  destruct (index_search ix (encode m q) k) as [r|] eqn:Hr;
    [|exists []; split_and!; try constructor; done].
  destruct (index_search_collect ix _ k r items Hr)
    as (hits & Hr' & _ & Hall & Hnd & Hsorted & ->).
  destruct (omap_sublist_Forall2 (doc_at items) snd hits) as (hs & Hhs & HF).
  exists hs. split_and!.
  - eapply Forall2_impl; [done|]. intros doc h. apply doc_at_Some.
  - apply Forall_and; split.
    + eapply Forall_of_sublist; [done|]. eapply Forall_impl; [done|]. simpl. lia.
    + eapply Forall2_Forall_r_impl; [|done]. intros doc h ?%doc_at_Some%lookup_lt_Some.
      unfold py_len. lia.
  - eapply Sorted_sublist; [apply _| |done]. by apply fmap_sublist.
  - eapply sublist_NoDup; [done|]. by apply fmap_sublist.
  - intros r' Hr''. simplify_eq. by apply sublist_inserts_r.
Qed.
(** C5: when the index and the metadata agree (every position of the
    index is inside the metadata, every item is a string), a non-blank
    query of the index's width with [k > 0] returns exactly
    [min k ntotal] documents: nothing is lost to the guards. *)
Theorem search_documents_count (g : RagGlobals M I) m ix md items q k :
  embedding_model g = Some m -> faiss_index g = Some ix -> metadata g = Some md ->
  py_sequence md = Some items -> py_all_space q = false ->
  Z.of_nat (length (encode m q)) = index_d ix -> (0 < k)%Z ->
  (ntotal ix <= py_len items)%Z -> Forall (fun o => is_Some (py_str o)) items ->
  length (search_documents g (PyStr q) k) = Nat.min (Z.to_nat k) (Z.to_nat (ntotal ix)).
Proof.
  intros Hm Hix Hmd Hitems Hq Hd Hk Hn Hstr.
  rewrite (search_documents_ready g m ix md items q k) by done.
  destruct (index_search ix (encode m q) k) as [r|] eqn:Hr.
  2: { apply index_search_None in Hr. lia. }
  destruct (index_search_collect ix _ k r items Hr) as (hits & _ & Hlen & Hall & _ & _ & ->).
  rewrite length_omap_Forall_Some, length_fmap; [done|].
  apply Forall_fmap. eapply Forall_impl; [done|]. intros [d l] Hl; simpl in *.
  unfold doc_at. destruct (lookup_lt_is_Some_2 items (Z.to_nat l)) as [o Ho].
  { unfold py_len in Hn. lia. }
  rewrite Ho. simpl. eapply Forall_lookup_1 in Hstr; [|done]. done.
Qed.

(** In a state where [are_rag_components_loaded] fails (a
    component missing, or metadata that is not a list or tuple) every
    search returns [[]], never an exception. *)
Theorem search_documents_degraded (g : RagGlobals M I) (query : PyObj) (k : Z) :
  are_rag_components_loaded g = false -> search_documents g query k = [].
Proof. intros Hg. unfold search_documents. by rewrite Hg. Qed.

(** A query that is not a string, or is a string of whitespace
    only (the empty string included), returns [[]]. *)
Theorem search_documents_rejects_query (g : RagGlobals M I) (query : PyObj) (k : Z) :
  (forall q, query = PyStr q -> py_all_space q = true) ->
  search_documents g query k = [].
Proof.
  intros Hq. destruct query as [| | |q| | | |];
    try (unfold search_documents; by rag_cases).
  by apply search_documents_blank, Hq.
Qed.

(** C6: when the index refuses the call, because [k <= 0] or because
    the model's vector does not have the index's width, the service
    returns [[]]: the exception is absorbed, and no ranking is computed
    from mismatched vectors. *)
Theorem search_documents_search_error (g : RagGlobals M I) m ix (q : string) (k : Z) :
  embedding_model g = Some m -> faiss_index g = Some ix ->
  ((k <= 0)%Z \/ Z.of_nat (length (encode m q)) <> index_d ix) ->
  search_documents g (PyStr q) k = [].
Proof.
  intros Hm Hix Herr.
  destruct (search_documents_cases g (PyStr q) k)
    as [|(m' & ix' & md & items & q' & r & Hm' & Hix' & _ & _ & Hq & _ & Hr & _)]; [done|].
  simplify_eq. assert (index_search ix (encode m q') k = None) as Hnone.
  { apply index_search_None. lia. }
  congruence.
Qed.

(** An index position outside [[0, len(metadata))] (the sentinel,
    any other negative position, which Python's [metadata[idx]] would
    wrap around, or a position past the metadata) contributes nothing
    and does not disturb the rest of the loop. *)
Theorem collect_documents_skip_invalid (items : list PyObj) (xs ys : list Z) (i : Z) :
  (i < 0 \/ py_len items <= i)%Z ->
  collect_documents items (xs ++ i :: ys) = collect_documents items (xs ++ ys).
Proof.
  intros Hi. rewrite !collect_documents_app. simpl. f_equal.
  destruct (Z.eqb_spec i (-1)); [done|].
  destruct (Z.leb_spec 0 i), (Z.ltb_spec i (py_len items)); simpl; done || lia.
Qed.
(** ** Loading *)

Lemma not_loaded_cases (g : RagGlobals M I) :
  are_rag_components_loaded g = false <->
  embedding_model g = None \/ faiss_index g = None \/
  (forall md, metadata g = Some md -> py_is_list_or_tuple md = false).
Proof.
  unfold are_rag_components_loaded.
  destruct (embedding_model g), (faiss_index g), (metadata g) as [md|];
    simpl; rag_cases; naive_solver.
Qed.

(** C8: [load_rag_components] returns [True] exactly when the
    components were already loaded or the model, the index file, the
    index, the pickle file and the pickle all loaded, whatever the
    pickle holds. *)
Theorem load_rag_components_flag (env : LoadEnv M I) (g : RagGlobals M I) :
  (load_rag_components env g).1.2 = true <->
  are_rag_components_loaded g = true \/
  (is_Some (env_model env) /\ env_index_exists env = true /\
   is_Some (env_read_index env) /\ env_pkl_exists env = true /\
   is_Some (env_pickle env)).
Proof.
  unfold load_rag_components.
  destruct (are_rag_components_loaded g); [naive_solver|].
  destruct (env_model env), (env_index_exists env), (env_read_index env),
    (env_pkl_exists env), (env_pickle env); simpl; naive_solver.
Qed.

(** The start-up load leaves the service ready exactly when every
    loader succeeded and the pickle holds a list or a tuple. *)
Theorem load_from_init_ready (env : LoadEnv M I) :
  are_rag_components_loaded (load_rag_components env rag_init).1.1 = true <->
  exists m ix md, env_model env = Some m /\ env_index_exists env = true /\
    env_read_index env = Some ix /\ env_pkl_exists env = true /\
    env_pickle env = Some md /\ py_is_list_or_tuple md = true.
Proof.
  unfold load_rag_components, are_rag_components_loaded; simpl.
  destruct (env_model env), (env_index_exists env), (env_read_index env),
    (env_pkl_exists env), (env_pickle env) as [md|]; simpl; naive_solver.
Qed.
(** C9: on every state reachable from import, metadata that is a list
    or a tuple comes with a loaded model and index: the globals never
    hold usable metadata without the components that serve it. *)
Theorem rag_reachable_metadata_ready (g : RagGlobals M I) :
  rag_reachable g ->
  forall md, metadata g = Some md -> py_is_list_or_tuple md = true ->
  are_rag_components_loaded g = true.
Proof.
  induction 1 as [|env g Hg IH]; [done|]. intros md.
  unfold load_rag_components.
  destruct (are_rag_components_loaded g) eqn:Hl; [simpl; by rewrite Hl|].
  destruct (env_model env), (env_index_exists env), (env_read_index env),
    (env_pkl_exists env), (env_pickle env); simpl; intros Hmd Hseq; simplify_eq;
    try (rewrite ?Hl in IH; discriminate (IH md Hmd Hseq)).
  unfold are_rag_components_loaded. simpl. by rewrite Hseq.
Qed.

Lemma load_failure_not_loaded (env : LoadEnv M I) (g : RagGlobals M I) :
  rag_reachable g -> (load_rag_components env g).1.2 = false ->
  are_rag_components_loaded (load_rag_components env g).1.1 = false.
Proof.
  intros Hg. unfold load_rag_components.
  destruct (are_rag_components_loaded g) eqn:Hl; [done|].
  destruct (env_model env), (env_index_exists env), (env_read_index env),
    (env_pkl_exists env), (env_pickle env); simpl; intros Hfalse; simplify_eq;
    apply not_loaded_cases; simpl; auto; right; right; intros md Hmd;
    apply not_true_iff_false; intros Hseq; [discriminate|..];
    by rewrite (rag_reachable_metadata_ready g Hg md Hmd Hseq) in Hl.
Qed.

(** Degraded-mode safety.  From any reachable state, a load that
    reports failure leaves the service in a state where every search
    returns [[]]; there is no call that raises. *)
Theorem load_failure_degraded (env : LoadEnv M I) (g : RagGlobals M I) :
  rag_reachable g -> (load_rag_components env g).1.2 = false ->
  forall query k, search_documents (load_rag_components env g).1.1 query k = [].
Proof.
  intros Hg Hf query k. unfold search_documents.
  by rewrite (load_failure_not_loaded env g Hg Hf).
Qed.

(** A length mismatch between the metadata and the index is only
    warned about: the load succeeds, the service is ready, and the log
    records both sizes. *)
Theorem load_length_mismatch_tolerated (env : LoadEnv M I) (g : RagGlobals M I)
    m ix md items :
  are_rag_components_loaded g = false ->
  env_model env = Some m -> env_index_exists env = true ->
  env_read_index env = Some ix -> env_pkl_exists env = true ->
  env_pickle env = Some md -> py_sequence md = Some items ->
  py_len items <> ntotal ix ->
  (load_rag_components env g).1.2 = true /\
  are_rag_components_loaded (load_rag_components env g).1.1 = true /\
  LogLengthMismatch (py_len items) (ntotal ix) ∈ (load_rag_components env g).2.
Proof.
  intros Hl Hm Hie Hix Hpe Hmd Hitems Hne. unfold load_rag_components.
  rewrite Hl, Hm, Hie, Hix, Hpe, Hmd. simpl. split_and!; [done| |].
  - unfold are_rag_components_loaded. simpl. by rewrite (py_sequence_is_list_or_tuple _ _ Hitems).
  - unfold metadata_validation_log. rewrite Hitems.
    rewrite (proj2 (Z.eqb_neq _ _) Hne). set_solver.
Qed.

(** C11: when the pickle holds something other than a list or a tuple
    (a dict, say), [load_rag_components] still returns [True], so the
    application reports retrieval as enabled, while the service is not
    ready and every search returns [[]]. *)
Theorem load_bad_metadata_enabled (env : LoadEnv M I) (g : RagGlobals M I) m ix md :
  are_rag_components_loaded g = false ->
  env_model env = Some m -> env_index_exists env = true ->
  env_read_index env = Some ix -> env_pkl_exists env = true ->
  env_pickle env = Some md -> py_sequence md = None ->
  (load_rag_components env g).1.2 = true /\
  LogMetadataBadType ∈ (load_rag_components env g).2 /\
  forall query k, search_documents (load_rag_components env g).1.1 query k = [].
Proof.
  intros Hl Hm Hie Hix Hpe Hmd Hseq. unfold load_rag_components.
  rewrite Hl, Hm, Hie, Hix, Hpe, Hmd. simpl. split_and!; [done| |].
  - unfold metadata_validation_log. rewrite Hseq. set_solver.
  - intros query k. unfold search_documents, are_rag_components_loaded. simpl.
    unfold py_is_list_or_tuple. rewrite Hseq. by rewrite bool_decide_false by naive_solver.
Qed.
End RagProofs.

(** ** With the exact flat index *)

Section FlatRetrieval.
Context {M : Type} `{!Embedder M}.

(** C3: with the exact flat L2 index, a valid query returns the texts
    of the [k] stored vectors nearest to the query's embedding, nearest
    first (ties by position), as the spec's reference ranking orders
    them: sort every stored vector by (squared distance, position),
    keep the first [k], and read their positions in the metadata. *)
Theorem search_documents_flat_nearest (g : RagGlobals M IndexFlatL2) m ix md items q k :
  embedding_model g = Some m -> faiss_index g = Some ix -> metadata g = Some md ->
  py_sequence md = Some items -> py_all_space q = false ->
  Z.of_nat (length (encode m q)) = flat_d ix -> (0 < k)%Z ->
  search_documents g (PyStr q) k =
  omap (doc_at items) (topk_ref (Z.to_nat k) (flat_candidates ix (encode m q))).*2.
Proof.
  intros Hm Hix Hmd Hitems Hq Hd Hk.
  rewrite (search_documents_ready g m ix md items q k) by done. simpl.
  rewrite flat_search_hits by done. unfold to_result.
  rewrite collect_documents_true_hits.
  - rewrite to_result_snd, <- topk_heap_ref, topk_heap_take. done.
  - apply Forall_fmap. destruct (flat_hits_labels ix (encode m q) (Z.to_nat k)) as [_ Hl].
    rewrite Forall_fmap in Hl. eapply Forall_impl; [done|]. intros [d l]; simpl. lia.
Qed.
End FlatRetrieval.

(** * Witnesses on the concrete deployment *)

Lemma search_documents_refines_witness :
  exists hits : list (Dist * Z),
    [(DFin 0, 0%Z); (DFin 0, 2%Z)] =
      hits ++ replicate (Z.to_nat 2 - length hits) (DInf, sentinel_label) /\
    Forall (fun h => (0 <= h.2 < ntotal Demo.index)%Z) hits /\
    search_documents Demo.ready (PyStr "fruit dessert") 2 =
      omap (doc_at (PyStr <$> Demo.docs)) hits.*2.
Proof.
  apply (search_documents_refines Demo.ready Demo.model Demo.index Demo.pickled);
    vm_compute; reflexivity.
Defined.

Lemma search_documents_bounded_witness :
  (length (search_documents Demo.ready (PyStr "car") 2) <= Z.to_nat 2)%nat.
Proof. exact (proj1 (search_documents_bounded Demo.ready (PyStr "car") 2)). Defined.

Lemma search_documents_ranked_witness :
  exists hs : list (Dist * Z),
    Forall2 (fun doc h => (PyStr <$> Demo.docs) !! Z.to_nat h.2 = Some (PyStr doc))
      (search_documents Demo.ready (PyStr "car") 10) hs /\
    Forall (fun h => 0 <= h.2 < py_len (PyStr <$> Demo.docs))%Z hs /\
    Sorted dist_le hs.*1 /\ NoDup hs.*2 /\
    (forall r, index_search Demo.index (encode Demo.model "car") 10 = Some r ->
       hs `sublist_of` r).
Proof.
  apply (search_documents_ranked Demo.ready Demo.model Demo.index Demo.pickled);
    vm_compute; reflexivity.
Defined.

Lemma search_documents_count_witness :
  length (search_documents Demo.ready (PyStr "car") 10) =
  Nat.min (Z.to_nat 10) (Z.to_nat (ntotal Demo.index)).
Proof.
  apply (search_documents_count Demo.ready Demo.model Demo.index Demo.pickled
           (PyStr <$> Demo.docs)); try (vm_compute; reflexivity).
  - vm_compute. intros Hc. discriminate Hc.
  - vm_compute. repeat econstructor.
Defined.

Lemma search_documents_degraded_witness :
  search_documents (load_rag_components Demo.env_dict rag_init).1.1 (PyStr "apple") 3 = [].
Proof. apply search_documents_degraded. vm_compute. reflexivity. Defined.

Lemma search_documents_rejects_query_witness :
  search_documents Demo.ready (PyStr " 	 ") 3 = [].
Proof.
  apply search_documents_rejects_query. intros q Hq. injection Hq as <-. reflexivity.
Defined.

Lemma search_documents_search_error_witness :
  search_documents Demo.ready (PyStr "fruit") 0 = [].
Proof.
  apply (search_documents_search_error Demo.ready Demo.model Demo.index);
    [vm_compute; reflexivity | vm_compute; reflexivity | left; lia].
Defined.

Lemma collect_documents_skip_invalid_witness :
  collect_documents (PyStr <$> Demo.docs) ([0%Z] ++ (-2)%Z :: [2%Z]) =
  collect_documents (PyStr <$> Demo.docs) ([0%Z] ++ [2%Z]) /\
  py_getitem (PyStr <$> Demo.docs) (-2) = Some (PyStr "car engine").
Proof.
  split; [apply collect_documents_skip_invalid; left; lia | reflexivity].
Defined.

Lemma load_rag_components_flag_witness :
  (load_rag_components Demo.env rag_init).1.2 = true <->
  are_rag_components_loaded (rag_init : RagGlobals KeywordModel IndexFlatL2) = true \/
  (is_Some (env_model Demo.env) /\ env_index_exists Demo.env = true /\
   is_Some (env_read_index Demo.env) /\ env_pkl_exists Demo.env = true /\
   is_Some (env_pickle Demo.env)).
Proof. exact (load_rag_components_flag Demo.env rag_init). Defined.

Lemma load_from_init_ready_witness :
  are_rag_components_loaded (load_rag_components Demo.env_dict rag_init).1.1 = true <->
  exists m ix md, env_model Demo.env_dict = Some m /\ env_index_exists Demo.env_dict = true /\
    env_read_index Demo.env_dict = Some ix /\ env_pkl_exists Demo.env_dict = true /\
    env_pickle Demo.env_dict = Some md /\ py_is_list_or_tuple md = true.
Proof. exact (load_from_init_ready Demo.env_dict). Defined.

Lemma load_failure_degraded_witness :
  search_documents (load_rag_components Demo.env_missing rag_init).1.1 (PyStr "fruit") 3 = [].
Proof.
  apply (load_failure_degraded Demo.env_missing rag_init);
    [apply reach_init | vm_compute; reflexivity].
Defined.

Lemma rag_reachable_metadata_ready_witness :
  are_rag_components_loaded Demo.ready = true.
Proof.
  apply (rag_reachable_metadata_ready Demo.ready (reach_load Demo.env rag_init reach_init)
           Demo.pickled); vm_compute; reflexivity.
Defined.

Lemma load_length_mismatch_tolerated_witness :
  (load_rag_components Demo.env_short rag_init).1.2 = true /\
  are_rag_components_loaded (load_rag_components Demo.env_short rag_init).1.1 = true /\
  LogLengthMismatch (py_len [PyStr "apple pie"; PyStr "car engine"]) (ntotal Demo.index)
    ∈ (load_rag_components Demo.env_short rag_init).2.
Proof.
  apply (load_length_mismatch_tolerated Demo.env_short rag_init Demo.model Demo.index
           (PyList [PyStr "apple pie"; PyStr "car engine"])
           [PyStr "apple pie"; PyStr "car engine"]);
    vm_compute; try reflexivity. discriminate.
Defined.

Lemma load_bad_metadata_enabled_witness :
  (load_rag_components Demo.env_dict rag_init).1.2 = true /\
  LogMetadataBadType ∈ (load_rag_components Demo.env_dict rag_init).2 /\
  forall query k, search_documents (load_rag_components Demo.env_dict rag_init).1.1 query k = [].
Proof.
  apply (load_bad_metadata_enabled Demo.env_dict rag_init Demo.model Demo.index
           (PyDict [(PyInt 0, PyStr "apple pie")])); vm_compute; reflexivity.
Defined.

Lemma search_documents_flat_nearest_witness :
  search_documents Demo.ready (PyStr "fruit dessert") 2 =
  omap (doc_at (PyStr <$> Demo.docs))
    (topk_ref (Z.to_nat 2) (flat_candidates Demo.index (encode Demo.model "fruit dessert"))).*2.
Proof.
  apply (search_documents_flat_nearest Demo.ready Demo.model Demo.index Demo.pickled);
    vm_compute; reflexivity.
Defined.
