(* ===== verification/SearchLoop.v ===== *)
(** * The result loop of [search_documents] as a transition system

    Lines 124-141 of [src/rag_processor.py] build [results] by a [for]
    loop over [retrieved_indices] that appends a document or logs why an
    index is skipped.  [RagProcessor.collect_documents] reads that loop
    as a structural recursion; this file models it the way it runs: a
    state holding the indices still to visit, the [results] list and the
    skip messages logged so far, and one transition per iteration
    ([loop_step]).  The theorems show that every run terminates, that the
    loop always reaches a final state and that its [results] are those of
    [collect_documents], and that every index is accounted for exactly
    once, either as a result or as a logged skip. *)

From stdpp Require Import base list relations strings.
From Stdlib Require Import ZArith Lia Wellfounded.Inverse_Image Wf_nat.
From S2P Require Import Prelude PyData Embedding FaissIndex RagProcessor.

Local Open Scope Z_scope.
Local Open Scope rag_scope.

(** The skip messages of lines 136-141. *)
Inductive SkipLog :=
| SkipSentinel                 (** [FAISS search returned -1 index] (debug) *)
| SkipOutOfBounds (idx : Z)    (** [Retrieved index ... is out of bounds] *)
| SkipNotString (idx : Z).     (** [Retrieved metadata item at index ... is not a string] *)

(** The loop's variables: the indices not yet visited, [results] and
    the log. *)
Record LoopState := {
  ls_todo : list Z;
  ls_results : list string;
  ls_log : list SkipLog
}.

(** Line 124 ([results = []]) before the first iteration. *)
Definition loop_init (idxs : list Z) : LoopState :=
  {| ls_todo := idxs; ls_results := []; ls_log := [] |}.

Section Loop.
Variable items : list PyObj.

(** One iteration of lines 128-141 for [idx]. *)
Inductive loop_step : LoopState -> LoopState -> Prop :=
| step_sentinel todo res log :
    loop_step {| ls_todo := -1 :: todo; ls_results := res; ls_log := log |}
              {| ls_todo := todo; ls_results := res; ls_log := log |> SkipSentinel |}
| step_out_of_bounds idx todo res log :
    idx <> -1 -> ~ (0 <= idx < py_len items)%Z ->
    loop_step {| ls_todo := idx :: todo; ls_results := res; ls_log := log |}
              {| ls_todo := todo; ls_results := res; ls_log := log |> SkipOutOfBounds idx |}
| step_append idx doc todo res log :
    idx <> -1 -> (0 <= idx < py_len items)%Z -> py_getitem items idx = Some (PyStr doc) ->
    loop_step {| ls_todo := idx :: todo; ls_results := res; ls_log := log |}
              {| ls_todo := todo; ls_results := res |> doc; ls_log := log |}
| step_not_string idx o todo res log :
    idx <> -1 -> (0 <= idx < py_len items)%Z -> py_getitem items idx = Some o ->
    (forall s, o <> PyStr s) ->
    loop_step {| ls_todo := idx :: todo; ls_results := res; ls_log := log |}
              {| ls_todo := todo; ls_results := res; ls_log := log |> SkipNotString idx |}.

(** The same iteration as a function, for running the loop. *)
Definition loop_body (st : LoopState) : LoopState :=
  match ls_todo st with
  | [] => st
  | idx :: todo =>
      if (idx =? -1)%Z then
        {| ls_todo := todo; ls_results := ls_results st; ls_log := ls_log st |> SkipSentinel |}
      else if ((0 <=? idx) && (idx <? py_len items))%Z then
        match py_getitem items idx with
        | Some (PyStr doc) =>
            {| ls_todo := todo; ls_results := ls_results st |> doc; ls_log := ls_log st |}
        | _ =>
            {| ls_todo := todo; ls_results := ls_results st; ls_log := ls_log st |> SkipNotString idx |}
        end
      else {| ls_todo := todo; ls_results := ls_results st; ls_log := ls_log st |> SkipOutOfBounds idx |}
  end.

(** The whole loop: one iteration per index. *)
Definition run_loop (idxs : list Z) : LoopState :=
  Nat.iter (length idxs) loop_body (loop_init idxs).

End Loop.

(** A run over an answer with a sentinel, an out-of-range index and an
    item that is not a string. *)
Module LoopDemo.
Definition items : list PyObj := [PyStr "apple pie"; PyInt 3; PyStr "banana bread"].
Definition idxs : list Z := [2; 1; 7; 0; -1].
End LoopDemo.

(** * Proofs *)

Section LoopProofs.
Variable items : list PyObj.
Implicit Types (st : LoopState) (idxs : list Z).

Lemma loop_step_inv st st' :
  loop_step items st st' ->
  exists idx, ls_todo st = idx :: ls_todo st'.
Proof. by inversion 1; eexists. Qed.

(** A transition is one execution of the loop body on a state with an
    index left to visit. *)
Lemma loop_step_body st st' :
  loop_step items st st' <-> ls_todo st <> [] /\ st' = loop_body items st.
Proof.
  split.
  - inversion 1; subst; split; try done; unfold loop_body; simpl;
      destruct (Z.eqb_spec idx (-1)); try done;
      destruct (Z.leb_spec 0 idx), (Z.ltb_spec idx (py_len items)); simpl; try lia;
      repeat match goal with H : py_getitem _ _ = Some _ |- _ => rewrite H; clear H end;
      try done.
    destruct o; try done. naive_solver.
  - intros [Hne ->]. destruct st as [[|idx todo] res log]; [done|]. unfold loop_body; simpl.
    destruct (Z.eqb_spec idx (-1)) as [->|Hn]; [constructor|].
    destruct (Z.leb_spec 0 idx), (Z.ltb_spec idx (py_len items)); simpl;
      try (apply step_out_of_bounds; [done|lia]).
    destruct (py_getitem items idx) as [o|] eqn:Hg.
    + destruct o; try (eapply step_not_string; [done|lia|done|discriminate]).
      by apply step_append; [|lia|].
    + apply py_getitem_IndexError in Hg. lia.
Qed.

(** The loop is deterministic. *)
Lemma loop_step_det st st1 st2 :
  loop_step items st st1 -> loop_step items st st2 -> st1 = st2.
Proof. rewrite !loop_step_body. naive_solver. Qed.

Lemma loop_nf st : nf (loop_step items) st <-> ls_todo st = [].
Proof.
  split.
  - intros Hnf. destruct (ls_todo st) eqn:Ht; [done|]. exfalso. apply Hnf.
    exists (loop_body items st). apply loop_step_body. by rewrite Ht.
  - intros Ht [st' Hs]. by apply loop_step_body in Hs as [? _].
Qed.

(** What a step preserves: the results so far followed by what the rest
    of the indices contribute. *)
Lemma loop_step_collect st st' :
  loop_step items st st' ->
  ls_results st ++ collect_documents items (ls_todo st) =
  ls_results st' ++ collect_documents items (ls_todo st').
Proof.
  intros Hs. apply loop_step_body in Hs as [Hne ->].
  destruct st as [[|idx todo] res log]; [done|]. unfold loop_body; simpl.
  destruct (Z.eqb idx (-1)); [done|].
  destruct ((0 <=? idx) && (idx <? py_len items))%Z; [|done].
  destruct (py_getitem items idx) as [[]|]; simpl; rewrite <-?app_assoc; done.
Qed.

Lemma rtc_loop_collect idxs st :
  rtc (loop_step items) (loop_init idxs) st ->
  ls_results st ++ collect_documents items (ls_todo st) = collect_documents items idxs.
Proof.
  revert st. apply rtc_ind_r; [done|]. intros y z _ Hyz IH.
  by rewrite <- (loop_step_collect y z).
Qed.

(** [n] iterations of the body from a state with [n] indices left are a
    run of the transition system that empties the list. *)
Lemma loop_iter_rtc (n : nat) st :
  length (ls_todo st) = n ->
  rtc (loop_step items) st (Nat.iter n (loop_body items) st) /\
  ls_todo (Nat.iter n (loop_body items) st) = [].
Proof.
  revert st. induction n as [|n IH]; intros st Hlen.
  - simpl. split; [done|]. by apply length_zero_iff_nil.
  - rewrite Nat.iter_succ_r.
    destruct st as [[|idx todo] res log]; [done|]. simpl in Hlen.
    assert (Hs : loop_step items {| ls_todo := idx :: todo; ls_results := res; ls_log := log |}
                   (loop_body items {| ls_todo := idx :: todo; ls_results := res; ls_log := log |}))
      by (apply loop_step_body; done).
    destruct (IH (loop_body items {| ls_todo := idx :: todo; ls_results := res; ls_log := log |}))
      as [Hr Ht].
    { destruct (loop_step_inv _ _ Hs) as [i Hi]. simpl in Hi. injection Hi as _ <-. lia. }
    split; [|done]. by eapply rtc_l.
Qed.

(** Every state is strongly normalising, by the number of indices left. *)
Lemma loop_sn_len (n : nat) st : length (ls_todo st) = n -> sn (loop_step items) st.
Proof.
  revert st. induction n as [n IH] using lt_wf_ind. intros st Hlen.
  constructor. intros st' Hs. unfold flip in Hs.
  destruct (loop_step_inv _ _ Hs) as [i Hi].
  apply (IH (length (ls_todo st'))); [|done]. rewrite Hi in Hlen. simpl in Hlen. lia.
Qed.

Lemma loop_step_counts st st' :
  loop_step items st st' ->
  (length (ls_results st') + length (ls_log st') + length (ls_todo st') =
   length (ls_results st) + length (ls_log st) + length (ls_todo st))%nat.
Proof. inversion 1; simpl; rewrite ?length_app; simpl; lia. Qed.

(** Termination: from every state, in particular from the start of the
    loop on any FAISS answer, there is no infinite sequence of
    iterations. *)
Theorem search_loop_terminates st : sn (loop_step items) st.
Proof. by apply (loop_sn_len (length (ls_todo st))). Qed.

(** Equivalence: the loop, started on any answer [idxs], reaches a
    final state (the executable [run_loop]); and every final state it
    can reach holds exactly [collect_documents items idxs] as [results]. *)
Theorem search_loop_results idxs :
  rtc (loop_step items) (loop_init idxs) (run_loop items idxs) /\
  nf (loop_step items) (run_loop items idxs) /\
  forall st, rtc (loop_step items) (loop_init idxs) st -> nf (loop_step items) st ->
    ls_results st = collect_documents items idxs.
Proof.
  destruct (loop_iter_rtc (length idxs) (loop_init idxs)) as [Hr Ht]; [done|].
  split_and!; [done|by apply loop_nf|].
  intros st Hrtc Hnf%loop_nf. rewrite <- (rtc_loop_collect idxs st Hrtc), Hnf.
  by rewrite app_nil_r.
Qed.

(** C7: invariant: on every state the loop reaches, each index visited so
    far produced exactly one result or one logged skip, and each logged
    skip is justified: an out-of-range index, or an in-range item that is
    not a string. *)
Theorem search_loop_accounting idxs st :
  rtc (loop_step items) (loop_init idxs) st ->
  (length (ls_results st) + length (ls_log st) + length (ls_todo st) = length idxs)%nat /\
  (forall idx, SkipOutOfBounds idx ∈ ls_log st -> idx <> -1 /\ ~ (0 <= idx < py_len items)%Z) /\
  (forall idx, SkipNotString idx ∈ ls_log st ->
     exists o, py_getitem items idx = Some o /\ forall s, o <> PyStr s).
Proof.
  revert st. apply rtc_ind_r.
  - simpl. split_and!; [done| |]; by intros ? ?%elem_of_nil.
  - intros y z _ Hxy (Hc & Hout & Hns).
    rewrite (loop_step_counts y z) by done. split; [done|].
    inversion Hxy; subst; simpl in *; split; intros i Hi;
      repeat match goal with H : _ ∈ _ ++ _ |- _ => apply elem_of_app in H as [H|H] end;
      try (apply list_elem_of_singleton in Hi; simplify_eq); eauto.
Qed.

End LoopProofs.

(** * Witnesses *)

Lemma search_loop_accounting_witness :
  (length (ls_results (run_loop LoopDemo.items LoopDemo.idxs)) +
  length (ls_log (run_loop LoopDemo.items LoopDemo.idxs)) +
  length (ls_todo (run_loop LoopDemo.items LoopDemo.idxs)) = length LoopDemo.idxs)%nat /\
  (forall idx, SkipOutOfBounds idx ∈ ls_log (run_loop LoopDemo.items LoopDemo.idxs) ->
     idx <> -1 /\ ~ (0 <= idx < py_len LoopDemo.items)%Z) /\
  (forall idx, SkipNotString idx ∈ ls_log (run_loop LoopDemo.items LoopDemo.idxs) ->
     exists o, py_getitem LoopDemo.items idx = Some o /\ forall s, o <> PyStr s).
Proof.
  apply search_loop_accounting. vm_compute.
  repeat (eapply rtc_l; [apply loop_step_body; split; [discriminate|vm_compute; reflexivity]|]).
  apply rtc_refl.
Defined.
