(* ===== verification/FaissCheck.v ===== *)
(** * The consistency checker of [src/faisscheck.py]

    [check_faiss_index] (lines 20-167) runs six numbered blocks over the
    locals [checks_passed], [faiss_index], [metadata] and [model_dim],
    logging as it goes.  The locals and the log are the record
    [CheckState]; each block is one function [CheckState -> CheckState]
    ([check_files], [check_load_index], [check_load_metadata],
    [check_size], [check_dim], [check_sample]) and [check_faiss_index]
    composes them with the early return of block 1.  [CheckEnv] is what
    the calls into the file system and the libraries return in this run,
    including the draws of [np.random.rand] for the probe vector.

    The theorems are stated over any model and index meeting the
    interfaces of [Embedding.v] and [FaissIndex.v]. *)

From stdpp Require Import base list strings sets.
From Stdlib Require Import ZArith Lia Ascii.
From S2P Require Import Prelude PyData Embedding FaissIndex.

Local Open Scope rag_scope.

Section FaissCheck.
Context {M I : Type} `{!Embedder M, !VectorIndex I}.

Record CheckEnv := {
  ce_index_exists : bool;      (** [os.path.exists(INDEX_PATH)] *)
  ce_pkl_exists : bool;        (** [os.path.exists(PKL_PATH)] *)
  ce_read_index : option I;    (** [faiss.read_index]; [None]: raised *)
  ce_pickle : option PyObj;    (** [pickle.load]; [None]: raised *)
  ce_model : option M;         (** [SentenceTransformer(MODEL_NAME)]; [None]: raised *)
  ce_rand : nat -> Z           (** the successive draws of [np.random.rand] *)
}.

(** The log records that report a check's outcome. *)
Inductive CheckLog :=
| CIndexNotFound
| CPklNotFound
| CFilesMissing
| CIndexLoaded (d n : Z)
| CIndexEmpty
| CIndexLoadFailed
| CMetadataBadType
| CMetadataEmpty
| CMetadataItems (n : Z)
| CMetadataLoadFailed
| CSizeMatch (n : Z)
| CSizeMismatch (n len : Z)
| CSkipSizeCheck
| CModelDim (d : Z)
| CDimMatch (d : Z)
| CDimMismatch (d model_d : Z)
| CSkipDimCheck
| CModelLoadFailed
| CSampleNoResult
| CSampleOk (idx : Z)
| CSampleOutOfBounds (idx len : Z)
| CSampleSearchFailed
| CSkipSample
| CResultPassed
| CResultFailed.

Record CheckState := {
  checks_passed : bool;
  cs_index : option I;
  cs_metadata : option PyObj;
  cs_model_dim : option Z;
  cs_log : list CheckLog
}.

Definition check_init : CheckState :=
  {| checks_passed := true; cs_index := None; cs_metadata := None;
     cs_model_dim := None; cs_log := [] |}.

(** A log call, and a log call with [checks_passed = False]. *)
Definition cs_note (st : CheckState) (r : CheckLog) : CheckState :=
  {| checks_passed := checks_passed st; cs_index := cs_index st;
     cs_metadata := cs_metadata st; cs_model_dim := cs_model_dim st;
     cs_log := cs_log st |> r |}.

Definition cs_fail (st : CheckState) (r : CheckLog) : CheckState :=
  {| checks_passed := false; cs_index := cs_index st;
     cs_metadata := cs_metadata st; cs_model_dim := cs_model_dim st;
     cs_log := cs_log st |> r |}.

(** Block 1 (lines 31-44), before its early return. *)
Definition check_files (env : CheckEnv) (st : CheckState) : CheckState :=
  let st := if ce_index_exists env then st else cs_fail st CIndexNotFound in
  if ce_pkl_exists env then st else cs_fail st CPklNotFound.

(** Block 2 (lines 50-65). *)
Definition check_load_index (env : CheckEnv) (st : CheckState) : CheckState :=
  match ce_read_index env with
  | None =>
      {| checks_passed := false; cs_index := None; cs_metadata := cs_metadata st;
         cs_model_dim := cs_model_dim st; cs_log := cs_log st |> CIndexLoadFailed |}
  | Some ix =>
      let st := {| checks_passed := checks_passed st; cs_index := Some ix;
                   cs_metadata := cs_metadata st; cs_model_dim := cs_model_dim st;
                   cs_log := cs_log st |> CIndexLoaded (index_d ix) (ntotal ix) |} in
      if (ntotal ix =? 0)%Z then cs_fail st CIndexEmpty else st
  end.

(** Block 3 (lines 67-89): a value that is not a list or a tuple is
    dropped ([metadata = None]). *)
Definition check_load_metadata (env : CheckEnv) (st : CheckState) : CheckState :=
  let set_md (md : option PyObj) (passed : bool) (r : CheckLog) :=
    {| checks_passed := passed; cs_index := cs_index st; cs_metadata := md;
       cs_model_dim := cs_model_dim st; cs_log := cs_log st |> r |} in
  match ce_pickle env with
  | None => set_md None false CMetadataLoadFailed
  | Some md =>
      match py_sequence md with
      | None => set_md None false CMetadataBadType
      | Some items =>
          if (py_len items =? 0)%Z then set_md (Some md) false CMetadataEmpty
          else set_md (Some md) (checks_passed st) (CMetadataItems (py_len items))
      end
  end.

(** Block 4 (lines 91-100). *)
Definition check_size (st : CheckState) : CheckState :=
  let skip := if checks_passed st then cs_note st CSkipSizeCheck else st in
  match cs_index st, cs_metadata st with
  | Some ix, Some md =>
      match py_sequence md with
      | Some items =>
          if (ntotal ix =? py_len items)%Z then cs_note st (CSizeMatch (ntotal ix))
          else cs_fail st (CSizeMismatch (ntotal ix) (py_len items))
      | None => skip
      end
  | _, _ => skip
  end.

(** Block 5 (lines 103-120): a model that fails to load does not fail
    the check. *)
Definition check_dim (env : CheckEnv) (st : CheckState) : CheckState :=
  match ce_model env with
  | None => cs_note st CModelLoadFailed
  | Some m =>
      let d := get_sentence_embedding_dimension m in
      let st := {| checks_passed := checks_passed st; cs_index := cs_index st;
                   cs_metadata := cs_metadata st; cs_model_dim := Some d;
                   cs_log := cs_log st |> CModelDim d |} in
      match cs_index st with
      | Some ix =>
          if (index_d ix =? d)%Z then cs_note st (CDimMatch d)
          else cs_fail st (CDimMismatch (index_d ix) d)
      | None => if checks_passed st then cs_note st CSkipDimCheck else st
      end
  end.

(** [np.random.rand(1, d)]: [d] draws. *)
Definition probe_vector (env : CheckEnv) (d : Z) : list Z :=
  ce_rand env <$> seq 0 (Z.to_nat d).

(** The lookup of lines 137-152 on the first label of the answer. *)
Definition check_first_label (st : CheckState) (md : PyObj) (first : Z) : CheckState :=
  if (first =? -1)%Z then cs_note st CSampleNoResult else
  match py_sequence md with
  | Some items =>
      if ((0 <=? first) && (first <? py_len items))%Z then
        match py_getitem items first with
        | Some _ => cs_note st (CSampleOk first)
        | None => cs_fail st CSampleSearchFailed
        end
      else cs_fail st (CSampleOutOfBounds first (py_len items))
  | None => cs_fail st CSampleSearchFailed
  end.

(** Block 6 (lines 123-157); an exception inside it fails the check. *)
Definition check_sample (env : CheckEnv) (st : CheckState) : CheckState :=
  match checks_passed st, cs_index st, cs_metadata st, cs_model_dim st with
  | true, Some ix, Some md, Some d =>
      match index_search ix (probe_vector env d) 1 with
      | Some ((_, first) :: _) => check_first_label st md first
      | _ => cs_fail st CSampleSearchFailed
      end
  | passed, _, _, _ => if passed then cs_note st CSkipSample else st
  end.

Definition check_faiss_index (env : CheckEnv) : bool * list CheckLog :=
  let st := check_files env check_init in
  if negb (checks_passed st) then (false, cs_log st |> CFilesMissing) else
  let st := check_sample env (check_dim env (check_size
              (check_load_metadata env (check_load_index env st)))) in
  (checks_passed st,
   cs_log st |> (if checks_passed st then CResultPassed else CResultFailed)).

(** The [__main__] guard (lines 169-173): the line the script prints. *)
Definition faisscheck_main (env : CheckEnv) : string :=
  String "010"%char (if (check_faiss_index env).1 then "Index check PASSED." else "Index check FAILED.").

(** The locals after blocks 2 to 5, when block 1 passed. *)
Definition check_blocks (env : CheckEnv) : CheckState :=
  check_dim env (check_size (check_load_metadata env (check_load_index env check_init))).

(** The spec's list of sub-checks (section 4.5): both files exist, the
    index loads and is not empty, the metadata loads as a non-empty
    list or tuple of the index's size, and the model, when it loads,
    has the index's dimension. *)
Definition check_consistent (env : CheckEnv) : Prop :=
  ce_index_exists env = true /\ ce_pkl_exists env = true /\
  exists ix md items,
    ce_read_index env = Some ix /\ ce_pickle env = Some md /\
    py_sequence md = Some items /\
    ntotal ix <> 0%Z /\ py_len items <> 0%Z /\ ntotal ix = py_len items /\
    (forall m, ce_model env = Some m -> index_d ix = get_sentence_embedding_dimension m).

(** What the checker can observe of a pickled value: whether it loaded,
    whether it is a list or a tuple, and its length.  Two values alike in
    these respects are indistinguishable to it, whatever their items. *)
Definition md_indist (md md' : option PyObj) : Prop :=
  match md, md' with
  | None, None => True
  | Some m, Some m' =>
      match py_sequence m, py_sequence m' with
      | Some items, Some items' => length items = length items'
      | None, None => True
      | _, _ => False
      end
  | _, _ => False
  end.

(** Checker states that differ at most in indistinguishable metadata. *)
Definition st_indist (st st' : CheckState) : Prop :=
  checks_passed st = checks_passed st' /\ cs_index st = cs_index st' /\
  cs_model_dim st = cs_model_dim st' /\ cs_log st = cs_log st' /\
  md_indist (cs_metadata st) (cs_metadata st').

(** The same files with another pickled value. *)
Definition env_with_pickle (env : CheckEnv) (pkl : option PyObj) : CheckEnv :=
  {| ce_index_exists := ce_index_exists env; ce_pkl_exists := ce_pkl_exists env;
     ce_read_index := ce_read_index env; ce_pickle := pkl; ce_model := ce_model env;
     ce_rand := ce_rand env |}.
End FaissCheck.

Arguments CheckEnv : clear implicits.
Arguments CheckState : clear implicits.

(** * Concrete runs of the checker *)
Module CheckDemo.
Definition model : KeywordModel := {| km_groups := [["fruit"]; ["car"]] |}.
Definition index5 : IndexFlatL2 :=
  {| flat_d := 2; flat_xb := [[1; 0]; [0; 1]; [1; 1]; [2; 0]; [0; 2]]%Z |}.
Definition items4 : list PyObj := [PyStr "a"; PyStr "b"; PyStr "c"; PyStr "d"].
Definition items5 : list PyObj := items4 ++ [PyStr "e"].
Definition run (read : option IndexFlatL2) (pkl : option PyObj) (m : option KeywordModel)
    : CheckEnv KeywordModel IndexFlatL2 :=
  {| ce_index_exists := true; ce_pkl_exists := true; ce_read_index := read;
     ce_pickle := pkl; ce_model := m; ce_rand := fun i => Z.of_nat i |}.
(** Spec scenario D: five vectors, four documents. *)
Definition scenario_d := run (Some index5) (Some (PyList items4)) (Some model).
Definition consistent := run (Some index5) (Some (PyTuple items5)) (Some model).
Definition no_model := run (Some index5) (Some (PyList items5)) None.
Definition no_pickle_file : CheckEnv KeywordModel IndexFlatL2 :=
  {| ce_index_exists := true; ce_pkl_exists := false; ce_read_index := Some index5;
     ce_pickle := None; ce_model := Some model; ce_rand := fun i => Z.of_nat i |}.
End CheckDemo.

(** * Proofs *)

Section FaissCheckProofs.
Context {M I : Type} `{!Embedder M, !VectorIndex I, !EmbedderOk M, !VectorIndexOk I}.
Implicit Types (env : CheckEnv M I) (st : CheckState I).

(** ** What each block does to [checks_passed] and the locals *)

Lemma check_load_index_passed env st :
  checks_passed (check_load_index env st) =
  checks_passed st && match ce_read_index env with
                      | Some ix => negb (ntotal ix =? 0)%Z
                      | None => false
                      end /\
  cs_index (check_load_index env st) = ce_read_index env /\
  cs_metadata (check_load_index env st) = cs_metadata st /\
  cs_model_dim (check_load_index env st) = cs_model_dim st.
Proof.
  unfold check_load_index. destruct (ce_read_index env) as [ix|]; simpl.
  - destruct (ntotal ix =? 0)%Z; simpl; rewrite ?andb_false_r, ?andb_true_r; done.
  - by rewrite andb_false_r.
Qed.

Lemma check_load_metadata_passed env st :
  checks_passed (check_load_metadata env st) =
  checks_passed st && match ce_pickle env ≫= py_sequence with
                      | Some items => negb (py_len items =? 0)%Z
                      | None => false
                      end /\
  cs_metadata (check_load_metadata env st) ≫= py_sequence = ce_pickle env ≫= py_sequence /\
  cs_index (check_load_metadata env st) = cs_index st /\
  cs_model_dim (check_load_metadata env st) = cs_model_dim st.
Proof.
  unfold check_load_metadata. destruct (ce_pickle env) as [md|]; simpl; [|by rewrite andb_false_r].
  destruct (py_sequence md) as [items|] eqn:Hmd; simpl; [|by rewrite andb_false_r].
  destruct (py_len items =? 0)%Z; simpl; rewrite ?andb_false_r, ?andb_true_r, ?Hmd; done.
Qed.

Lemma check_size_passed st :
  checks_passed (check_size st) =
  checks_passed st && match cs_index st, cs_metadata st ≫= py_sequence with
                      | Some ix, Some items => (ntotal ix =? py_len items)%Z
                      | _, _ => true
                      end /\
  cs_index (check_size st) = cs_index st /\
  cs_metadata (check_size st) = cs_metadata st /\
  cs_model_dim (check_size st) = cs_model_dim st.
Proof.
  unfold check_size, cs_note, cs_fail.
  repeat (case_match; simpl); rewrite ?andb_true_r, ?andb_false_r; done.
Qed.

Lemma check_dim_passed env st :
  checks_passed (check_dim env st) =
  checks_passed st && match ce_model env, cs_index st with
                      | Some m, Some ix => (index_d ix =? get_sentence_embedding_dimension m)%Z
                      | _, _ => true
                      end /\
  cs_index (check_dim env st) = cs_index st /\
  cs_metadata (check_dim env st) = cs_metadata st /\
  cs_model_dim (check_dim env st) =
    match ce_model env with
    | Some m => Some (get_sentence_embedding_dimension m)
    | None => cs_model_dim st
    end.
Proof.
  unfold check_dim, cs_note, cs_fail.
  repeat (case_match; simpl); rewrite ?andb_true_r, ?andb_false_r; done.
Qed.

Lemma check_sample_false env st :
  checks_passed st = false -> checks_passed (check_sample env st) = false.
Proof. intros Hst. unfold check_sample. by rewrite Hst. Qed.

(** Once blocks 1 to 5 passed, the sample lookup of block 6 cannot
    fail: the index answers the probe with a real hit, inside the
    metadata since the sizes agree. *)
Lemma check_sample_passes env st ix md items :
  checks_passed st = true -> cs_index st = Some ix -> cs_metadata st = Some md ->
  py_sequence md = Some items -> ntotal ix = py_len items -> (0 < ntotal ix)%Z ->
  (forall d, cs_model_dim st = Some d -> index_d ix = d /\ (0 <= d)%Z) ->
  checks_passed (check_sample env st) = true.
Proof.
  intros Hp Hix Hmd Hitems Hn Hpos Hd. unfold check_sample.
  rewrite Hp, Hix, Hmd. destruct (cs_model_dim st) as [d|] eqn:Hdim; [|done].
  destruct (Hd d eq_refl) as [<- Hd0].
  destruct (index_search ix (probe_vector env (index_d ix)) 1) as [r|] eqn:Hr.
  2: { apply index_search_None in Hr. unfold probe_vector in Hr.
       rewrite length_fmap, length_seq in Hr. lia. }
  destruct (index_search_Some _ _ _ _ Hr) as (hits & -> & Hlen & Hall & _).
  destruct hits as [|[dist first] hits]; cbn [length] in Hlen; [lia|].
  inv Hall. simpl in *. unfold check_first_label, cs_note.
  destruct (Z.eqb_spec first (-1)); [done|]. rewrite Hitems.
  rewrite (proj2 (Z.leb_le _ _)), (proj2 (Z.ltb_lt _ _)) by lia. simpl.
  rewrite py_getitem_in_range by lia.
  destruct (lookup_lt_is_Some_2 items (Z.to_nat first)) as [o ->]; [unfold py_len in *; lia|].
  done.
Qed.

Lemma check_files_ok env st :
  ce_index_exists env = true -> ce_pkl_exists env = true -> check_files env st = st.
Proof. intros H1 H2. unfold check_files. by rewrite H1, H2. Qed.

Lemma check_blocks_passed env :
  checks_passed (check_blocks env) = true <->
  exists ix md items,
    ce_read_index env = Some ix /\ ce_pickle env = Some md /\
    py_sequence md = Some items /\
    ntotal ix <> 0%Z /\ py_len items <> 0%Z /\ ntotal ix = py_len items /\
    (forall m, ce_model env = Some m -> index_d ix = get_sentence_embedding_dimension m).
Proof.
  unfold check_blocks.
  destruct (check_load_index_passed env check_init) as (P2 & I2 & M2 & D2).
  destruct (check_load_metadata_passed env (check_load_index env check_init)) as (P3 & M3 & I3 & D3).
  destruct (check_size_passed (check_load_metadata env (check_load_index env check_init)))
    as (P4 & I4 & M4 & D4).
  rewrite (proj1 (check_dim_passed env _)), I4, P4, P3, P2, M3, I3, I2. simpl.
  destruct (ce_read_index env) as [ix|], (ce_pickle env) as [md|]; simpl;
    [destruct (py_sequence md) as [items|] eqn:Hseq| | |]; simpl;
    rewrite ?andb_false_r; try naive_solver.
  destruct (ce_model env) as [m|];
    rewrite ?andb_true_r, !andb_true_iff, !negb_true_iff, ?Z.eqb_eq, !Z.eqb_neq;
    naive_solver.
Qed.

(** When both files exist, the outcome is decided by blocks 2 to 5:
    the sample search of block 6 never changes it. *)
Lemma check_faiss_index_blocks env :
  ce_index_exists env = true -> ce_pkl_exists env = true ->
  (check_faiss_index env).1 = checks_passed (check_blocks env).
Proof.
  intros Hie Hpe. unfold check_faiss_index.
  rewrite check_files_ok by done. simpl. fold (check_blocks env).
  destruct (checks_passed (check_blocks env)) eqn:Hp; [|by apply check_sample_false].
  pose proof Hp as Hc. apply check_blocks_passed in Hc.
  destruct Hc as (ix & md & items & Hix & Hmd & Hitems & Hn0 & Hl0 & Hn & Hdim).
  unfold check_blocks in Hp |- *.
  destruct (check_load_index_passed env check_init) as (_ & I2 & M2 & D2).
  destruct (check_load_metadata_passed env (check_load_index env check_init)) as (_ & M3 & I3 & D3).
  destruct (check_size_passed (check_load_metadata env (check_load_index env check_init)))
    as (_ & I4 & M4 & D4).
  destruct (check_dim_passed env (check_size (check_load_metadata env
    (check_load_index env check_init)))) as (_ & I5 & M5 & D5).
  rewrite Hmd in M3. simpl in M3.
  destruct (cs_metadata (check_load_metadata env (check_load_index env check_init)))
    as [md'|] eqn:Hmd'; simpl in M3; [|congruence].
  eapply (check_sample_passes env _ ix md' items); try done.
  - by rewrite I5, I4, I3, I2.
  - by rewrite M5, M4.
  - congruence.
  - pose proof (ntotal_nonneg ix). lia.
  - intros d. rewrite D5, D4, D3, D2. destruct (ce_model env) as [m|]; [|done].
    intros [= <-]. split; [by apply Hdim|]. rewrite <- (encode_length m ""). lia.
Qed.

Lemma check_files_missing env :
  ce_index_exists env = false \/ ce_pkl_exists env = false ->
  check_faiss_index env =
    (false, (if ce_index_exists env then [] else [CIndexNotFound]) ++
            (if ce_pkl_exists env then [] else [CPklNotFound]) ++ [CFilesMissing]).
Proof.
  intros Hmiss. unfold check_faiss_index, check_files, cs_fail.
  destruct (ce_index_exists env), (ce_pkl_exists env); naive_solver.
Qed.

(** A passing run certifies the consistency conditions. *)
Lemma check_faiss_index_consistent env :
  (check_faiss_index env).1 = true -> check_consistent env.
Proof.
  unfold check_consistent.
  destruct (ce_index_exists env) eqn:Hie, (ce_pkl_exists env) eqn:Hpe;
    try (rewrite check_files_missing by auto; discriminate).
  rewrite check_faiss_index_blocks, check_blocks_passed by done. naive_solver.
Qed.

(** C12: the checker returns [True] exactly when its inputs are
    consistent: both files exist, the index loads with at least one
    vector, the metadata loads as a non-empty list or tuple of the same
    length, and the model's dimension equals the index's whenever the
    model loads.  The sample search of block 6 never decides the
    outcome. *)
Theorem check_faiss_index_passed env :
  (check_faiss_index env).1 = true <-> check_consistent env.
Proof.
  unfold check_consistent.
  destruct (ce_index_exists env) eqn:Hie, (ce_pkl_exists env) eqn:Hpe;
    try (rewrite check_files_missing by auto; split; [discriminate | naive_solver]).
  rewrite check_faiss_index_blocks, check_blocks_passed by done. naive_solver.
Qed.

Lemma check_log_mono_note st r x : x ∈ cs_log st -> x ∈ cs_log (cs_note st r).
Proof. unfold cs_note. simpl. set_solver. Qed.

Lemma check_log_mono_fail st r x : x ∈ cs_log st -> x ∈ cs_log (cs_fail st r).
Proof. unfold cs_fail. simpl. set_solver. Qed.

#[local] Hint Resolve check_log_mono_note check_log_mono_fail : rag.

Lemma check_dim_log env st x : x ∈ cs_log st -> x ∈ cs_log (check_dim env st).
Proof. intros Hx. unfold check_dim. repeat case_match; simpl; auto with rag; set_solver. Qed.

Lemma check_sample_log env st x : x ∈ cs_log st -> x ∈ cs_log (check_sample env st).
Proof.
  intros Hx. unfold check_sample, check_first_label. repeat case_match; auto with rag.
Qed.

Lemma check_faiss_index_log env x :
  ce_index_exists env = true -> ce_pkl_exists env = true ->
  x ∈ cs_log (check_blocks env) -> x ∈ (check_faiss_index env).2.
Proof.
  intros Hie Hpe Hx. unfold check_faiss_index. rewrite check_files_ok by done.
  simpl. fold (check_blocks env). apply elem_of_app. left. by apply check_sample_log.
Qed.

(** A count mismatch between the index and the metadata fails the
    check, and the log reports both counts (the spec's scenario D). *)
Theorem check_size_mismatch_reported env ix md items :
  ce_index_exists env = true -> ce_pkl_exists env = true ->
  ce_read_index env = Some ix -> ce_pickle env = Some md ->
  py_sequence md = Some items -> ntotal ix <> py_len items ->
  (check_faiss_index env).1 = false /\
  CSizeMismatch (ntotal ix) (py_len items) ∈ (check_faiss_index env).2.
Proof.
  intros Hie Hpe Hix Hmd Hitems Hne. split.
  - rewrite check_faiss_index_blocks by done.
    apply not_true_iff_false. rewrite check_blocks_passed. naive_solver.
  - apply check_faiss_index_log; [done..|]. unfold check_blocks. apply check_dim_log.
    destruct (check_load_index_passed env check_init) as (_ & I2 & _ & _).
    destruct (check_load_metadata_passed env (check_load_index env check_init)) as (_ & M3 & I3 & _).
    rewrite Hmd in M3. simpl in M3. rewrite Hitems in M3.
    unfold check_size. rewrite I3, I2, Hix.
    destruct (cs_metadata (check_load_metadata env (check_load_index env check_init)))
      as [md'|]; simpl in M3; [|congruence].
    rewrite M3, (proj2 (Z.eqb_neq _ _) Hne). unfold cs_fail. simpl. set_solver.
Qed.

(** C14: when the embedding model cannot be loaded, the dimension of
    the index is never compared with the model's, yet the checker
    passes on consistent files: a model/index dimension mismatch goes
    unreported, contrary to the spec's dimension invariant. *)
Theorem check_passes_without_model env ix md items :
  ce_model env = None ->
  ce_index_exists env = true -> ce_pkl_exists env = true ->
  ce_read_index env = Some ix -> ce_pickle env = Some md ->
  py_sequence md = Some items ->
  ntotal ix <> 0%Z -> ntotal ix = py_len items ->
  (check_faiss_index env).1 = true /\ CModelLoadFailed ∈ (check_faiss_index env).2.
Proof.
  intros Hm Hie Hpe Hix Hmd Hitems Hn0 Hn. split.
  - rewrite check_faiss_index_blocks, check_blocks_passed by done.
    exists ix, md, items. split_and!; try done; [lia|]. rewrite Hm. discriminate.
  - apply check_faiss_index_log; [done..|]. unfold check_blocks, check_dim. rewrite Hm.
    unfold cs_note. simpl. set_solver.
Qed.

(** C15: when either file is missing the checker stops at once: it
    returns [False] after logging only the missing files, without
    loading the other one, so the report is not the full diagnostic the
    spec asks for. *)
Theorem check_missing_file_stops env :
  ce_index_exists env = false \/ ce_pkl_exists env = false ->
  (check_faiss_index env).1 = false /\
  (check_faiss_index env).2 ⊆
    [CIndexNotFound; CPklNotFound; CFilesMissing].
Proof.
  intros Hmiss. rewrite check_files_missing by done. simpl. split; [done|].
  destruct (ce_index_exists env), (ce_pkl_exists env); simpl; set_solver.
Qed.
(** ** The checker cannot tell metadata items apart *)

Lemma py_getitem_None_length {A B} (xs : list A) (ys : list B) (i : Z) :
  length xs = length ys -> py_getitem xs i = None <-> py_getitem ys i = None.
Proof.
  intros Hl. unfold py_getitem, py_len. rewrite Hl.
  case_match; [rewrite !lookup_ge_None, Hl|]; done.
Qed.

Lemma cs_note_indist st st' r : st_indist st st' -> st_indist (cs_note st r) (cs_note st' r).
Proof. unfold st_indist, cs_note; simpl. intros (? & ? & ? & ? & ?). split_and!; simpl; congruence. Qed.

Lemma cs_fail_indist st st' r : st_indist st st' -> st_indist (cs_fail st r) (cs_fail st' r).
Proof. unfold st_indist, cs_fail; simpl. intros (? & ? & ? & ? & ?). split_and!; simpl; congruence. Qed.

#[local] Hint Resolve cs_note_indist cs_fail_indist : core.

(** Opens two related states into their common fields. *)
Ltac indist_intro :=
  intros [p ix md d log] [p' ix' md' d' log'] (Hp & Hix & Hd & Hl & Hmd);
  simpl in Hp, Hix, Hd, Hl, Hmd; subst p' ix' d' log'.

(** Closes [st_indist] between two literal states. *)
Ltac indist_rec :=
  split_and!; simpl; try done; unfold md_indist;
  repeat match goal with H : py_sequence _ = _ |- _ => rewrite H end; done.

Lemma check_files_indist env st st' :
  st_indist st st' -> st_indist (check_files env st) (check_files env st').
Proof. intros H. unfold check_files. repeat case_match; auto. Qed.

Lemma check_load_index_indist env st st' :
  st_indist st st' -> st_indist (check_load_index env st) (check_load_index env st').
Proof.
  revert st st'. indist_intro. unfold check_load_index.
  destruct (ce_read_index env); simpl; [case_match|]; try apply cs_fail_indist; done.
Qed.

Lemma check_load_metadata_indist env st st' pkl :
  md_indist (ce_pickle env) pkl -> st_indist st st' ->
  st_indist (check_load_metadata env st) (check_load_metadata (env_with_pickle env pkl) st').
Proof.
  intros Hpk. revert st st'. indist_intro. unfold check_load_metadata; simpl.
  destruct (ce_pickle env) as [m|], pkl as [m'|]; simpl in Hpk; try done.
  unfold md_indist in Hpk |- *.
  destruct (py_sequence m) as [xs|] eqn:Hm, (py_sequence m') as [ys|] eqn:Hm'; try done.
  unfold py_len. rewrite Hpk. case_match; split_and!; simpl; rewrite ?Hm, ?Hm'; done.
Qed.

Lemma check_size_indist st st' :
  st_indist st st' -> st_indist (check_size st) (check_size st').
Proof.
  revert st st'. indist_intro. unfold check_size; simpl.
  destruct ix as [ix|], md as [m|], md' as [m'|]; simpl in Hmd; try done;
    try (destruct p; [apply cs_note_indist|]; indist_rec).
  unfold md_indist in Hmd.
  destruct (py_sequence m) as [xs|] eqn:Hm, (py_sequence m') as [ys|] eqn:Hm'; try done;
    [|destruct p; [apply cs_note_indist|]; indist_rec].
  replace (py_len ys) with (py_len xs) by (unfold py_len; by rewrite Hmd).
  case_match; [apply cs_note_indist|apply cs_fail_indist]; indist_rec.
Qed.

Lemma check_dim_indist env st st' :
  st_indist st st' -> st_indist (check_dim env st) (check_dim env st').
Proof.
  revert st st'. indist_intro. unfold check_dim; simpl.
  destruct (ce_model env); [|apply cs_note_indist; done].
  repeat case_match; first [apply cs_note_indist | apply cs_fail_indist | idtac]; done.
Qed.

Lemma check_first_label_indist st st' m m' first :
  st_indist st st' -> md_indist (Some m) (Some m') ->
  st_indist (check_first_label st m first) (check_first_label st' m' first).
Proof.
  intros Hst Hmd. unfold md_indist in Hmd. unfold check_first_label.
  destruct (first =? -1)%Z; [auto|].
  destruct (py_sequence m) as [xs|], (py_sequence m') as [ys|]; try done; try by auto.
  unfold py_len. rewrite Hmd. destruct (_ && _); [|auto].
  destruct (py_getitem xs first) eqn:Hx, (py_getitem ys first) eqn:Hy; auto;
    [apply (py_getitem_None_length xs ys first Hmd) in Hy|apply (py_getitem_None_length xs ys first Hmd) in Hx];
    congruence.
Qed.

Lemma check_sample_indist env st st' :
  st_indist st st' -> st_indist (check_sample env st) (check_sample env st').
Proof.
  intros Hst. pose proof Hst as Hst'. revert Hst'.
  destruct st as [p ix md d log], st' as [p' ix' md' d' log'];
    intros (Hp & Hix & Hd & Hl & Hmd); simpl in Hp, Hix, Hd, Hl, Hmd; subst p' ix' d' log'.
  unfold check_sample; simpl.
  destruct p, ix, md as [m|], md' as [m'|], d; simpl in Hmd; try done; auto.
  destruct (index_search _ _ _) as [[|[? first] ?]|]; auto.
  by apply check_first_label_indist.
Qed.

Lemma md_indist_refl (md : option PyObj) : md_indist md md.
Proof. unfold md_indist. destruct md as [m|]; [destruct (py_sequence m)|]; done. Qed.

Lemma st_indist_refl st : st_indist st st.
Proof. split_and!; try done. apply md_indist_refl. Qed.


End FaissCheckProofs.

(** * Witnesses on concrete runs *)

Lemma check_faiss_index_passed_witness :
  (check_faiss_index CheckDemo.consistent).1 = true <-> check_consistent CheckDemo.consistent.
Proof. exact (check_faiss_index_passed CheckDemo.consistent). Defined.

Lemma check_size_mismatch_reported_witness :
  (check_faiss_index CheckDemo.scenario_d).1 = false /\
  CSizeMismatch (ntotal CheckDemo.index5) (py_len CheckDemo.items4)
    ∈ (check_faiss_index CheckDemo.scenario_d).2.
Proof.
  apply (check_size_mismatch_reported CheckDemo.scenario_d CheckDemo.index5
           (PyList CheckDemo.items4)); vm_compute; try reflexivity. discriminate.
Defined.

Lemma check_passes_without_model_witness :
  (check_faiss_index CheckDemo.no_model).1 = true /\
  CModelLoadFailed ∈ (check_faiss_index CheckDemo.no_model).2.
Proof.
  apply (check_passes_without_model CheckDemo.no_model CheckDemo.index5
           (PyList CheckDemo.items5) CheckDemo.items5); vm_compute; try reflexivity.
  discriminate.
Defined.

Lemma check_missing_file_stops_witness :
  (check_faiss_index CheckDemo.no_pickle_file).1 = false /\
  (check_faiss_index CheckDemo.no_pickle_file).2 ⊆ [CIndexNotFound; CPklNotFound; CFilesMissing].
Proof. apply check_missing_file_stops. right. reflexivity. Defined.

