(* ===== verification/App.v ===== *)
(** * The chat route's pure helpers, from [src/app.py]

    The Flask route [index] (lines 190-340) sanitises the user's message
    ([sanitize_input], lines 86-90), rebuilds the conversation from the
    history the browser sends ([manage_conversation_history], lines
    93-146: drop empty user turns and denial-like bot turns, keep the last
    [2 * max_exchanges] messages, optionally append the new message).
    This file models those two helpers; a turn is the JSON object the
    browser sent, read with [turn.get(...)], and an exception is a
    [None].  The route itself is in [Route.v]. *)

From stdpp Require Import base list strings sets.
From Stdlib Require Import ZArith Lia Ascii.
From S2P Require Import Prelude PyData.

Local Open Scope rag_scope.

(** LangChain's message classes. *)
Inductive Message :=
| SystemMessage (content : string)
| HumanMessage (content : string)
| AIMessage (content : string).

Definition sanitize_input (text : PyObj) : string :=
  match text with
  | PyStr s => py_strip s
  | _ => EmptyString
  end.

(** A double quote character. *)
Definition dquote : string := String "034"%char EmptyString.

(** [denial_phrases] (lines 100-108). *)
Definition denial_phrases : list string :=
  ["i am a large language model"; "i'm a large language model"; "i am an ai";
   "i'm an ai assistant"; "trained by google"; "i cannot fulfill that request";
   "i do not have personal opinions"; "as an ai"; "language model";
   "i am not yoda"; "i am not aiyoda"; "i am not wellness warrior";
   "i am not career catalyst"; "i am not executive coach";
   "i am not personal growth guru"; "i am not relationship revivalist";
   "hypothetical scenario"; "i don't have " +:+ dquote +:+ "clients" +:+ dquote;
   "as i am a language model"].

(** [any(phrase in bot_msg_content.lower() for phrase in denial_phrases)]. *)
Definition is_denial (bot : string) : bool :=
  existsb (fun p => py_contains p (py_lower bot)) denial_phrases.

(** One turn of the loop (lines 113-130). *)
Definition turn_messages (turn : PyObj) : option (list Message) :=
  match py_dict_get turn "user", py_dict_get turn "bot" with
  | Some u, Some b =>
      let user :=
        if py_truthy u then
          let s := sanitize_input u in
          if String.eqb s EmptyString then [] else [HumanMessage s]
        else [] in
      let bot :=
        if py_truthy b then
          match b with
          | PyStr bs => if is_denial bs then [] else [AIMessage bs]
          | _ => []
          end
        else [] in
      Some (user ++ bot)
  | _, _ => None
  end.

Fixpoint history_messages (turns : list PyObj) : option (list Message) :=
  match turns with
  | [] => Some []
  | t :: ts =>
      match turn_messages t, history_messages ts with
      | Some ms, Some rest => Some (ms ++ rest)
      | _, _ => None
      end
  end.

(** Lines 133-137: [messages[-num:]] when there are more than [num]. *)
Definition trim_history (messages : list Message) (max_exchanges : Z) : list Message :=
  let num := (max_exchanges * 2)%Z in
  if (num <? py_len messages)%Z then py_slice_from messages (- num) else messages.

(** The whole function; [len(history_from_frontend)] in the debug log of
    line 110 is evaluated first, then the loop runs. *)
Definition manage_conversation_history (history : PyObj) (new_msg : option string)
    (max_exchanges : Z) : option (list Message) :=
  match py_len_obj history, py_iter history with
  | Some _, Some turns =>
      match history_messages turns with
      | Some msgs =>
          let msgs := trim_history msgs max_exchanges in
          Some (match new_msg with
                | Some s => if String.eqb s EmptyString then msgs else msgs |> HumanMessage s
                | None => msgs
                end)
      | None => None
      end
  | _, _ => None
  end.


(** A message the rebuilt history may hold: a non-empty user message or
    a bot message with no denial phrase; never a system message. *)
Definition history_message_ok (m : Message) : Prop :=
  match m with
  | HumanMessage c => c <> EmptyString
  | AIMessage c => is_denial c = false
  | SystemMessage _ => False
  end.

(** A browser turn [{"user": u, "bot": b}]. *)
Definition demo_turn (u b : string) : PyObj :=
  PyDict [(PyStr "user", PyStr u); (PyStr "bot", PyStr b)].

Definition demo_history : PyObj :=
  PyList [demo_turn " hi " "Hello!"; demo_turn "x" "As an AI, I cannot"; demo_turn "" "ok"].

(** * Proofs *)

Lemma trim_history_pos (msgs : list Message) (max_exchanges : Z) :
  (0 < max_exchanges)%Z ->
  trim_history msgs max_exchanges = drop (length msgs - Z.to_nat (2 * max_exchanges)) msgs.
Proof.
  intros Hpos. unfold trim_history, py_slice_from, py_len.
  destruct (Z.ltb_spec (max_exchanges * 2) (Z.of_nat (length msgs))).
  - destruct (Z.ltb_spec (- (max_exchanges * 2)) 0); [|lia]. f_equal. lia.
  - replace (length msgs - Z.to_nat (2 * max_exchanges)) with 0 by lia. done.
Qed.

Lemma trim_history_zero (msgs : list Message) : trim_history msgs 0 = msgs.
Proof.
  unfold trim_history, py_slice_from. simpl.
  destruct (_ <? _)%Z; [|done].
  by replace ((- (0 * 2)) `min` py_len msgs)%Z with 0%Z by (unfold py_len; lia).
Qed.

Lemma manage_conversation_history_Some (history : PyObj) (new_msg : option string)
    (max_exchanges : Z) (ms : list Message) :
  manage_conversation_history history new_msg max_exchanges = Some ms ->
  exists turns msgs,
    py_iter history = Some turns /\ history_messages turns = Some msgs /\
    ms = match new_msg with
         | Some s => if String.eqb s EmptyString then trim_history msgs max_exchanges
                     else trim_history msgs max_exchanges ++ [HumanMessage s]
         | None => trim_history msgs max_exchanges
         end.
Proof.
  unfold manage_conversation_history. intros H. rag_cases; eexists _, _; split_and!; eauto.
Qed.

Lemma turn_messages_ok (turn : PyObj) (ms : list Message) :
  turn_messages turn = Some ms -> Forall history_message_ok ms.
Proof.
  unfold turn_messages. rag_cases; intros; simplify_eq;
    repeat constructor; simpl; try done.
  all: match goal with H : String.eqb _ _ = false |- _ => apply String.eqb_neq in H end; done.
Qed.

Lemma history_messages_ok (turns : list PyObj) (ms : list Message) :
  history_messages turns = Some ms -> Forall history_message_ok ms.
Proof.
  revert ms. induction turns as [|t ts IH]; intros ms; simpl; [intros [= <-]; constructor|].
  destruct (turn_messages t) as [m|] eqn:Ht, (history_messages ts) as [rest|]; intros Hms; simplify_eq.
  apply Forall_app. split; [by eapply turn_messages_ok|by apply IH].
Qed.

Lemma trim_history_sublist (msgs : list Message) (max_exchanges : Z) :
  trim_history msgs max_exchanges `sublist_of` msgs.
Proof.
  unfold trim_history, py_slice_from. destruct (_ <? _)%Z; [apply sublist_drop|done].
Qed.

Lemma history_messages_None (turns : list PyObj) (t : PyObj) :
  t ∈ turns -> turn_messages t = None -> history_messages turns = None.
Proof.
  induction turns as [|t' ts IH]; [by intros ?%elem_of_nil|].
  intros [-> | Hin]%elem_of_cons Ht; simpl.
  - by rewrite Ht.
  - rewrite IH by done. by destruct (turn_messages t').
Qed.

(** With no new message and a positive bound, the rebuilt history is
    well formed and holds at most [2 * max_exchanges] messages. *)
Lemma manage_history_None_ok (history : PyObj) (max_exchanges : Z) (ms : list Message) :
  (0 < max_exchanges)%Z ->
  manage_conversation_history history None max_exchanges = Some ms ->
  Forall history_message_ok ms /\ length ms <= Z.to_nat (2 * max_exchanges).
Proof.
  intros Hpos (turns & msgs & _ & Hmsgs & ->)%manage_conversation_history_Some.
  rewrite trim_history_pos by done. split.
  - apply Forall_drop. by apply (history_messages_ok turns).
  - rewrite length_drop. lia.
Qed.

(** C16: with [max_exchanges > 0] and no new message, the rebuilt
    history is exactly the last [2 * max_exchanges] messages of the
    filtered turns (all of them when there are fewer). *)
Theorem manage_history_keeps_recent (history : PyObj) (max_exchanges : Z) (ms : list Message) :
  (0 < max_exchanges)%Z ->
  manage_conversation_history history None max_exchanges = Some ms ->
  exists turns msgs,
    py_iter history = Some turns /\ history_messages turns = Some msgs /\
    ms = drop (length msgs - Z.to_nat (2 * max_exchanges)) msgs.
Proof.
  intros Hpos (turns & msgs & Hit & Hmsgs & ->)%manage_conversation_history_Some.
  exists turns, msgs. split_and!; [done|done|]. by apply trim_history_pos.
Qed.

(** C17: with [max_exchanges = 0] nothing is trimmed: [messages[-0:]] is
    the whole list, so the whole filtered history is kept instead of
    none of it. *)
Theorem manage_history_zero_keeps_all (history : PyObj) (turns : list PyObj)
    (msgs : list Message) :
  is_Some (py_len_obj history) -> py_iter history = Some turns ->
  history_messages turns = Some msgs ->
  manage_conversation_history history None 0 = Some msgs.
Proof.
  intros [n Hlen] Hit Hmsgs. unfold manage_conversation_history.
  rewrite Hlen, Hit, Hmsgs. by rewrite trim_history_zero.
Qed.

(** C18: every message of a rebuilt history is a non-empty user message
    or a bot message free of the denial phrases; no system message ever
    comes from the browser's history. *)
Theorem manage_history_wellformed (history : PyObj) (new_msg : option string)
    (max_exchanges : Z) (ms : list Message) :
  manage_conversation_history history new_msg max_exchanges = Some ms ->
  Forall history_message_ok ms.
Proof.
  intros (turns & msgs & _ & Hmsgs & ->)%manage_conversation_history_Some.
  pose proof (Forall_of_sublist _ _ _ (trim_history_sublist msgs max_exchanges)
                (history_messages_ok turns msgs Hmsgs)) as Htrim.
  destruct new_msg as [s|]; [|done].
  destruct (String.eqb_spec s EmptyString); [done|].
  apply Forall_app. split; [done|]. by repeat constructor.
Qed.

(** A history entry that is not a JSON object makes
    [manage_conversation_history] raise ([turn.get] on a non-dict), the
    exception the route does not catch. *)
Theorem manage_history_non_dict_turn (history : PyObj) (new_msg : option string)
    (max_exchanges : Z) (turns : list PyObj) (t : PyObj) :
  py_iter history = Some turns -> t ∈ turns -> (forall kvs, t <> PyDict kvs) ->
  manage_conversation_history history new_msg max_exchanges = None.
Proof.
  intros Hit Hin Ht. unfold manage_conversation_history. rewrite Hit.
  rewrite (history_messages_None turns t) by
    (done || (unfold turn_messages; destruct t; naive_solver)).
  by destruct (py_len_obj history).
Qed.

(** [sanitize_input] is idempotent, and it returns the empty string
    exactly for non-strings and for strings of whitespace only. *)
Theorem sanitize_input_spec (text : PyObj) :
  sanitize_input (PyStr (sanitize_input text)) = sanitize_input text /\
  (sanitize_input text = EmptyString <->
   forall s, text = PyStr s -> py_all_space s = true).
Proof.
  destruct text as [| | |s| | | |]; simpl; try (split; [done|naive_solver]).
  split; [apply py_strip_idem|]. rewrite py_strip_empty. naive_solver.
Qed.

(** * Witnesses *)

Lemma manage_history_keeps_recent_witness :
  exists turns msgs,
    py_iter demo_history = Some turns /\ history_messages turns = Some msgs /\
    [HumanMessage "x"; AIMessage "ok"] = drop (length msgs - Z.to_nat (2 * 1)) msgs.
Proof. apply (manage_history_keeps_recent demo_history 1); [lia | vm_compute; reflexivity]. Defined.

Lemma manage_history_zero_keeps_all_witness :
  manage_conversation_history demo_history None 0 =
  Some [HumanMessage "hi"; AIMessage "Hello!"; HumanMessage "x"; AIMessage "ok"].
Proof.
  apply (manage_history_zero_keeps_all demo_history
           [demo_turn " hi " "Hello!"; demo_turn "x" "As an AI, I cannot"; demo_turn "" "ok"]);
    [eexists; reflexivity | reflexivity | vm_compute; reflexivity].
Defined.

Lemma manage_history_wellformed_witness :
  Forall history_message_ok [HumanMessage "x"; AIMessage "ok"; HumanMessage "new"].
Proof. apply (manage_history_wellformed demo_history (Some "new") 1). vm_compute. reflexivity. Defined.

Lemma manage_history_non_dict_turn_witness :
  manage_conversation_history (PyList [demo_turn "a" "b"; PyStr "oops"]) None 15 = None.
Proof.
  apply (manage_history_non_dict_turn _ _ _ [demo_turn "a" "b"; PyStr "oops"] (PyStr "oops"));
    [reflexivity | by right; left | discriminate].
Defined.

Lemma sanitize_input_spec_witness :
  sanitize_input (PyStr (sanitize_input (PyStr "  hello "))) = sanitize_input (PyStr "  hello ") /\
  (sanitize_input (PyStr "  hello ") = EmptyString <->
   forall s, PyStr "  hello " = PyStr s -> py_all_space s = true).
Proof. exact (sanitize_input_spec (PyStr "  hello ")). Defined.
