(* ===== verification/Route.v ===== *)
(** * The POST branch of the chat route [index], from [src/app.py]

    [index_post] follows lines 194-337 of [index()] statement by
    statement: JSON validation, the coach persona file, the dad-joke
    short-circuit, the retrieval call [search_documents(msg, k=3)] when
    [RAG_ENABLED], the session's [current_coach] and the history it
    selects, the prompt sent to Gemini and the clean-up of its answer.
    The outside world (request body, persona files, joke API, Gemini) is
    a [RouteEnv]; the outcome is a [RouteResult] recording the response,
    the session afterwards, the documents retrieved and the messages
    sent, and the step the error log of the model-call block names.  A
    500 page carries the error reference of the exception
    ([internal_server_error]).  The file also models [get_dad_joke] (the
    HTTP outcome is an input) and the [/feedback] route. *)

From stdpp Require Import base list strings sets pretty.
From Stdlib Require Import ZArith Lia Ascii.
From S2P Require Import Prelude PyData Embedding FaissIndex RagProcessor App.

Local Open Scope rag_scope.

(** * Prompt assembly *)

Definition newline : string := String "010"%char EmptyString.

(** Lines 255-258: a header line, then ["[i] doc"] numbered from 1. *)
Definition format_context (docs : list string) : string :=
  py_join newline
    ("Context related to your query:" ::
     imap (fun i doc => "[" +:+ pretty (N.of_nat (S i)) +:+ "] " +:+ doc) docs).

(** [retrieved_context_str] after the RAG block (lines 246-258). *)
Definition retrieved_context (docs : list string) : string :=
  match docs with
  | [] => EmptyString
  | _ => format_context docs
  end.

(** Lines 293-304: the final human message. *)
Definition final_human_content (context sanitized : string) : string :=
  py_join newline
    ((if String.eqb context EmptyString then []
      else ["--- Start of Provided Context ---"; context;
            "--- End of Provided Context ---";
            newline +:+ "Based on the context above and our previous conversation, answer the following query:"])
     ++ ["User Query: " +:+ sanitized]).

(** [re.sub(r'[\*]+', '', answer)]: every asterisk removed. *)
Fixpoint remove_asterisks (s : string) : string :=
  match s with
  | EmptyString => EmptyString
  | String c s' =>
      if Ascii.eqb c "*"%char then remove_asterisks s' else String c (remove_asterisks s')
  end.

(** Lines 323-324. *)
Definition clean_answer (answer : string) : string :=
  py_strip (remove_asterisks (py_strip answer)).

(** Line 214: [f"{coach_display_name.lower().replace(' ', '_')}.json"]. *)
Definition coach_filename (coach_display_name : string) : string :=
  py_replace_char " "%char "_"%char (py_lower coach_display_name) +:+ ".json".

Definition joke_triggers : list string :=
  ["joke"; "dad joke"; "make me laugh"; "something funny"; "cheer me up"].

(** Line 239. *)
Definition is_joke_request (sanitized : string) : bool :=
  existsb (fun t => py_contains t (py_lower sanitized)) joke_triggers.

(** * The POST branch of [index] *)

(** What [open] and [json.load] give for a coach file (lines 217-235). *)
Inductive PersonaFile :=
| PersonaNotFound
| PersonaBadJson
| PersonaReadError
| PersonaLoaded (persona : PyObj).

(** The responses of the route: [jsonify(...)] with a status, or the
    generic 500 page of [internal_server_error] (lines 397-407), which
    shows the [error_id] the exception carries. *)
Inductive Response :=
| RespJson (status : Z) (payload : list (string * string))
| RespServerError (error_ref : string).

(** Lines 399-401: [getattr(e, 'error_id', 'N/A')] of the exception that
    reached the handler; only the [except] block of lines 329-337 sets
    [error_id] (to the request's [message_id]) before re-raising. *)
Definition internal_server_error (error_id : option string) : Response :=
  RespServerError (match error_id with Some r => r | None => "N/A" end).

(** Line 406: the message the error page shows. *)
Definition error_page_message (error_ref : string) : string :=
  "An unexpected internal error occurred (Ref: " +:+ error_ref +:+
  "). Please try again later or contact support if the issue persists.".

(** * The dad-joke fetch ([get_dad_joke], lines 65-75) *)

(** What [requests.get(...)] gives: it raised a [RequestException]
    (connection error, timeout), or a response with its status and its
    body parsed as JSON ([None]: not JSON, for which [response.json()]
    raises [requests.JSONDecodeError], a [RequestException] from
    requests 2.27 on). *)
Inductive JokeHttp :=
| JokeRaised
| JokeResponse (status : Z) (body : option PyObj).

Definition joke_fetch_failed : string := "No joke fetched – my bad!".
Definition joke_missing : string := "No joke today, but you’re still awesome!".

(** [raise_for_status()] raises for 4xx and 5xx statuses; every
    [RequestException] gives the fallback text.  [.get] on a JSON value
    that is not an object raises an [AttributeError] the function does
    not catch ([None]). *)
Definition get_dad_joke (r : JokeHttp) : option PyObj :=
  match r with
  | JokeRaised => Some (PyStr joke_fetch_failed)
  | JokeResponse status body =>
      if ((400 <=? status) && (status <? 600))%Z then Some (PyStr joke_fetch_failed) else
      match body with
      | None => Some (PyStr joke_fetch_failed)
      | Some json => py_dict_get_or json "joke" (PyStr joke_missing)
      end
  end.

(** Lines 240-243: the answer of a joke request, or the 500 page when
    [get_dad_joke] raises. *)
Definition joke_response (r : JokeHttp) (message_id : string) : Response :=
  match get_dad_joke r with
  | Some dad_joke =>
      RespJson 200 [("answer", "Okay, you asked for it! Here’s a dad joke: " +:+ py_format dad_joke);
                    ("message_id", message_id)]
  | None => internal_server_error None
  end.

Section Route.
Context {M I : Type} `{!Embedder M, !VectorIndex I}.

(** What the outside world answers during one request. *)
Record RouteEnv := {
  rt_json : option PyObj;
    (** [request.get_json()]: the parsed body ([PyNone] for [null]);
        [None] when it raises (a body that is not JSON), which the
        [errorhandler(Exception)] of lines 397-398 turns into the 500 page *)
  rt_persona : string -> PersonaFile;     (** the coach file by name *)
  rt_joke_http : JokeHttp;               (** the HTTP call of [get_dad_joke()] *)
  rt_gemini : list Message -> option string  (** [chat_model.invoke(...).content]; [None]: raised *)
}.

(** The observable outcome of one request: the response, the session's
    [current_coach] afterwards, whether [search_documents] ran and with
    what result, the messages sent to the model, and the step the error
    log of line 333 names when the model-call block fails. *)
Record RouteResult := {
  rr_response : Response;
  rr_session : option PyObj;
  rr_retrieved : option (list string);
  rr_sent : option (list Message);
  rr_error_step : option string
}.

Definition rr_stop (resp : Response) (session : option PyObj) : RouteResult :=
  {| rr_response := resp; rr_session := session; rr_retrieved := None; rr_sent := None;
     rr_error_step := None |}.

(** Lines 246, 251 and 332: [rag_search_performed] is set as soon as
    [search_documents] returns (it never raises: its own handler returns
    [[]]), so it holds exactly when the retrieval ran. *)
Definition error_step (retrieved : option (list string)) : string :=
  match retrieved with
  | Some _ => "RAG search"
  | None => "Gemini API call or processing"
  end.

(** The persona check of lines 221-223 and [coach_persona["prompt_prefix"]]
    at line 288.  [inl] is the response of an early return; a [TypeError]
    raised by [in] or by the subscript on a list, a string or a scalar is
    caught by the [except Exception] of line 233.  [inr] is the truthy
    [prompt_prefix], of whatever type. *)
Definition persona_prompt (persona : PyObj) : Response + PyObj :=
  let invalid := inl (RespJson 500 [("error", "Internal server error: Coach configuration invalid.")]) in
  let crash := inl (RespJson 500 [("error", "Internal server error loading coach data.")]) in
  match py_in "prompt_prefix" persona with
  | None => crash
  | Some false => invalid
  | Some true =>
      match persona, py_dict_get persona "prompt_prefix" with
      | PyDict _, Some v =>
          if negb (py_truthy v) then invalid else inr v
      | _, _ => crash
      end
  end.

(** [SystemMessage(content=system_prompt_content)] (line 289): a prefix
    that is not a string fails the message's validation, which is raised
    again at line 337 (langchain's list-of-parts content is not
    modelled). *)
Definition system_prompt (prefix : PyObj) : option string :=
  match prefix with
  | PyStr p => Some p
  | _ => None
  end.

(** Lines 246-266: the retrieval call, made only when [RAG_ENABLED]. *)
Definition rag_retrieve (rag_enabled : bool) (g : RagGlobals M I) (sanitized : string)
    : option (list string) :=
  if rag_enabled then Some (search_documents g (PyStr sanitized) 3) else None.

(** Lines 270-277: the browser's history is used only when the session's
    [current_coach] is set and equals the requested coach. *)
Definition select_history (session : option PyObj) (coach_name : string) (history : PyObj)
    : PyObj :=
  match session with
  | Some (PyStr prev) =>
      if String.eqb prev EmptyString then PyList []
      else if String.eqb coach_name prev then history else PyList []
  | _ => PyList []
  end.

(** Line 309: system prompt, past turns, then the final human message. *)
Definition messages_to_send (prefix : string) (past : list Message) (context sanitized : string)
    : list Message :=
  [SystemMessage prefix] ++ past ++ [HumanMessage (final_human_content context sanitized)].

(** Lines 316-337 once the messages [sent] are built: the answer, or the
    exception of [chat_model.invoke] re-raised with the request's id. *)
Definition model_response (env : RouteEnv) (sent : list Message) (message_id : string) : Response :=
  match rt_gemini env sent with
  | Some answer => RespJson 200 [("answer", clean_answer answer); ("message_id", message_id)]
  | None => internal_server_error (Some message_id)
  end.

(** Lines 194-337, with [RAG_ENABLED] the flag of the start-up load and
    [g] the retrieval globals. *)
Definition index_post (rag_enabled : bool) (g : RagGlobals M I) (env : RouteEnv)
    (session : option PyObj) (message_id : string) : RouteResult :=
  match rt_json env with
  | None => rr_stop (internal_server_error None) session
  | Some data =>
  if negb (py_truthy data) then rr_stop (RespJson 400 [("error", "No data provided")]) session else
  match py_dict_get data "message", py_dict_get data "coach_name",
        py_dict_get_or data "history" (PyList []) with
  | Some message, Some coach, Some history =>
    if negb (py_truthy message && py_truthy coach) then
      rr_stop (RespJson 400 [("error", "Missing message or coach name")]) session else
    let sanitized := sanitize_input message in
    match coach with
    | PyStr coach_name =>
      match rt_persona env (coach_filename coach_name) with
      | PersonaNotFound =>
          rr_stop (RespJson 400 [("error", "Coach configuration for " +:+ dquote +:+ coach_name
                                           +:+ dquote +:+ " not found.")]) session
      | PersonaBadJson => rr_stop (RespJson 500 [("error", "Error loading coach configuration.")]) session
      | PersonaReadError => rr_stop (RespJson 500 [("error", "Internal server error loading coach data.")]) session
      | PersonaLoaded persona =>
        match persona_prompt persona with
        | inl resp => rr_stop resp session
        | inr prefix =>
          if is_joke_request sanitized then
            rr_stop (joke_response (rt_joke_http env) message_id) session
          else
          let retrieved := rag_retrieve rag_enabled g sanitized in
          let context := match retrieved with Some docs => retrieved_context docs | None => EmptyString end in
          let session' := Some coach in
          match manage_conversation_history (select_history session coach_name history) None 15 with
          | None => {| rr_response := internal_server_error None; rr_session := session';
                       rr_retrieved := retrieved; rr_sent := None; rr_error_step := None |}
          | Some past =>
            match system_prompt prefix with
            | None => {| rr_response := internal_server_error (Some message_id); rr_session := session';
                         rr_retrieved := retrieved; rr_sent := None;
                         rr_error_step := Some (error_step retrieved) |}
            | Some system_prompt_content =>
              let sent := messages_to_send system_prompt_content past context sanitized in
              {| rr_response := model_response env sent message_id; rr_session := session';
                 rr_retrieved := retrieved; rr_sent := Some sent;
                 rr_error_step := match rt_gemini env sent with
                                  | Some _ => None
                                  | None => Some (error_step retrieved)
                                  end |}
            end
          end
        end
      end
    | _ => rr_stop (internal_server_error None) session
    end
  | _, _, _ => rr_stop (internal_server_error None) session
  end
  end.
End Route.


(** The shapes of the JSON bodies the route sends. *)
Definition response_shape (mid : string) (resp : Response) : Prop :=
  match resp with
  | RespJson 200 p => exists answer, p = [("answer", answer); ("message_id", mid)]
  | RespJson 400 p | RespJson 500 p => exists e, p = [("error", e)]
  | RespJson _ _ => False
  | RespServerError _ => True
  end.

(** * The [/feedback] route (lines 378-386) *)

(** [if not data or 'message_id' not in data or 'rating' not in data]
    evaluated left to right, then the subscripts [data['message_id']] and
    [data['rating']] of the log line, which raise on anything but a dict. *)
Definition feedback (json : option PyObj) : Response :=
  let invalid := RespJson 400 [("error", "Invalid feedback data")] in
  match json with
  | None => internal_server_error None
  | Some data =>
      if negb (py_truthy data) then invalid else
      match py_in "message_id" data with
      | None => internal_server_error None
      | Some false => invalid
      | Some true =>
          match py_in "rating" data with
          | None => internal_server_error None
          | Some false => invalid
          | Some true =>
              match data with
              | PyDict _ => RespJson 200 [("status", "success");
                                          ("message", "Feedback received. Thank you!")]
              | _ => internal_server_error None
              end
          end
      end
  end.

(** * A concrete request *)

Module RouteDemo.

Definition persona_files (name : string) : PersonaFile :=
  if String.eqb name "ai_yoda.json"
  then PersonaLoaded (PyDict [(PyStr "prompt_prefix", PyStr "You are AI Yoda.")])
  else PersonaNotFound.

Definition body (msg : string) (coach : string) (history : PyObj) : PyObj :=
  PyDict [(PyStr "message", PyStr msg); (PyStr "coach_name", PyStr coach);
          (PyStr "history", history)].

Definition env (msg : string) (history : PyObj) : RouteEnv :=
  {| rt_json := Some (body msg "AI Yoda" history);
     rt_persona := persona_files;
     rt_joke_http := JokeResponse 200 (Some (PyDict [(PyStr "id", PyStr "R7UfaahVfFd");
                                                     (PyStr "joke", PyStr "I'm reading a book on anti-gravity.");
                                                     (PyStr "status", PyInt 200)]));
     rt_gemini := fun _ => Some "  **Patience** you must have.  " |}.

(** The same request when the model call raises. *)
Definition env_model_down : RouteEnv :=
  {| rt_json := Some (body "fruit dessert" "AI Yoda" (PyList []));
     rt_persona := persona_files;
     rt_joke_http := JokeRaised;
     rt_gemini := fun _ => None |}.

End RouteDemo.


(** * Proofs *)


Section RouteProofs.
Context {M I : Type} `{!Embedder M, !VectorIndex I, !VectorIndexOk I}.
Implicit Types (g : RagGlobals M I) (env : RouteEnv).

Lemma py_truthy_str (s : string) : py_truthy (PyStr s) = true <-> s <> EmptyString.
Proof. destruct s; simpl; split; congruence. Qed.

(** Every request either stops before the coach is recorded, with the
    session, retrieval and model untouched, or passes validation, persona
    loading and the joke check; then the session holds the coach, the
    retrieval is [rag_retrieve] and the prompt is [messages_to_send]. *)
Lemma index_post_cases (rag_enabled : bool) g env (session : option PyObj) (mid : string) :
  let r := index_post rag_enabled g env session mid in
  (rr_session r = session /\ rr_retrieved r = None /\ rr_sent r = None) \/
  exists data message coach_name history persona prefix,
    rt_json env = Some data /\
    py_dict_get data "message" = Some message /\
    py_dict_get data "coach_name" = Some (PyStr coach_name) /\
    py_dict_get_or data "history" (PyList []) = Some history /\
    py_truthy message = true /\ coach_name <> EmptyString /\
    rt_persona env (coach_filename coach_name) = PersonaLoaded persona /\
    persona_prompt persona = inr prefix /\
    is_joke_request (sanitize_input message) = false /\
    rr_session r = Some (PyStr coach_name) /\
    rr_retrieved r = rag_retrieve rag_enabled g (sanitize_input message) /\
    rr_sent r = (past ← manage_conversation_history (select_history session coach_name history) None 15;
                 content ← system_prompt prefix;
                 Some (messages_to_send content past
                         (match rag_retrieve rag_enabled g (sanitize_input message) with
                          | Some docs => retrieved_context docs | None => EmptyString end)
                         (sanitize_input message))) /\
    rr_response r =
      match rr_sent r with
      | Some sent => model_response env sent mid
      | None => internal_server_error
                  ((λ _, mid) <$> manage_conversation_history (select_history session coach_name history) None 15)
      end.
Proof.
  unfold index_post. destruct (rt_json env) as [data|]; [|by left].
  destruct (py_truthy data); simpl; [|by left].
  destruct (py_dict_get data "message") as [message|] eqn:Hm; [|by left].
  destruct (py_dict_get data "coach_name") as [coach|] eqn:Hc; [|by left].
  destruct (py_dict_get_or data "history" (PyList [])) as [history|] eqn:Hh; [|by left].
  destruct (py_truthy message) eqn:Htm; simpl; [|by left].
  destruct (py_truthy coach) eqn:Htc; simpl; [|by left].
  destruct coach as [| | |coach_name| | | |]; try by left.
  destruct (rt_persona env (coach_filename coach_name)) as [| | |persona] eqn:Hp; try by left.
  destruct (persona_prompt persona) as [resp|prefix] eqn:Hpp; [by left|].
  destruct (is_joke_request (sanitize_input message)) eqn:Hj; [by left|].
  right. apply py_truthy_str in Htc.
  destruct (manage_conversation_history _ None 15) as [past|] eqn:Hmh;
    [destruct (system_prompt prefix) as [content|] eqn:Hsp|];
    eexists _, _, _, _, _, _; split_and!; try done; simpl; by rewrite ?Hmh, ?Hsp.
Qed.

(** The early returns of the persona check are 500 bodies. *)
Lemma persona_prompt_inl (persona : PyObj) (resp : Response) :
  persona_prompt persona = inl resp ->
  exists e, resp = RespJson 500 [("error", e)].
Proof. unfold persona_prompt. rag_cases; intros; simplify_eq/=; eauto. Qed.

End RouteProofs.

(** Case analysis of a request through [index_post_cases]. *)
Ltac route_cases rag g env session mid :=
  generalize (index_post_cases rag g env session mid); cbv zeta;
  intros [(Hs & Hr & Hsent) | (data & message & coach_name & history & persona & prefix &
    Hj & Hm & Hc & Hh & Htm & Hne & Hp & Hpp & Hjoke & Hs & Hr & Hsent & Hresp)].

(** Walks [index_post] to the branch after the joke check, closing every
    early return with [stop]. *)
Ltac index_post_walk stop :=
  unfold index_post;
  destruct (rt_json _) as [data|]; simpl; [|stop];
  destruct (py_truthy data); simpl; [|stop];
  destruct (py_dict_get data "message"), (py_dict_get data "coach_name") as [[]|],
    (py_dict_get_or data "history" (PyList [])); simpl; try stop;
    destruct (_ && _); simpl; try stop;
  destruct (rt_persona _ _) as [| | |persona]; simpl; try stop;
  destruct (persona_prompt persona) as [resp|prefix] eqn:Hpp; simpl;
    [apply persona_prompt_inl in Hpp as [? ->]; stop|];
  destruct (is_joke_request _); simpl;
    [unfold joke_response; try destruct (get_dad_joke _); stop|].

(** Closes a branch of [index_post] that returns before the model call. *)
Ltac error_stop :=
  split; [intros ?sent ?Hsent; discriminate Hsent
         |intros ?error_ref ?Href; cbv [internal_server_error] in Href; simplify_eq/=; left; by split].

Section RouteClaims.
Context {M I : Type} `{!Embedder M, !VectorIndex I, !VectorIndexOk I}.
Implicit Types (g : RagGlobals M I) (env : RouteEnv).


Lemma persona_prompt_nonempty (persona prefix : PyObj) (content : string) :
  persona_prompt persona = inr prefix -> system_prompt prefix = Some content ->
  content <> EmptyString.
Proof.
  unfold persona_prompt. rag_cases; try discriminate.
  intros [= <-]. apply negb_false_iff in H0.
  destruct (p.2) as [| | |c| | | |]; simpl; intros Hsp; try discriminate.
  injection Hsp as <-. by apply py_truthy_str.
Qed.

(** The final human message always ends with the user's query. *)
Lemma final_human_content_query (context sanitized : string) :
  exists pre, final_human_content context sanitized = pre +:+ ("User Query: " +:+ sanitized).
Proof. apply py_join_snoc. Qed.

Lemma final_human_content_no_context (sanitized : string) :
  final_human_content EmptyString sanitized = "User Query: " +:+ sanitized.
Proof. reflexivity. Qed.

Lemma remove_asterisks_clean (s : string) : py_contains "*" (remove_asterisks s) = false.
Proof.
  induction s as [|c s IH]; [done|].
  change (remove_asterisks (String c s)) with
    (if Ascii.eqb c "*" then remove_asterisks s else String c (remove_asterisks s)).
  destruct (Ascii.eqb c "*") eqn:E; [done|]. apply Ascii.eqb_neq in E.
  change (py_contains "*" (String c (remove_asterisks s))) with
    (String.prefix "*" (String c (remove_asterisks s)) || py_contains "*" (remove_asterisks s)).
  rewrite IH, orb_false_r. cbn [String.prefix]. destruct (ascii_dec "*" c); [congruence|done].
Qed.

(** The session's coach differs: the browser's history is dropped. *)
Lemma select_history_switch (session : option PyObj) (coach_name : string) (history : PyObj) :
  session <> Some (PyStr coach_name) -> select_history session coach_name history = PyList [].
Proof.
  unfold select_history. intros Hs. rag_cases; try done.
  match goal with H : String.eqb _ _ = true |- _ => apply String.eqb_eq in H end. congruence.
Qed.

Lemma request_fields (data : PyObj) (message : PyObj) (coach : PyObj) :
  py_dict_get data "message" = Some message ->
  exists history, py_dict_get_or data "history" (PyList []) = Some history.
Proof. intros [kvs ->]%py_dict_get_dict. apply py_dict_get_or_dict. Qed.

(** A request whose JSON object lacks a truthy [message] or a
    truthy [coach_name] is answered 400 "Missing message or coach name",
    before any file is read: the session is unchanged, nothing is
    retrieved and the model is not called. *)
Theorem index_post_missing_fields (rag_enabled : bool) g env (session : option PyObj)
    (mid : string) (data message coach : PyObj) :
  rt_json env = Some data -> py_truthy data = true ->
  py_dict_get data "message" = Some message -> py_dict_get data "coach_name" = Some coach ->
  py_truthy message = false \/ py_truthy coach = false ->
  index_post rag_enabled g env session mid =
  rr_stop (RespJson 400 [("error", "Missing message or coach name")]) session.
Proof.
  intros Hj Hd Hm Hc Hf. destruct (request_fields data message coach Hm) as [history Hh].
  unfold index_post. rewrite Hj, Hd, Hm, Hc, Hh. simpl.
  by destruct Hf as [-> | ->]; [|rewrite andb_false_r].
Qed.

(** The session's [current_coach] only ever changes to the
    non-empty [coach_name] of the request; a request that stops before
    that point leaves the session as it was and neither retrieves
    documents nor calls the model. *)
Theorem index_post_session (rag_enabled : bool) g env (session : option PyObj) (mid : string) :
  let r := index_post rag_enabled g env session mid in
  (rr_session r = session /\ rr_retrieved r = None /\ rr_sent r = None) \/
  exists data coach_name,
    rt_json env = Some data /\ py_dict_get data "coach_name" = Some (PyStr coach_name) /\
    coach_name <> EmptyString /\ rr_session r = Some (PyStr coach_name).
Proof.
  route_cases rag_enabled g env session mid; [by left | right; eauto 10].
Qed.

(** C21: the retrieval service is called only when RAG is enabled, once,
    with the sanitized message and [k = 3]; so at most three documents
    ever reach the prompt. *)
Theorem index_post_retrieval (rag_enabled : bool) g env (session : option PyObj) (mid : string)
    (docs : list string) :
  rr_retrieved (index_post rag_enabled g env session mid) = Some docs ->
  rag_enabled = true /\ length docs <= 3 /\
  exists data message,
    rt_json env = Some data /\ py_dict_get data "message" = Some message /\
    docs = search_documents g (PyStr (sanitize_input message)) 3.
Proof.
  route_cases rag_enabled g env session mid; rewrite Hr; [discriminate|].
  unfold rag_retrieve. destruct rag_enabled; [intros [= <-]|discriminate].
  split_and!; [done| |eauto]. exact (proj1 (search_documents_length g (PyStr (sanitize_input message)) 3)).
Qed.

(** With RAG disabled the last message sent to the model is exactly
    ["User Query: " ++ sanitized message], with no context block. *)
Theorem index_post_rag_disabled (g : RagGlobals M I) env (session : option PyObj) (mid : string)
    (sent : list Message) :
  rr_sent (index_post false g env session mid) = Some sent ->
  exists data message,
    rt_json env = Some data /\ py_dict_get data "message" = Some message /\
    last sent = Some (HumanMessage ("User Query: " +:+ sanitize_input message)).
Proof.
  route_cases false g env session mid; rewrite Hsent; [discriminate|]. intros (past & _ & (content & _ & [= <-])%bind_Some)%bind_Some.
  exists data, message. split_and!; [done|done|].
  unfold messages_to_send. by rewrite app_assoc, last_snoc.
Qed.

(** C22: whenever the model is called, it receives the coach's non-empty
    system prompt, at most 30 past messages that are all well formed, and
    a final human message ending with ["User Query: " ++ sanitized message]. *)
Theorem index_post_prompt_shape (rag_enabled : bool) g env (session : option PyObj)
    (mid : string) (sent : list Message) :
  rr_sent (index_post rag_enabled g env session mid) = Some sent ->
  exists prefix past content data message,
    sent = SystemMessage prefix :: past ++ [HumanMessage content] /\
    prefix <> EmptyString /\ Forall history_message_ok past /\ length past <= 30 /\
    rt_json env = Some data /\ py_dict_get data "message" = Some message /\
    exists pre, content = pre +:+ ("User Query: " +:+ sanitize_input message).
Proof.
  route_cases rag_enabled g env session mid; rewrite Hsent; [discriminate|]. intros (past & Hpast & (content & Hsp & [= <-])%bind_Some)%bind_Some.
  destruct (manage_history_None_ok _ 15 past ltac:(lia) Hpast) as [Hok Hlen].
  eexists content, past, _, data, message. split_and!; try done.
  - by apply (persona_prompt_nonempty persona prefix).
  - apply final_human_content_query.
Qed.

(** C23: when the session's coach is not the requested one (a first
    message or a switch of coach), the browser's history is discarded:
    the model receives only the system prompt and the final message. *)
Theorem index_post_coach_switch (rag_enabled : bool) g env (session : option PyObj)
    (mid : string) (body : PyObj) (coach : string) (sent : list Message) :
  rt_json env = Some body -> py_dict_get body "coach_name" = Some (PyStr coach) ->
  session <> Some (PyStr coach) ->
  rr_sent (index_post rag_enabled g env session mid) = Some sent ->
  exists prefix content, sent = [SystemMessage prefix; HumanMessage content].
Proof.
  intros Hj0 Hc0 Hs0.
  route_cases rag_enabled g env session mid; rewrite Hsent; [discriminate|].
  rewrite Hj0 in Hj. injection Hj as <-. rewrite Hc0 in Hc. injection Hc as <-.
  rewrite select_history_switch by done. simpl.
  destruct (system_prompt prefix); [|discriminate]. intros [= <-]. by eexists _, _.
Qed.

(** C24: an answer the model produced is returned stripped and without a
    single asterisk. *)
Theorem index_post_answer_clean (rag_enabled : bool) g env (session : option PyObj)
    (mid : string) (sent : list Message) (answer : string) (rest : list (string * string)) :
  rr_sent (index_post rag_enabled g env session mid) = Some sent ->
  rr_response (index_post rag_enabled g env session mid) = RespJson 200 (("answer", answer) :: rest) ->
  py_contains "*" answer = false /\ py_strip answer = answer.
Proof.
  route_cases rag_enabled g env session mid; [by rewrite Hsent|].
  intros Hsome. rewrite Hresp, Hsome. unfold model_response. destruct (rt_gemini env sent) as [a|]; [|discriminate].
  intros [= <- _]. unfold clean_answer. split.
  - destruct (py_contains "*" _) eqn:Hstar; [|done].
    apply py_strip_contains in Hstar. by rewrite remove_asterisks_clean in Hstar.
  - apply py_strip_idem.
Qed.

(** C26: functional: a valid request whose message mentions a joke trigger is
    answered with the fetched joke (or the 500 page when the fetch
    raises) before any retrieval or model call, and the session is left
    unchanged. *)
Theorem index_post_joke (rag_enabled : bool) g env (session : option PyObj) (mid : string)
    (data message : PyObj) (coach_name : string) (persona prefix : PyObj) :
  rt_json env = Some data -> py_truthy data = true ->
  py_dict_get data "message" = Some message -> py_dict_get data "coach_name" = Some (PyStr coach_name) ->
  py_truthy message = true -> coach_name <> EmptyString ->
  rt_persona env (coach_filename coach_name) = PersonaLoaded persona ->
  persona_prompt persona = inr prefix ->
  is_joke_request (sanitize_input message) = true ->
  index_post rag_enabled g env session mid =
  rr_stop (joke_response (rt_joke_http env) mid) session.
Proof.
  intros Hj Hd Hm Hc Htm Hne Hp Hpp Hjoke.
  destruct (request_fields data message (PyStr coach_name) Hm) as [history Hh].
  apply py_truthy_str in Hne.
  unfold index_post. rewrite Hj, Hd, Hm, Hc, Hh, Htm, Hne. simpl. by rewrite Hp, Hpp, Hjoke.
Qed.

(** C27: functional: [/feedback] accepts a request exactly when its body is a JSON
    object with both a [message_id] and a [rating] key; other bodies get
    400, or the 500 page when the log line subscripts a list or string. *)
Theorem feedback_accepts (json : option PyObj) (payload : list (string * string)) :
  feedback json = RespJson 200 payload <->
  exists kvs, json = Some (PyDict kvs) /\ kvs <> [] /\
    py_in "message_id" (PyDict kvs) = Some true /\ py_in "rating" (PyDict kvs) = Some true /\
    payload = [("status", "success"); ("message", "Feedback received. Thank you!")].
Proof.
  unfold feedback. split.
  - rag_cases; intros Hr; simplify_eq; eexists; split_and!; try done;
      simpl; f_equal; assumption.
  - intros (kvs & -> & Hne & Hm & Hr & ->). rewrite Hm, Hr.
    by destruct kvs.
Qed.

(** C19: type: every response of the POST route is a 200 body
    [{"answer", "message_id"}] carrying the request's id, a 400 or 500
    body [{"error"}], or the 500 page; no other status or key set is
    ever produced. *)
Theorem index_post_response_shape (rag_enabled : bool) g env (session : option PyObj)
    (mid : string) :
  response_shape mid (rr_response (index_post rag_enabled g env session mid)).
Proof.
  index_post_walk ltac:(solve [simpl; eauto]).
  destruct (manage_conversation_history _ None 15); simpl; [|done].
  destruct (system_prompt prefix); simpl; [|done].
  unfold model_response. destruct (rt_gemini env _); simpl; eauto.
Qed.

(** The 500 page's text names the error reference it is given. *)
Lemma error_page_message_ref (error_ref : string) :
  py_contains error_ref (error_page_message error_ref) = true.
Proof. apply py_contains_app_r, py_contains_app_l, py_contains_refl. Qed.

(** Every 500 page of the POST route shows [N/A] or the request's id. *)
Lemma index_post_server_error_ref (rag_enabled : bool) g env (session : option PyObj)
    (mid error_ref : string) :
  rr_response (index_post rag_enabled g env session mid) = RespServerError error_ref ->
  error_ref = "N/A" \/ error_ref = mid.
Proof.
  index_post_walk ltac:(cbv [internal_server_error]; intros ?; simplify_eq/=; by left).
  destruct (manage_conversation_history _ None 15); simpl; [|intros [= <-]; by left].
  destruct (system_prompt prefix); simpl; [|intros [= <-]; by right].
  unfold model_response. destruct (rt_gemini env _); simpl; [discriminate|intros [= <-]; by right].
Qed.

(** C20: error: the 500 page of the POST route shows the request's
    [message_id] exactly for the failures of the model-call block (the
    system prompt rejected, or the model raising after the coach was
    recorded); every other exception shows [N/A] and happens before the
    model is called. *)
Theorem index_post_error_ref (rag_enabled : bool) g env (session : option PyObj) (mid : string) :
  let r := index_post rag_enabled g env session mid in
  (forall sent, rr_sent r = Some sent -> rt_gemini env sent = None ->
     rr_response r = RespServerError mid) /\
  (forall error_ref, rr_response r = RespServerError error_ref ->
     (error_ref = "N/A" /\ rr_sent r = None) \/
     (error_ref = mid /\ (exists coach, rr_session r = Some (PyStr coach)) /\
      forall sent, rr_sent r = Some sent -> rt_gemini env sent = None)).
Proof.
  intros r; subst r. index_post_walk error_stop.
  destruct (manage_conversation_history _ None 15); simpl; [|error_stop].
  destruct (system_prompt prefix); simpl.
  - unfold model_response. destruct (rt_gemini env _) as [answer|] eqn:Hg; split.
    + intros ? [= <-]. congruence.
    + by intros ? ?.
    + by intros ? [= <-] _.
    + intros ? Hr. cbv [internal_server_error] in Hr. simplify_eq.
      right. split_and!; eauto. by intros ? [= <-].
  - split; [intros ? Hs; discriminate Hs|]. intros ? Hr. cbv [internal_server_error] in Hr.
    simplify_eq. right. split_and!; eauto. intros ? Hs; discriminate Hs.
Qed.

(** C28: error: when the model call raises, the error log names the
    step [RAG search] whenever RAG is enabled, although the retrieval
    completed and the exception came from the model; only with RAG
    disabled does it name the Gemini call. *)
Theorem index_post_error_step (rag_enabled : bool) g env (session : option PyObj) (mid : string)
    (sent : list Message) :
  rr_sent (index_post rag_enabled g env session mid) = Some sent ->
  rt_gemini env sent = None ->
  rr_error_step (index_post rag_enabled g env session mid) =
    Some (if rag_enabled then "RAG search" else "Gemini API call or processing").
Proof.
  index_post_walk ltac:(intros Hs; discriminate Hs).
  destruct (manage_conversation_history _ None 15); simpl; [|discriminate].
  destruct (system_prompt prefix); simpl; [|discriminate].
  intros [= <-] ->. by destruct rag_enabled.
Qed.

(** C25: [get_dad_joke] raises only when the joke API answers a status
    below 400 (or 600 and above) with a JSON value that is not an
    object; connection errors, HTTP errors and bodies that are not JSON
    all give the fallback text. *)
Theorem get_dad_joke_raises (r : JokeHttp) :
  get_dad_joke r = None <->
  exists status json,
    r = JokeResponse status (Some json) /\ ~ (400 <= status < 600)%Z /\
    forall kvs, json <> PyDict kvs.
Proof.
  unfold get_dad_joke. split.
  - destruct r as [|status [json|]]; [discriminate| |];
      destruct ((400 <=? status) && (status <? 600))%Z eqn:Hs; try discriminate.
    intros Hj. exists status, json. split_and!; [done| |].
    + apply andb_false_iff in Hs as [Hs|Hs]; [apply Z.leb_gt in Hs|apply Z.ltb_ge in Hs]; lia.
    + intros kvs ->. discriminate.
  - intros (status & json & -> & Hs & Hj).
    replace ((400 <=? status) && (status <? 600))%Z with false
      by (symmetry; apply andb_false_iff;
          destruct (Z.leb_spec 400 status); [right; apply Z.ltb_ge; lia|by left]).
    destruct json; try done. by destruct (Hj kvs).
Qed.

End RouteClaims.

(** * Witnesses *)

Lemma index_post_missing_fields_witness :
  index_post true Demo.ready (RouteDemo.env "" (PyList [])) None "id1" =
  rr_stop (RespJson 400 [("error", "Missing message or coach name")]) None.
Proof.
  apply (index_post_missing_fields true Demo.ready (RouteDemo.env "" (PyList [])) None "id1"
           (RouteDemo.body "" "AI Yoda" (PyList [])) (PyStr "") (PyStr "AI Yoda"));
    try reflexivity.
  by left.
Defined.

Lemma index_post_retrieval_witness :
  true = true /\ length ["apple pie"; "banana bread"; "car engine"] <= 3 /\
  exists data message,
    rt_json (RouteDemo.env "fruit dessert" demo_history) = Some data /\
    py_dict_get data "message" = Some message /\
    ["apple pie"; "banana bread"; "car engine"] =
      search_documents Demo.ready (PyStr (sanitize_input message)) 3.
Proof.
  apply (index_post_retrieval true Demo.ready (RouteDemo.env "fruit dessert" demo_history)
           (Some (PyStr "AI Yoda")) "id1").
  vm_compute. reflexivity.
Defined.

Lemma index_post_rag_disabled_witness :
  exists data message,
    rt_json (RouteDemo.env "fruit dessert" demo_history) = Some data /\
    py_dict_get data "message" = Some message /\
    last [SystemMessage "You are AI Yoda."; HumanMessage "User Query: fruit dessert"] =
      Some (HumanMessage ("User Query: " +:+ sanitize_input message)).
Proof.
  apply (index_post_rag_disabled Demo.ready (RouteDemo.env "fruit dessert" demo_history) None "id1").
  vm_compute. reflexivity.
Defined.

Lemma index_post_prompt_shape_witness :
  exists prefix past content data message,
    [SystemMessage "You are AI Yoda."; HumanMessage "User Query: fruit dessert"] =
      SystemMessage prefix :: past ++ [HumanMessage content] /\
    prefix <> EmptyString /\ Forall history_message_ok past /\ length past <= 30 /\
    rt_json (RouteDemo.env "fruit dessert" demo_history) = Some data /\
    py_dict_get data "message" = Some message /\
    exists pre, content = pre +:+ ("User Query: " +:+ sanitize_input message).
Proof.
  apply (index_post_prompt_shape false Demo.ready (RouteDemo.env "fruit dessert" demo_history)
           None "id1").
  vm_compute. reflexivity.
Defined.

Lemma index_post_coach_switch_witness :
  exists prefix content,
    [SystemMessage "You are AI Yoda."; HumanMessage "User Query: fruit dessert"] =
      [SystemMessage prefix; HumanMessage content].
Proof.
  apply (index_post_coach_switch false Demo.ready (RouteDemo.env "fruit dessert" demo_history)
           (Some (PyStr "Career Catalyst")) "id1" (RouteDemo.body "fruit dessert" "AI Yoda" demo_history)
           "AI Yoda"); try reflexivity.
  discriminate.
Defined.

Lemma index_post_answer_clean_witness :
  py_contains "*" "Patience you must have." = false /\
  py_strip "Patience you must have." = "Patience you must have.".
Proof.
  apply (index_post_answer_clean true Demo.ready (RouteDemo.env "fruit dessert" demo_history)
           (Some (PyStr "AI Yoda")) "id1"
           (SystemMessage "You are AI Yoda." :: HumanMessage "hi" :: AIMessage "Hello!" ::
            HumanMessage "x" :: AIMessage "ok" ::
            [HumanMessage (final_human_content
               (retrieved_context ["apple pie"; "banana bread"; "car engine"]) "fruit dessert")])
           _ [("message_id", "id1")]); vm_compute; reflexivity.
Defined.

Lemma index_post_joke_witness :
  index_post true Demo.ready (RouteDemo.env "tell me a joke" demo_history) None "id1" =
  rr_stop (RespJson 200 [("answer", "Okay, you asked for it! Here’s a dad joke: " +:+
                                    "I'm reading a book on anti-gravity.");
                         ("message_id", "id1")]) None.
Proof.
  apply (index_post_joke true Demo.ready (RouteDemo.env "tell me a joke" demo_history) None "id1"
           (RouteDemo.body "tell me a joke" "AI Yoda" demo_history) (PyStr "tell me a joke")
           "AI Yoda" (PyDict [(PyStr "prompt_prefix", PyStr "You are AI Yoda.")])
           (PyStr "You are AI Yoda."));
    try reflexivity.
  discriminate.
Defined.

Lemma index_post_error_ref_witness :
  rr_response (index_post false Demo.ready RouteDemo.env_model_down None "id1") = RespServerError "id1" /\
  py_contains "id1" (error_page_message "id1") = true.
Proof.
  split; [|vm_compute; reflexivity].
  apply (proj1 (index_post_error_ref false Demo.ready RouteDemo.env_model_down None "id1")
           [SystemMessage "You are AI Yoda."; HumanMessage "User Query: fruit dessert"]);
    vm_compute; reflexivity.
Defined.

Lemma index_post_error_step_witness :
  rr_error_step (index_post true Demo.ready RouteDemo.env_model_down None "id1") = Some "RAG search".
Proof.
  apply (index_post_error_step true Demo.ready RouteDemo.env_model_down None "id1"
           [SystemMessage "You are AI Yoda.";
            HumanMessage (final_human_content
                            (retrieved_context (search_documents Demo.ready (PyStr "fruit dessert") 3))
                            "fruit dessert")]);
    vm_compute; reflexivity.
Defined.
