(* ===== verification/Coaches.v ===== *)
(** * The coach sidebar and the coach pages, from [src/app.py]

    [load_coach_sidebar_data] (lines 150-186) lists [coach_data/] in
    sorted order and turns every visible [.json] file into a sidebar
    entry: its display name ([base.replace("_", " ").title()]), its URL
    name, its image (the persona's [image], or [default.jpg] when that
    file is missing) and the image's URL.  A file that fails to load or
    to process is skipped.  The route [/coach/<coach_url_name>] (lines
    346-375) maps a URL name to a template and renders it with the
    sidebar and the entry whose URL name is the one requested; otherwise
    it aborts with 404, which the 404 handler (lines 390-395) renders
    with the sidebar.  The file system and [url_for] are inputs
    ([SidebarEnv], [PageEnv]); template rendering is the [Page] value.
    The 500 handler (lines 396-407) renders [error.html] with its
    message and the sidebar; [render_response] is what a JSON route's
    response or exception becomes. *)

From stdpp Require Import base list strings sorting.
From Stdlib Require Import ZArith Lia Ascii.
From S2P Require Import Prelude PyData Embedding FaissIndex RagProcessor App Route.

Local Open Scope rag_scope.

(** One dictionary of [coach_data_list]. *)
Record CoachEntry := {
  ce_name : string;
  ce_url_name : string;
  ce_image : string;
  ce_image_url : string
}.

(** What the file system and Flask answer while the sidebar is built. *)
Record SidebarEnv := {
  sb_dir_exists : bool;                  (** [os.path.isdir(COACH_DATA_DIR)] *)
  sb_listdir : option (list string);     (** [os.listdir]; [None]: it raised *)
  sb_load : string -> option PyObj;      (** [open] + [json.load]; [None]: it raised *)
  sb_image_exists : string -> bool;      (** [os.path.exists] of [static/images/<img>] *)
  sb_image_url : string -> string        (** [url_for('static', filename=f'images/{img}', v=...)] *)
}.

(** [sorted(...)] on strings: code-point (byte) order. *)
Definition py_sorted (names : list string) : list string := merge_sort String.le names.

(** Line 159. *)
Definition is_coach_file (filename : string) : bool :=
  py_endswith ".json" filename && negb (String.prefix "." filename).

(** Line 161. *)
Definition coach_display_name (base_name : string) : string :=
  py_title (py_replace_char "_" " " base_name).

(** Line 162. *)
Definition coach_url_name (display_name : string) : string :=
  py_remove_char " " (py_lower display_name).

(** Lines 160-184 for one file.  [persona_data.get] on a non-dict and
    [os.path.join] on an image that is not a string raise; the
    [except Exception] of line 183 skips the file. *)
Definition sidebar_entry (env : SidebarEnv) (filename : string) : option CoachEntry :=
  let display := coach_display_name (py_drop_last 5 filename) in
  match sb_load env filename with
  | None => None
  | Some persona_data =>
      match py_dict_get_or persona_data "image" (PyStr "default.jpg") with
      | Some (PyStr image) =>
          let image := if sb_image_exists env image then image else "default.jpg" in
          Some {| ce_name := display; ce_url_name := coach_url_name display;
                  ce_image := image; ce_image_url := sb_image_url env image |}
      | _ => None
      end
  end.

(** Lines 150-186. *)
Definition load_coach_sidebar_data (env : SidebarEnv) : list CoachEntry :=
  if negb (sb_dir_exists env) then [] else
  match sb_listdir env with
  | None => []
  | Some names => omap (sidebar_entry env) (filter is_coach_file (py_sorted names))
  end.

(** Lines 349-356. *)
Definition coach_template_mapping : list (string * string) :=
  [("aiyoda", "aiyoda"); ("wellnesswarrior", "wellwar"); ("careercatalyst", "carcat");
   ("executivecoach", "execu"); ("personalgrowthguru", "pg"); ("relationshiprevivalist", "rr")].

(** [coach_template_mapping.get(key)]. *)
Definition template_for (key : string) : option string :=
  snd <$> List.find (fun kv => String.eqb kv.1 key) coach_template_mapping.

Record PageEnv := {
  pg_template_exists : string -> bool;   (** [os.path.exists] of the template file *)
  pg_sidebar : SidebarEnv
}.

(** What the browser gets: a coach template rendered with the sidebar and
    the current coach, or the error page of the 404 handler. *)
Inductive Page :=
| RenderCoach (template : string) (coaches : list CoachEntry) (current : option CoachEntry)
| NotFound404 (description : string) (coaches : list CoachEntry)
| ServerError500 (message : string) (coaches : list CoachEntry).

(** Lines 346-375; the [abort(404, ...)] reaches [page_not_found]. *)
Definition coach_page (env : PageEnv) (url_name : string) : Page :=
  match template_for (py_lower url_name) with
  | Some template_name_base =>
      let template_filename := template_name_base +:+ ".html" in
      if pg_template_exists env template_filename then
        let coaches := load_coach_sidebar_data (pg_sidebar env) in
        RenderCoach template_filename coaches
          (List.find (fun c => String.eqb (ce_url_name c) url_name) coaches)
      else
        NotFound404 ("Coach page template '" +:+ template_filename +:+ "' not found.")
                    (load_coach_sidebar_data (pg_sidebar env))
  | None =>
      NotFound404 ("Coach '" +:+ url_name +:+ "' not recognized.")
                  (load_coach_sidebar_data (pg_sidebar env))
  end.

(** The GET branch of [index] (lines 192 and 339-340): [index.html]
    rendered with the sidebar and no current coach. *)
Definition index_get (env : SidebarEnv) : Page :=
  RenderCoach "index.html" (load_coach_sidebar_data env) None.

(** The handler [internal_server_error] (lines 397-407): [error.html]
    with the message naming the error reference, and the sidebar. *)
Definition internal_server_error_page (env : SidebarEnv) (error_ref : string) : Page :=
  ServerError500 (error_page_message error_ref) (load_coach_sidebar_data env).

(** What the browser receives from a JSON route: the [jsonify] body with
    its status, or, for an exception, the page of the handler registered
    for [Exception] (lines 397-398) with status 500. *)
Inductive Reply :=
| ReplyJson (status : Z) (payload : list (string * string))
| ReplyPage (status : Z) (page : Page).

Definition render_response (env : SidebarEnv) (resp : Response) : Reply :=
  match resp with
  | RespJson status payload => ReplyJson status payload
  | RespServerError error_ref => ReplyPage 500 (internal_server_error_page env error_ref)
  end.

(** A coach directory as the repository ships it. *)
Module CoachDemo.

Definition files : list string :=
  ["wellness_warrior.json"; "ai_yoda.json"; ".draft.json"; "README.md"; "career_catalyst.json"].

Definition sidebar : SidebarEnv :=
  {| sb_dir_exists := true;
     sb_listdir := Some files;
     sb_load := fun f => if String.eqb f "career_catalyst.json" then None
                         else Some (PyDict [(PyStr "image", PyStr "yoda.jpg")]);
     sb_image_exists := fun img => String.eqb img "yoda.jpg";
     sb_image_url := fun img => "/static/images/" +:+ img |}.

Definition env : PageEnv :=
  {| pg_template_exists := fun _ => true; pg_sidebar := sidebar |}.

(** The entry the sidebar shows for [ai_yoda.json]. *)
Definition yoda : CoachEntry :=
  {| ce_name := "Ai Yoda"; ce_url_name := "aiyoda"; ce_image := "yoda.jpg";
     ce_image_url := "/static/images/yoda.jpg" |}.

End CoachDemo.

(** * Proofs *)

Lemma coach_url_name_shape (display : string) :
  py_has_upper (coach_url_name display) = false /\
  py_has_char " " (coach_url_name display) = false.
Proof.
  unfold coach_url_name. split; [|apply py_has_char_remove].
  apply py_has_upper_remove, py_has_upper_lower.
Qed.

Lemma sidebar_entry_Some (env : SidebarEnv) (filename : string) (c : CoachEntry) :
  sidebar_entry env filename = Some c ->
  ce_name c = coach_display_name (py_drop_last 5 filename) /\
  ce_url_name c = coach_url_name (ce_name c) /\
  (ce_image c = "default.jpg" \/ sb_image_exists env (ce_image c) = true) /\
  ce_image_url c = sb_image_url env (ce_image c).
Proof.
  unfold sidebar_entry. rag_cases; intros; simplify_eq/=; split_and!; auto.
Qed.

(** Every entry the sidebar lists comes from one file of the listing. *)
Lemma load_coach_sidebar_data_elem (env : SidebarEnv) (c : CoachEntry) :
  c ∈ load_coach_sidebar_data env ->
  exists names filename,
    sb_listdir env = Some names /\ filename ∈ names /\ is_coach_file filename = true /\
    sidebar_entry env filename = Some c.
Proof.
  unfold load_coach_sidebar_data. destruct (sb_dir_exists env); [|by intros ?%elem_of_nil].
  destruct (sb_listdir env) as [names|]; [|by intros ?%elem_of_nil].
  intros (filename & Hin & Hc)%list_elem_of_omap.
  apply list_elem_of_filter in Hin as [Hf Hin].
  exists names, filename. split_and!; try done.
  - unfold py_sorted in Hin. by rewrite merge_sort_Permutation in Hin.
  - by apply Is_true_true.
Qed.

(** URL names in the sidebar never hold an upper-case letter. *)
Lemma sidebar_url_name_lower (env : SidebarEnv) (c : CoachEntry) :
  c ∈ load_coach_sidebar_data env -> py_has_upper (ce_url_name c) = false.
Proof.
  intros (names & filename & _ & _ & _ & He)%load_coach_sidebar_data_elem.
  destruct (sidebar_entry_Some env filename c He) as (_ & -> & _).
  apply coach_url_name_shape.
Qed.

(** C29: when the coach directory can be listed, the sidebar is the
    entries of exactly the visible [.json] files of the listing, taken in
    sorted order, each entry built from its own file (files that fail to
    load or carry a non-string image are skipped). *)
Theorem load_coach_sidebar_data_spec (env : SidebarEnv) (names : list string) :
  sb_dir_exists env = true -> sb_listdir env = Some names ->
  exists files,
    load_coach_sidebar_data env = omap (sidebar_entry env) files /\
    Sorted String.le files /\
    files ≡ₚ filter is_coach_file names.
Proof.
  intros Hd Hl. exists (filter is_coach_file (py_sorted names)).
  unfold load_coach_sidebar_data. rewrite Hd, Hl. split_and!; [done| |].
  - eapply Sorted_sublist; [apply _|apply sublist_filter|apply Sorted_merge_sort; apply _].
  - unfold py_sorted. by rewrite merge_sort_Permutation.
Qed.

(** Every sidebar entry has the display name of its file, a URL name
    that is the lower-cased display name without spaces (so it holds no
    upper-case letter and no space), and an image that is [default.jpg]
    or a file that exists. *)
Theorem sidebar_entries_wellformed (env : SidebarEnv) (c : CoachEntry) :
  c ∈ load_coach_sidebar_data env ->
  exists filename,
    is_coach_file filename = true /\
    ce_name c = coach_display_name (py_drop_last 5 filename) /\
    ce_url_name c = coach_url_name (ce_name c) /\
    py_has_upper (ce_url_name c) = false /\ py_has_char " " (ce_url_name c) = false /\
    (ce_image c = "default.jpg" \/ sb_image_exists env (ce_image c) = true).
Proof.
  intros (names & filename & _ & _ & Hf & He)%load_coach_sidebar_data_elem.
  destruct (sidebar_entry_Some env filename c He) as (Hn & Hu & Hi & _).
  pose proof (coach_url_name_shape (ce_name c)) as [Hup Hsp].
  exists filename. rewrite Hu. split_and!; auto.
Qed.

(** C30: the chat route finds the persona file the sidebar was built
    from: for a file [<base>.json] whose base has no upper-case letter and
    no space, [coach_filename] of the displayed name is the file name
    again ([title] and [replace] undo each other after [lower]). *)
Theorem coach_filename_roundtrip (base : string) :
  py_has_upper base = false -> py_has_char " " base = false ->
  coach_filename (coach_display_name (py_drop_last 5 (base +:+ ".json"))) = base +:+ ".json".
Proof.
  intros Hup Hsp. change 5%nat with (String.length ".json"). rewrite (py_drop_last_app base ".json").
  unfold coach_filename, coach_display_name, py_title. rewrite py_lower_title_from.
  rewrite py_lower_no_upper by (apply py_has_upper_replace; [done|exact Hup]).
  by rewrite py_replace_char_roundtrip.
Qed.

(** C31: a coach page is rendered only for a mapped URL name whose
    template exists, with the current sidebar; the highlighted coach is
    a sidebar entry with exactly the requested URL name, so a URL with
    an upper-case letter (which still selects the template through
    [lower()]) never highlights a coach. *)
Theorem coach_page_current (env : PageEnv) (url_name template : string)
    (coaches : list CoachEntry) (current : option CoachEntry) :
  coach_page env url_name = RenderCoach template coaches current ->
  (exists base, template_for (py_lower url_name) = Some base /\ template = base +:+ ".html") /\
  pg_template_exists env template = true /\
  coaches = load_coach_sidebar_data (pg_sidebar env) /\
  (forall c, current = Some c -> c ∈ coaches /\ ce_url_name c = url_name) /\
  (py_has_upper url_name = true -> current = None).
Proof.
  unfold coach_page. destruct (template_for (py_lower url_name)) as [base|]; [|discriminate].
  destruct (pg_template_exists env _) eqn:Ht; [|discriminate]. intros [= <- <- <-].
  split_and!; [eauto|done|done| |].
  - intros c (Hc & Heq)%find_some. apply String.eqb_eq in Heq. split; [|done].
    by apply list_elem_of_In.
  - intros Hup. destruct (List.find _ _) as [c|] eqn:Hf; [|done].
    apply find_some in Hf as [Hin%list_elem_of_In Heq]. apply String.eqb_eq in Heq.
    pose proof (sidebar_url_name_lower _ _ Hin) as Hlow. congruence.
Qed.

(** * Witnesses *)

Lemma load_coach_sidebar_data_spec_witness :
  exists files,
    load_coach_sidebar_data CoachDemo.sidebar = omap (sidebar_entry CoachDemo.sidebar) files /\
    Sorted String.le files /\
    files ≡ₚ filter is_coach_file CoachDemo.files.
Proof. apply load_coach_sidebar_data_spec; reflexivity. Defined.

Lemma sidebar_entries_wellformed_witness :
  exists filename,
    is_coach_file filename = true /\
    ce_name CoachDemo.yoda = coach_display_name (py_drop_last 5 filename) /\
    ce_url_name CoachDemo.yoda = coach_url_name (ce_name CoachDemo.yoda) /\
    py_has_upper (ce_url_name CoachDemo.yoda) = false /\ py_has_char " " (ce_url_name CoachDemo.yoda) = false /\
    (ce_image CoachDemo.yoda = "default.jpg" \/ sb_image_exists CoachDemo.sidebar (ce_image CoachDemo.yoda) = true).
Proof.
  apply sidebar_entries_wellformed. apply list_elem_of_In. vm_compute. left. reflexivity.
Defined.

Lemma coach_filename_roundtrip_witness :
  coach_filename (coach_display_name (py_drop_last 5 ("wellness_warrior" +:+ ".json"))) =
  "wellness_warrior" +:+ ".json".
Proof. apply coach_filename_roundtrip; reflexivity. Defined.

Lemma coach_page_current_witness :
  (exists base, template_for (py_lower "AIYoda") = Some base /\ "aiyoda.html" = base +:+ ".html") /\
  pg_template_exists CoachDemo.env "aiyoda.html" = true /\
  load_coach_sidebar_data CoachDemo.sidebar = load_coach_sidebar_data (pg_sidebar CoachDemo.env) /\
  (forall c, None = Some c -> c ∈ load_coach_sidebar_data CoachDemo.sidebar /\ ce_url_name c = "AIYoda") /\
  (py_has_upper "AIYoda" = true -> @None CoachEntry = None).
Proof. apply coach_page_current. vm_compute. reflexivity. Defined.
