(* ===== verification/System.v ===== *)
(** * The components together: one persisted index, two readers

    [src/rag_processor.py] (lines 11-14) and [src/faisscheck.py] (lines
    12-15) read the same files ([faiss_index/index.faiss],
    [faiss_index/index.pkl]) with the same model name, so one [World]
    (what those loaders return) gives both the [LoadEnv] of the service
    and the [CheckEnv] of the checker.  [app_startup] is line 56 of
    [src/app.py], [RAG_ENABLED = rag_processor.load_rag_components()],
    run on the globals as the import leaves them.  The theorems relate
    the checker's verdict, the start-up flag and what the chat route
    retrieves.  [app_main] is the module-level start-up of [src/app.py]
    (lines 25-60), [index_post_null_session] the chat route when no
    secret key is set, and [chat_request] one [POST /] of the configured
    application, from the Gemini client to the rendered reply. *)

From stdpp Require Import base list strings sets.
From Stdlib Require Import ZArith Lia.
From S2P Require Import Prelude PyData Embedding FaissIndex RagProcessor FaissCheck App Route Coaches.

Local Open Scope rag_scope.

Section System.
Context {M I : Type} `{!Embedder M, !VectorIndex I}.

(** What the shared files and the model download give. *)
Record World := {
  w_model : option M;
  w_index_exists : bool;
  w_read_index : option I;
  w_pkl_exists : bool;
  w_pickle : option PyObj;
  w_rand : nat -> Z
}.

Definition world_load_env (w : World) : LoadEnv M I :=
  {| env_model := w_model w; env_index_exists := w_index_exists w;
     env_read_index := w_read_index w; env_pkl_exists := w_pkl_exists w;
     env_pickle := w_pickle w |}.

Definition world_check_env (w : World) : CheckEnv M I :=
  {| ce_index_exists := w_index_exists w; ce_pkl_exists := w_pkl_exists w;
     ce_read_index := w_read_index w; ce_pickle := w_pickle w;
     ce_model := w_model w; ce_rand := w_rand w |}.

(** [src/app.py] line 56: the globals after the start-up load, and
    [RAG_ENABLED]. *)
Definition app_startup (w : World) : RagGlobals M I * bool :=
  let '(g, flag, _) := load_rag_components (world_load_env w) rag_init in (g, flag).

(** * Start-up configuration (lines 25-60 of [src/app.py]) *)

(** [os.environ] as an association list, and [os.getenv(key)]. *)
Definition Environ := list (string * string).

Definition getenv (environ : Environ) (key : string) : option string :=
  snd <$> List.find (fun kv => String.eqb kv.1 key) environ.

(** [if not value]: unset or empty. *)
Definition env_truthy (value : option string) : bool :=
  match value with
  | Some v => negb (String.eqb v EmptyString)
  | None => false
  end.

(** The decisions the start-up logs. *)
Inductive StartupLog :=
| LogSecretKeyMissing | LogSecretKeyLoaded | LogApiKeyMissing
| LogUsingModel (name : string) | LogCoachDirMissing | LogRagDisabled | LogRagEnabled.

(** The module-level state of a running application. *)
Record AppConfig := {
  cfg_secret_key : option string;
  cfg_api_key : string;
  cfg_model_name : string;
  cfg_last_updated : Z;
  cfg_rag_enabled : bool;
  cfg_globals : RagGlobals M I
}.

(** Lines 25-60 in order; [None] is the [exit(1)] of line 37, before
    the coach directory is checked and before any loader runs. *)
Definition app_main (environ : Environ) (coach_dir_exists : bool) (now : Z) (w : World)
    : option AppConfig * list StartupLog :=
  let secret := getenv environ "FLASK_SECRET_KEY" in
  let log := [if env_truthy secret then LogSecretKeyLoaded else LogSecretKeyMissing] in
  let api := getenv environ "GOOGLE_API_KEY" in
  match api with
  | Some key =>
      if negb (env_truthy api) then (None, log |> LogApiKeyMissing) else
      let model_name := match getenv environ "GEMINI_MODEL_NAME" with
                        | Some name => name
                        | None => "gemini-2.0-flash-lite-001"
                        end in
      let log := log |> LogUsingModel model_name in
      let log := if coach_dir_exists then log else log |> LogCoachDirMissing in
      let '(g, flag) := app_startup w in
      (Some {| cfg_secret_key := secret; cfg_api_key := key; cfg_model_name := model_name;
               cfg_last_updated := now; cfg_rag_enabled := flag; cfg_globals := g |},
       log |> (if flag then LogRagEnabled else LogRagDisabled))
  | None => (None, log |> LogApiKeyMissing)
  end.

(** A chat request when no secret key is set: Flask's [NullSession]
    reads as empty, so [index_post] runs on an empty session, and the
    write [session['current_coach'] = ...] of line 277 raises, which the
    error handler turns into the 500 page.  The write is reached exactly
    when [index_post] records a coach. *)
Definition index_post_null_session (rag_enabled : bool) (g : RagGlobals M I) (env : RouteEnv)
    (message_id : string) : RouteResult :=
  let r := index_post rag_enabled g env None message_id in
  match rr_session r with
  | None => r
  | Some _ => {| rr_response := internal_server_error None; rr_session := None;
                 rr_retrieved := rr_retrieved r; rr_sent := None; rr_error_step := None |}
  end.

(** * One chat request of the running application *)

(** The client [ChatGoogleGenerativeAI] is built from. *)
Record GeminiClient := {
  gc_model : string;
  gc_api_key : string
}.

(** [create_gemini_chat_model] (lines 77-84): a client for the module
    globals [GEMINI_MODEL_NAME] and [GEMINI_API_KEY]. *)
Definition create_gemini_chat_model (cfg : AppConfig) : GeminiClient :=
  {| gc_model := cfg_model_name cfg; gc_api_key := cfg_api_key cfg |}.

(** What a chat request brings: its JSON body, the coach files, the joke
    API's answer and the [uuid4] of line 210. *)
Record ChatRequest := {
  rq_json : option PyObj;
  rq_persona : string -> PersonaFile;
  rq_joke_http : JokeHttp;
  rq_message_id : string
}.

(** A [POST /] in the application [app_main] configured: the model is
    called through the client of [create_gemini_chat_model]; the session
    is the signed cookie's when a secret key is set (Flask's [if not
    app.secret_key]) and the [NullSession] otherwise; the response, or
    the exception, is rendered with the sidebar.  Returns the reply and
    the session's [current_coach] afterwards. *)
Definition chat_request (cfg : AppConfig) (side : SidebarEnv)
    (invoke : GeminiClient -> list Message -> option string) (rq : ChatRequest)
    (session : option PyObj) : Reply * option PyObj :=
  let env := {| rt_json := rq_json rq; rt_persona := rq_persona rq; rt_joke_http := rq_joke_http rq;
                rt_gemini := invoke (create_gemini_chat_model cfg) |} in
  let r := if env_truthy (cfg_secret_key cfg)
           then index_post (cfg_rag_enabled cfg) (cfg_globals cfg) env session (rq_message_id rq)
           else index_post_null_session (cfg_rag_enabled cfg) (cfg_globals cfg) env (rq_message_id rq) in
  (render_response side (rr_response r), rr_session r).

End System.

Arguments World : clear implicits.
Arguments AppConfig : clear implicits.

(** A world in which the checker passes although a document is not a
    string. *)
Module SystemDemo.
Definition items : list PyObj :=
  [PyInt 7; PyStr "b"; PyStr "c"; PyStr "d"; PyStr "e"].

Definition mixed : World KeywordModel IndexFlatL2 :=
  {| w_model := Some CheckDemo.model; w_index_exists := true;
     w_read_index := Some CheckDemo.index5; w_pkl_exists := true;
     w_pickle := Some (PyList items); w_rand := fun i => Z.of_nat i |}.

(** The consistent files of the checker's demonstration. *)
Definition clean : World KeywordModel IndexFlatL2 :=
  {| w_model := Some CheckDemo.model; w_index_exists := true;
     w_read_index := Some CheckDemo.index5; w_pkl_exists := true;
     w_pickle := Some (PyTuple CheckDemo.items5); w_rand := fun i => Z.of_nat i |}.

(** Every loader succeeds but the pickle holds a dict. *)
Definition dict_pickle : World KeywordModel IndexFlatL2 :=
  {| w_model := Some CheckDemo.model; w_index_exists := true;
     w_read_index := Some CheckDemo.index5; w_pkl_exists := true;
     w_pickle := Some (PyDict []); w_rand := fun i => Z.of_nat i |}.
(** A deployment environment with both keys and no model override. *)
Definition environ : Environ :=
  [("FLASK_SECRET_KEY", "s3cr3t"); ("GOOGLE_API_KEY", "AIza-demo")].
End SystemDemo.

(** * Proofs *)

Section SystemProofs.
Context {M I : Type} `{!Embedder M, !VectorIndex I, !EmbedderOk M, !VectorIndexOk I}.

(** The start-up load with every loader succeeding. *)
Lemma app_startup_all_loaded (w : World M I) m ix md :
  w_model w = Some m -> w_index_exists w = true -> w_read_index w = Some ix ->
  w_pkl_exists w = true -> w_pickle w = Some md ->
  app_startup w =
  ({| embedding_model := Some m; faiss_index := Some ix; metadata := Some md |}, true).
Proof.
  intros Hm He Hr Hp Hk. unfold app_startup, load_rag_components. simpl.
  by rewrite Hm, He, Hr, Hp, Hk.
Qed.

(** C32: if the consistency checker passes on the shared files and the
    model loads, the application starts with RAG enabled and the service
    ready, on an index whose width is the model's dimension and metadata
    with exactly one item per stored vector. *)
Theorem checker_pass_service_ready (w : World M I) (m : M) :
  (check_faiss_index (world_check_env w)).1 = true -> w_model w = Some m ->
  exists ix md items,
    app_startup w =
      ({| embedding_model := Some m; faiss_index := Some ix; metadata := Some md |}, true) /\
    are_rag_components_loaded (app_startup w).1 = true /\
    py_sequence md = Some items /\ ntotal ix = py_len items /\
    index_d ix = get_sentence_embedding_dimension m.
Proof.
  intros (He & Hp & ix & md & items & Hr & Hk & Hs & _ & _ & Hn & Hd)%check_faiss_index_consistent Hm.
  simpl in *. rewrite (app_startup_all_loaded w m ix md) by done.
  exists ix, md, items. split_and!; auto.
  unfold are_rag_components_loaded. simpl. by rewrite (py_sequence_is_list_or_tuple md items).
Qed.

(** When every loader succeeds but the pickle is not a list or
    tuple, the application starts with [RAG_ENABLED] true, yet every
    chat request that retrieves gets no document. *)
Theorem rag_enabled_but_empty (w : World M I) m ix md :
  w_model w = Some m -> w_index_exists w = true -> w_read_index w = Some ix ->
  w_pkl_exists w = true -> w_pickle w = Some md -> py_is_list_or_tuple md = false ->
  (app_startup w).2 = true /\
  forall env session mid docs,
    rr_retrieved (index_post (app_startup w).2 (app_startup w).1 env session mid) = Some docs ->
    docs = [].
Proof.
  intros Hmodel Hie Hread Hpe Hpkl Hmd. rewrite (app_startup_all_loaded w m ix md) by done.
  split; [done|]. intros env session mid docs. simpl.
  route_cases true {| embedding_model := Some m; faiss_index := Some ix; metadata := Some md |}
    env session mid;
    rewrite Hr; [discriminate|].
  unfold rag_retrieve. intros [= <-].
  unfold search_documents, are_rag_components_loaded. simpl. by rewrite Hmd.
Qed.

(** C33: safety: without a (non-empty) [GOOGLE_API_KEY] the process exits
    right after logging it, whatever the files, the model and the coach
    directory: no loader runs.  With one, the application starts with the
    key, and [RAG_ENABLED] and the globals are those of the start-up
    load. *)
Theorem app_main_api_key (environ : Environ) (coach_dir_exists : bool) (now : Z) (w : World M I) :
  (env_truthy (getenv environ "GOOGLE_API_KEY") = false ->
     app_main environ coach_dir_exists now w =
     (None, [if env_truthy (getenv environ "FLASK_SECRET_KEY") then LogSecretKeyLoaded
             else LogSecretKeyMissing; LogApiKeyMissing])) /\
  (env_truthy (getenv environ "GOOGLE_API_KEY") = true ->
     exists cfg log,
       app_main environ coach_dir_exists now w = (Some cfg, log) /\
       getenv environ "GOOGLE_API_KEY" = Some (cfg_api_key cfg) /\
       cfg_rag_enabled cfg = (app_startup w).2 /\ cfg_globals cfg = (app_startup w).1).
Proof.
  unfold app_main. destruct (getenv environ "GOOGLE_API_KEY") as [key|] eqn:Hk.
  2: { simpl. split; [done|discriminate]. }
  unfold env_truthy. destruct (String.eqb key EmptyString); simpl.
  - split; [done|discriminate].
  - split; [discriminate|]. intros _. destruct (app_startup w) as [g flag]. by eexists _, _.
Qed.

(** C10: liveness: from every state the start-up and later loads can
    reach, one load from shared files whose loaders all succeed, with a
    list or tuple pickled, reaches a ready state, which every later load
    leaves as it is, reporting success. *)
Theorem load_eventually_ready (g : RagGlobals M I) (w : World M I) m ix md :
  rag_reachable g ->
  w_model w = Some m -> w_index_exists w = true -> w_read_index w = Some ix ->
  w_pkl_exists w = true -> w_pickle w = Some md -> py_is_list_or_tuple md = true ->
  rag_reachable (load_rag_components (world_load_env w) g).1.1 /\
  are_rag_components_loaded (load_rag_components (world_load_env w) g).1.1 = true /\
  forall env', load_rag_components env' (load_rag_components (world_load_env w) g).1.1 =
               ((load_rag_components (world_load_env w) g).1.1, true, [LogAlreadyLoaded]).
Proof.
  intros Hg Hm He Hr Hp Hk Hmd.
  assert (Hready : are_rag_components_loaded (load_rag_components (world_load_env w) g).1.1 = true).
  { unfold load_rag_components. destruct (are_rag_components_loaded g) eqn:Hl; [done|].
    simpl. rewrite Hm, He, Hr, Hp, Hk. simpl. unfold are_rag_components_loaded. simpl. by rewrite Hmd. }
  split_and!; [by constructor|done|]. intros env'. unfold load_rag_components at 1.
  by rewrite Hready.
Qed.

(** C35: error: when no secret key is set, the model is never called: a
    chat request either stops where it would with a session (and then
    gets the same answer) or ends on the 500 page when the route writes
    the session. *)
Theorem null_session_never_calls_model (rag_enabled : bool) (g : RagGlobals M I) (env : RouteEnv)
    (mid : string) :
  rr_sent (index_post_null_session rag_enabled g env mid) = None /\
  (rr_response (index_post_null_session rag_enabled g env mid) = internal_server_error None \/
   rr_response (index_post_null_session rag_enabled g env mid) =
   rr_response (index_post rag_enabled g env None mid)).
Proof.
  unfold index_post_null_session.
  route_cases rag_enabled g env (@None PyObj) mid; rewrite Hs; simpl; [|by split; [|left]].
  split; [done|by right].
Qed.

(** A response whose 500 pages show [N/A] or [mid] renders as JSON or as
    the error page with the sidebar naming one of them. *)
Lemma render_response_server_error (side : SidebarEnv) (resp : Response) (mid : string) :
  (forall error_ref, resp = RespServerError error_ref -> error_ref = "N/A" \/ error_ref = mid) ->
  (exists status payload, render_response side resp = ReplyJson status payload) \/
  exists msg, render_response side resp = ReplyPage 500 (ServerError500 msg (load_coach_sidebar_data side)) /\
    (msg = error_page_message "N/A" \/ msg = error_page_message mid).
Proof.
  destruct resp as [status payload|error_ref]; intros Href; [left; eauto|right].
  eexists; split; [done|]. destruct (Href error_ref eq_refl) as [-> | ->]; [by left|by right].
Qed.

(** Type: a chat request of the running application, with or
    without a secret key, is answered with a JSON body or with the 500
    error page, rendered with the same coach sidebar as the index page
    and naming [N/A] or the request's id; never a coach page or a 404. *)
Theorem chat_request_reply (cfg : AppConfig M I) (side : SidebarEnv)
    (invoke : GeminiClient -> list Message -> option string) (rq : ChatRequest)
    (session : option PyObj) :
  (exists status payload, (chat_request cfg side invoke rq session).1 = ReplyJson status payload) \/
  exists msg,
    (chat_request cfg side invoke rq session).1 = ReplyPage 500 (ServerError500 msg (load_coach_sidebar_data side)) /\
    index_get side = RenderCoach "index.html" (load_coach_sidebar_data side) None /\
    (msg = error_page_message "N/A" \/ msg = error_page_message (rq_message_id rq)).
Proof.
  unfold chat_request; simpl.
  match goal with |- context [index_post ?rag ?g ?env] =>
    assert (Hidx : forall session error_ref,
      rr_response (index_post rag g env session (rq_message_id rq)) = RespServerError error_ref ->
      error_ref = "N/A" \/ error_ref = rq_message_id rq)
      by (intros ??; apply index_post_server_error_ref) end.
  match goal with |- context [render_response side ?resp] =>
    assert (Href : forall error_ref, resp = RespServerError error_ref ->
                   error_ref = "N/A" \/ error_ref = rq_message_id rq);
    [|destruct (render_response_server_error side resp (rq_message_id rq) Href)
        as [?|(msg & ? & ?)]; [by left|right; by exists msg]] end.
  destruct (env_truthy _); [apply Hidx|].
  unfold index_post_null_session. destruct (rr_session _); [|apply Hidx].
  intros ? [= <-]. by left.
Qed.

(** C34: functional: in a started application every model call goes
    through a client holding the environment's non-empty
    [GOOGLE_API_KEY] and the model [GEMINI_MODEL_NAME], or
    [gemini-2.0-flash-lite-001] when that variable is unset (an empty
    value is kept as it is). *)
Theorem app_main_gemini_client (environ : Environ) (coach_dir_exists : bool) (now : Z)
    (w : World M I) (cfg : AppConfig M I) (log : list StartupLog) :
  app_main environ coach_dir_exists now w = (Some cfg, log) ->
  exists key,
    getenv environ "GOOGLE_API_KEY" = Some key /\ key <> EmptyString /\
    create_gemini_chat_model cfg =
      {| gc_model := match getenv environ "GEMINI_MODEL_NAME" with
                     | Some name => name
                     | None => "gemini-2.0-flash-lite-001"
                     end;
         gc_api_key := key |}.
Proof.
  unfold app_main. destruct (getenv environ "GOOGLE_API_KEY") as [key|]; [|discriminate].
  destruct (env_truthy (Some key)) eqn:Ht; simpl; [|discriminate].
  destruct (app_startup w) as [g flag]. intros [= <- _]. exists key.
  split_and!; [done| |done]. simpl in Ht. intros ->. discriminate Ht.
Qed.

End SystemProofs.

(** The checker does not look at the type of the documents: on a
    world where it passes and the service starts ready, a query whose
    nearest vector is stored with a non-string document gets fewer
    documents than [min k ntotal] (here none for [k = 1]). *)
Theorem checker_misses_non_string_documents :
  (check_faiss_index (world_check_env SystemDemo.mixed)).1 = true /\
  (app_startup SystemDemo.mixed).2 = true /\
  are_rag_components_loaded (app_startup SystemDemo.mixed).1 = true /\
  search_documents (app_startup SystemDemo.mixed).1 (PyStr "fruit") 1 = [].
Proof. vm_compute. split_and!; reflexivity. Qed.

(** * Witnesses *)

Lemma checker_pass_service_ready_witness :
  exists ix md items,
    app_startup SystemDemo.clean =
      ({| embedding_model := Some CheckDemo.model; faiss_index := Some ix; metadata := Some md |}, true) /\
    are_rag_components_loaded (app_startup SystemDemo.clean).1 = true /\
    py_sequence md = Some items /\ ntotal ix = py_len items /\
    index_d ix = get_sentence_embedding_dimension CheckDemo.model.
Proof. apply checker_pass_service_ready; vm_compute; reflexivity. Defined.

Lemma rag_enabled_but_empty_witness :
  (app_startup SystemDemo.dict_pickle).2 = true /\
  forall env session mid docs,
    rr_retrieved (index_post (app_startup SystemDemo.dict_pickle).2
                    (app_startup SystemDemo.dict_pickle).1 env session mid) = Some docs ->
    docs = [].
Proof.
  apply (rag_enabled_but_empty SystemDemo.dict_pickle CheckDemo.model CheckDemo.index5 (PyDict []));
    reflexivity.
Defined.

Lemma app_main_api_key_witness :
  (env_truthy (getenv SystemDemo.environ "GOOGLE_API_KEY") = false ->
     app_main SystemDemo.environ true 1700000000 SystemDemo.clean =
     (None, [if env_truthy (getenv SystemDemo.environ "FLASK_SECRET_KEY") then LogSecretKeyLoaded
             else LogSecretKeyMissing; LogApiKeyMissing])) /\
  (env_truthy (getenv SystemDemo.environ "GOOGLE_API_KEY") = true ->
     exists cfg log,
       app_main SystemDemo.environ true 1700000000 SystemDemo.clean = (Some cfg, log) /\
       getenv SystemDemo.environ "GOOGLE_API_KEY" = Some (cfg_api_key cfg) /\
       cfg_rag_enabled cfg = (app_startup SystemDemo.clean).2 /\
       cfg_globals cfg = (app_startup SystemDemo.clean).1).
Proof. apply app_main_api_key. Defined.

Lemma load_eventually_ready_witness :
  rag_reachable (load_rag_components (world_load_env SystemDemo.clean) rag_init).1.1 /\
  are_rag_components_loaded (load_rag_components (world_load_env SystemDemo.clean) rag_init).1.1 = true /\
  forall env', load_rag_components env' (load_rag_components (world_load_env SystemDemo.clean) rag_init).1.1 =
               ((load_rag_components (world_load_env SystemDemo.clean) rag_init).1.1, true, [LogAlreadyLoaded]).
Proof.
  apply (load_eventually_ready rag_init SystemDemo.clean CheckDemo.model
           CheckDemo.index5 (PyTuple CheckDemo.items5)); try reflexivity.
  constructor.
Defined.

Lemma app_main_gemini_client_witness :
  exists cfg log, app_main SystemDemo.environ true 1700000000 SystemDemo.clean = (Some cfg, log) /\
  exists key,
    getenv SystemDemo.environ "GOOGLE_API_KEY" = Some key /\ key <> EmptyString /\
    create_gemini_chat_model cfg = {| gc_model := "gemini-2.0-flash-lite-001"; gc_api_key := key |}.
Proof.
  eexists _, _. split; [reflexivity|].
  eapply (app_main_gemini_client SystemDemo.environ true 1700000000 SystemDemo.clean).
  reflexivity.
Defined.
