(* ===== verification/Server.v ===== *)
(** * The application serving a browser: routes, session and traces

    [src/app.py] registers three routes ([/] for GET and POST, line 190;
    [/coach/<coach_url_name>], line 346; [/feedback], line 378) and the
    error handlers of lines 390-407.  [serve] dispatches one request of
    one browser to the route that handles it and returns the reply and
    the session cookie's [current_coach] afterwards; [serve_all] runs a
    sequence of requests.  The deployment (coach files, templates, the
    Gemini service) is fixed while the application runs; the request
    brings its body, the joke API's answer and its [uuid4].  Flask saves
    the session also when an error handler produced the response, so a
    coach recorded before an exception stays recorded.

    The labelled transitions [serve] generate the reachable sessions
    [app_reachable] of a browser that starts without a cookie (the
    cookie is signed, so a browser cannot make up another one).  The
    theorems characterise them exactly, relate the relation to the
    executable traces, and show that a conversation with one coach keeps
    its history across the other pages. *)

From stdpp Require Import base list strings.
From Stdlib Require Import ZArith Lia.
From S2P Require Import Prelude PyData Embedding FaissIndex RagProcessor App Route Coaches System.

Local Open Scope rag_scope.

Section Server.
Context {M I : Type} `{!Embedder M, !VectorIndex I}.

(** What the running application reads besides its configuration. *)
Record Deployment := {
  dp_sidebar : SidebarEnv;                            (** [coach_data/] and [url_for] *)
  dp_persona : string -> PersonaFile;                 (** the coach files by name *)
  dp_template_exists : string -> bool;                (** [os.path.exists] of a template *)
  dp_invoke : GeminiClient -> list Message -> option string  (** the Gemini service *)
}.

(** One request of the browser, by route. *)
Inductive AppRequest :=
| ReqIndexGet
| ReqIndexPost (json : option PyObj) (joke : JokeHttp) (message_id : string)
| ReqCoachPage (coach_url_name : string)
| ReqFeedback (json : option PyObj).

(** The status [render_template] pages are sent with: 200, or the one the
    handler returns with the page (lines 395 and 407). *)
Definition page_status (p : Page) : Z :=
  match p with
  | RenderCoach _ _ _ => 200
  | NotFound404 _ _ => 404
  | ServerError500 _ _ => 500
  end.

Definition chat_of (dp : Deployment) (json : option PyObj) (joke : JokeHttp) (mid : string)
    : ChatRequest :=
  {| rq_json := json; rq_persona := dp_persona dp; rq_joke_http := joke; rq_message_id := mid |}.

(** Flask's dispatch to the route of the request; only the chat route
    writes the session. *)
Definition serve (cfg : AppConfig M I) (dp : Deployment) (req : AppRequest)
    (session : option PyObj) : Reply * option PyObj :=
  match req with
  | ReqIndexGet => (ReplyPage 200 (index_get (dp_sidebar dp)), session)
  | ReqIndexPost json joke mid => chat_request cfg (dp_sidebar dp) (dp_invoke dp) (chat_of dp json joke mid) session
  | ReqCoachPage url_name =>
      let p := coach_page {| pg_template_exists := dp_template_exists dp; pg_sidebar := dp_sidebar dp |} url_name in
      (ReplyPage (page_status p) p, session)
  | ReqFeedback json => (render_response (dp_sidebar dp) (feedback json), session)
  end.

(** A sequence of requests of one browser, in order. *)
Fixpoint serve_all (cfg : AppConfig M I) (dp : Deployment) (reqs : list AppRequest)
    (session : option PyObj) : list Reply * option PyObj :=
  match reqs with
  | [] => ([], session)
  | req :: reqs' =>
      let '(reply, session') := serve cfg dp req session in
      let '(replies, session'') := serve_all cfg dp reqs' session' in
      (reply :: replies, session'')
  end.

Definition is_chat_request (req : AppRequest) : bool :=
  match req with ReqIndexPost _ _ _ => true | _ => false end.

(** The sessions a browser can hold: none, or a non-empty coach name
    whose coach file loads with a usable [prompt_prefix]. *)
Definition session_ok (dp : Deployment) (session : option PyObj) : Prop :=
  session = None \/
  exists coach persona prefix,
    session = Some (PyStr coach) /\ coach <> EmptyString /\
    dp_persona dp (coach_filename coach) = PersonaLoaded persona /\
    persona_prompt persona = inr prefix.

(** The sessions reachable from a browser without a cookie. *)
Inductive app_reachable (cfg : AppConfig M I) (dp : Deployment) : option PyObj -> Prop :=
| reach_fresh : app_reachable cfg dp None
| reach_serve req session :
    app_reachable cfg dp session -> app_reachable cfg dp (serve cfg dp req session).2.

End Server.


(** A deployment with the AI Yoda coach and a configured application. *)
Module ServerDemo.
Definition cfg : AppConfig KeywordModel IndexFlatL2 :=
  {| cfg_secret_key := Some "s3cr3t"; cfg_api_key := "AIza-demo";
     cfg_model_name := "gemini-2.0-flash-lite-001"; cfg_last_updated := 1700000000;
     cfg_rag_enabled := true; cfg_globals := Demo.ready |}.

Definition dp : Deployment :=
  {| dp_sidebar := CoachDemo.sidebar; dp_persona := RouteDemo.persona_files;
     dp_template_exists := pg_template_exists CoachDemo.env;
     dp_invoke := fun _ _ => Some "Patience you must have." |}.
End ServerDemo.

(** * Proofs *)

Section ServerProofs.
Context {M I : Type} `{!Embedder M, !VectorIndex I, !VectorIndexOk I}.
Variable cfg : AppConfig M I.
Variable dp : Deployment.

Lemma serve_non_chat (req : AppRequest) (session : option PyObj) :
  is_chat_request req = false -> (serve cfg dp req session).2 = session.
Proof. by destruct req. Qed.

Lemma serve_all_cons (req : AppRequest) (reqs : list AppRequest) (session : option PyObj) :
  (serve_all cfg dp (req :: reqs) session).2 = (serve_all cfg dp reqs (serve cfg dp req session).2).2.
Proof. simpl. destruct (serve cfg dp req session), (serve_all cfg dp reqs _). done. Qed.

Lemma serve_all_snoc (reqs : list AppRequest) (req : AppRequest) (session : option PyObj) :
  (serve_all cfg dp (reqs ++ [req]) session).2 = (serve cfg dp req (serve_all cfg dp reqs session).2).2.
Proof.
  induction reqs as [|req' reqs IH] in session |- *; simpl app; rewrite !serve_all_cons; [done|].
  apply IH.
Qed.

Lemma serve_all_non_chat (reqs : list AppRequest) (session : option PyObj) :
  Forall (fun req => is_chat_request req = false) reqs -> (serve_all cfg dp reqs session).2 = session.
Proof.
  induction 1 as [|req reqs Hreq _ IH] in session |- *; [done|].
  by rewrite serve_all_cons, IH, serve_non_chat.
Qed.

Lemma app_reachable_serve_all (reqs : list AppRequest) (session : option PyObj) :
  app_reachable cfg dp session -> app_reachable cfg dp (serve_all cfg dp reqs session).2.
Proof.
  induction reqs as [|req reqs IH] in session |- *; intros Hs; [done|].
  rewrite serve_all_cons. apply IH. by constructor.
Qed.

(** A chat request leaves the session as it was (none at all without a
    secret key), or, with a secret key, records a valid coach. *)
Lemma serve_chat_session (json : option PyObj) (joke : JokeHttp) (mid : string) (session : option PyObj) :
  (serve cfg dp (ReqIndexPost json joke mid) session).2 =
    (if env_truthy (cfg_secret_key cfg) then session else None) \/
  (env_truthy (cfg_secret_key cfg) = true /\
   exists coach persona prefix,
     (serve cfg dp (ReqIndexPost json joke mid) session).2 = Some (PyStr coach) /\
     coach <> EmptyString /\
     dp_persona dp (coach_filename coach) = PersonaLoaded persona /\
     persona_prompt persona = inr prefix).
Proof.
  unfold serve, chat_request; simpl. destruct (env_truthy _) eqn:Hk.
  - set (env := {| rt_json := json; rt_persona := dp_persona dp; rt_joke_http := joke;
                   rt_gemini := dp_invoke dp (create_gemini_chat_model cfg) |}).
    route_cases (cfg_rag_enabled cfg) (cfg_globals cfg) env session mid; [by left|right].
    split; [done|]. by eexists _, _, _.
  - left. unfold index_post_null_session. by destruct (rr_session (index_post _ _ _ _ _)) eqn:E.
Qed.

(** The sessions reachable are valid, and absent without a secret key. *)
Lemma session_invariant (session : option PyObj) :
  app_reachable cfg dp session ->
  session_ok dp session /\ (env_truthy (cfg_secret_key cfg) = false -> session = None).
Proof.
  induction 1 as [|req session _ [IHok IHnone]]; [split; [by left|done]|].
  destruct (is_chat_request req) eqn:Hc; [|by rewrite serve_non_chat].
  destruct req as [|json joke mid| |]; try discriminate.
  destruct (serve_chat_session json joke mid session) as [-> | (Hk & coach & persona & prefix & -> & ?)].
  - destruct (env_truthy _); [done|]. split; [by left|done].
  - split; [right; by eexists _, _, _|congruence].
Qed.

(** The request that opens a conversation with [coach]. *)
Definition switch_request (coach : string) : AppRequest :=
  ReqIndexPost (Some (PyDict [(PyStr "message", PyStr "hello"); (PyStr "coach_name", PyStr coach)]))
               JokeRaised "switch".

(** With a secret key, one message switches any session to any coach
    whose file loads with a usable prompt, whatever the model does. *)
Lemma session_switch (coach : string) (persona prefix : PyObj) (session : option PyObj) :
  env_truthy (cfg_secret_key cfg) = true -> coach <> EmptyString ->
  dp_persona dp (coach_filename coach) = PersonaLoaded persona -> persona_prompt persona = inr prefix ->
  (serve cfg dp (switch_request coach) session).2 = Some (PyStr coach).
Proof.
  intros Hk Hne Hp Hpp. unfold serve, chat_request; simpl. rewrite Hk. unfold index_post. simpl.
  destruct coach as [|a coach]; [done|]. simpl. rewrite Hp, Hpp. simpl.
  destruct (manage_conversation_history _ None 15); [destruct (system_prompt prefix)|]; done.
Qed.

End ServerProofs.

Section ServerClaims.
Context {M I : Type} `{!Embedder M, !VectorIndex I, !VectorIndexOk I}.
Variable cfg : AppConfig M I.
Variable dp : Deployment.

(** C36: invariant: with a secret key, the sessions a browser can reach
    by any requests are exactly no session and the non-empty coach names
    whose coach file loads with a usable [prompt_prefix]; without a
    secret key no session is ever recorded. *)
Theorem reachable_sessions :
  (env_truthy (cfg_secret_key cfg) = true ->
     forall session, app_reachable cfg dp session <-> session_ok dp session) /\
  (env_truthy (cfg_secret_key cfg) = false ->
     forall session, app_reachable cfg dp session <-> session = None).
Proof.
  split; intros Hk session; split.
  - by intros [? _]%session_invariant.
  - intros [-> | (coach & persona & prefix & -> & Hne & Hp & Hpp)]; [constructor|].
    rewrite <- (session_switch cfg dp coach persona prefix None) by done.
    do 2 constructor.
  - by intros [_ ?]%session_invariant; auto.
  - intros ->. constructor.
Qed.

(** Equivalence: the reachability relation generated by [serve]
    holds of exactly the sessions that some finite sequence of requests,
    run by the executable [serve_all] from a fresh browser, ends in. *)
Theorem app_reachable_traces (session : option PyObj) :
  app_reachable cfg dp session <-> exists reqs, (serve_all cfg dp reqs None).2 = session.
Proof.
  split.
  - induction 1 as [|req session _ (reqs & <-)]; [by exists []|].
    exists (reqs ++ [req]). apply serve_all_snoc.
  - intros (reqs & <-). apply app_reachable_serve_all. constructor.
Qed.

(** C37: functional: once a chat request has recorded [coach], any
    number of index, coach and feedback pages leave it recorded, and the
    next chat message to [coach] is answered with the browser's history
    (not discarded as on a switch). *)
Theorem conversation_continues (session : option PyObj) (json : option PyObj) (joke : JokeHttp)
    (mid : string) (others : list AppRequest) (coach : string) (history : PyObj) :
  app_reachable cfg dp session ->
  (serve cfg dp (ReqIndexPost json joke mid) session).2 = Some (PyStr coach) ->
  Forall (fun req => is_chat_request req = false) others ->
  let session' := (serve_all cfg dp others (serve cfg dp (ReqIndexPost json joke mid) session).2).2 in
  session' = Some (PyStr coach) /\ select_history session' coach history = history.
Proof.
  intros Hr Hs Hothers. cbv zeta. rewrite serve_all_non_chat, Hs by done. split; [done|].
  destruct (session_invariant cfg dp _ (reach_serve cfg dp (ReqIndexPost json joke mid) session Hr))
    as [[Hn | (c & persona & prefix & Hc & Hne & _)] _]; rewrite Hs in *; [discriminate|].
  injection Hc as <-. unfold select_history.
  by rewrite (proj2 (String.eqb_neq _ _) Hne), String.eqb_refl.
Qed.

End ServerClaims.

(** * Witnesses *)

Lemma reachable_sessions_witness :
  app_reachable ServerDemo.cfg ServerDemo.dp (Some (PyStr "AI Yoda")).
Proof.
  apply (proj1 (reachable_sessions ServerDemo.cfg ServerDemo.dp) eq_refl).
  right. eexists _, _, _. split_and!; [reflexivity|discriminate|reflexivity|reflexivity].
Defined.

Lemma conversation_continues_witness :
  (serve_all ServerDemo.cfg ServerDemo.dp [ReqIndexGet; ReqFeedback None; ReqCoachPage "aiyoda"]
     (serve ServerDemo.cfg ServerDemo.dp
        (ReqIndexPost (Some (RouteDemo.body "hello" "AI Yoda" (PyList []))) JokeRaised "id1") None).2).2 =
    Some (PyStr "AI Yoda") /\
  select_history
    (serve_all ServerDemo.cfg ServerDemo.dp [ReqIndexGet; ReqFeedback None; ReqCoachPage "aiyoda"]
       (serve ServerDemo.cfg ServerDemo.dp
          (ReqIndexPost (Some (RouteDemo.body "hello" "AI Yoda" (PyList []))) JokeRaised "id1") None).2).2
    "AI Yoda" demo_history = demo_history.
Proof.
  apply (conversation_continues ServerDemo.cfg ServerDemo.dp None
           (Some (RouteDemo.body "hello" "AI Yoda" (PyList []))) JokeRaised "id1"
           [ReqIndexGet; ReqFeedback None; ReqCoachPage "aiyoda"] "AI Yoda" demo_history).
  - constructor.
  - vm_compute. reflexivity.
  - repeat constructor.
Defined.
